(** * Caching and cookie-backed sessions of the OCTP application scaffold

    A shallow embedding of [app/caching.py], [app/tools.py] and the
    [SessionMiddleware] of [app/middlewares.py], with the properties the
    specification states about them.

    Conventions of the embedding:
    - Python values are the inductive [pyval]; truthiness is [truthy].
    - A coroutine that reads and updates an object is a function in the
      state-and-exception monad [M]: it returns either [Ok v] or [Raise e]
      together with the object as it is left behind.
    - [time.time()] is an argument [now] of the operations that read the
      clock.  Instants are rationals: the rounding of binary floating point
      is not modelled.
    - The [asyncio.Lock] of the in-memory cache is not modelled: every
      operation of the embedding is one atomic step. *)

From Stdlib Require Import ZArith QArith Lqa Ascii String.
From stdpp Require Import base option strings list gmap pretty.

Set Warnings "-register-all".
Local Open Scope string_scope.
Local Open Scope Z_scope.

(** ** Python values *)

Inductive pyval : Type :=
  | PNone
  | PBool (b : bool)
  | PInt (n : Z)
  | PStr (s : string)
  | PList (items : list pyval)
  | PTuple (items : list pyval)
  | PDict (items : list (string * pyval)).

(** [bool(v)] *)
Definition truthy (v : pyval) : bool :=
  match v with
  | PNone => false
  | PBool b => b
  | PInt n => negb (n =? 0)%Z
  | PStr s => negb (String.eqb s "")
  | PList l | PTuple l => match l with [] => false | _ => true end
  | PDict d => match d with [] => false | _ => true end
  end.

(** [bool(s)] for [s : str] and for [s : str | None] *)
Definition str_truthy (s : string) : bool := negb (String.eqb s "").

Definition opt_str_truthy (s : option string) : bool :=
  match s with Some s => str_truthy s | None => false end.

(** [bool(n)] for [n : int | None] *)
Definition opt_int_truthy (n : option Z) : bool :=
  match n with Some n => negb (n =? 0)%Z | None => false end.

(** [v is None] *)
Definition is_None (v : pyval) : bool :=
  match v with PNone => true | _ => false end.

(** ** Exceptions and the monad of stateful, fallible operations *)

Inductive exn : Type :=
  | ConnectionError
  | KeyError (key : string)
  | JSONDecodeError
  | JSONEncodeError
  | ResponseError
  | AppError (detail : string).

Inductive result (A : Type) : Type :=
  | Ok (a : A)
  | Raise (e : exn).
Arguments Ok {A} a.
Arguments Raise {A} e.

Definition M (S A : Type) : Type := S -> result A * S.

Definition ret {S A} (a : A) : M S A := fun s => (Ok a, s).
Definition raise {S A} (e : exn) : M S A := fun s => (Raise e, s).
Definition bind {S A B} (m : M S A) (k : A -> M S B) : M S B :=
  fun s => match m s with
           | (Ok a, s') => k a s'
           | (Raise e, s') => (Raise e, s')
           end.

(** [try: body except ConnectionError: handler] *)
Definition except_ConnectionError {S A} (body : M S A) (handler : M S A) : M S A :=
  fun s => match body s with
           | (Raise ConnectionError, s') => handler s'
           | r => r
           end.

Notation "'let*' x ':=' m 'in' k" := (bind m (fun x => k))
  (at level 10, x name, m at level 100, k at level 200, only parsing).

(** ** [InMemoryCache] *)

Module InMemoryCache.

(** [self.store]: key to [(value, expires_at)] *)
Record t : Type := { store : gmap string (pyval * option Q) }.

Definition init : t := {| store := ∅ |}.

(** [expires_at > time.time()] *)
Definition later_than (expires_at now : Q) : bool :=
  negb (Qle_bool expires_at now).

Definition get (now : Q) (key : string) : M t pyval :=
  fun self =>
    match store self !! key with
    | Some (value, expires_at) =>
        match expires_at with
        | None => (Ok value, self)
        | Some e =>
            if later_than e now then (Ok value, self)
            else (Ok PNone, {| store := delete key (store self) |})
        end
    | None => (Ok PNone, self)
    end.

Definition set (now : Q) (key : string) (value : pyval) (ttl : option Z)
  : M t unit :=
  fun self =>
    let expires_at :=
      match ttl with
      | Some n => if negb (n =? 0)%Z then Some (now + inject_Z n)%Q else None
      | None => None
      end in
    (Ok tt, {| store := <[key := (value, expires_at)]> (store self) |}).

(** [del self.store[key]] raises [KeyError] when the key is missing. *)
Definition delete (key : string) : M t unit :=
  fun self =>
    match store self !! key with
    | Some _ => (Ok tt, {| store := base.delete key (store self) |})
    | None => (Raise (KeyError key), self)
    end.

End InMemoryCache.

(** ** The remote key-value store

    The Redis server and its [redis.asyncio] client are outside the
    repository.  They are modelled as the standard key-value commands GET,
    SET (with an optional expiry in seconds) and DEL over a table of text
    payloads.  [reachable] tells whether a command reaches the server: when
    it does not, the client raises [ConnectionError].  The server refuses a
    SET whose expiry is not positive, and the client raises
    [ResponseError]; expiries beyond the range of the server's integers
    are not modelled.  [clock] is the server's time and [log] records
    every command the client was asked to issue, reachable or not, oldest
    first. *)

Module Redis.

Inductive command : Type :=
  | GET (key : string)
  | SET (key : string) (payload : string) (ex : option Z)
  | DEL (key : string).

Record t : Type := {
  reachable : bool;
  clock : Q;
  db : gmap string (string * option Q);
  log : list command
}.

Definition issue (c : command) (r : t) : t :=
  {| reachable := reachable r; clock := clock r; db := db r;
     log := log r ++ [c] |}.

Definition with_db (d : gmap string (string * option Q)) (r : t) : t :=
  {| reachable := reachable r; clock := clock r; db := d; log := log r |}.

(** An entry is visible until the server clock reaches its expiry. *)
Definition live (r : t) (key : string) : option string :=
  match db r !! key with
  | Some (payload, None) => Some payload
  | Some (payload, Some e) =>
      if negb (Qle_bool e (clock r)) then Some payload else None
  | None => None
  end.

Definition get (key : string) : M t (option string) :=
  fun r =>
    let r := issue (GET key) r in
    if reachable r then (Ok (live r key), r) else (Raise ConnectionError, r).

Definition set (key payload : string) (ex : option Z) : M t unit :=
  fun r =>
    let r := issue (SET key payload ex) r in
    if reachable r then
      match ex with
      | Some n =>
          if (n <=? 0)%Z then (Raise ResponseError, r)
          else
            (Ok tt,
             with_db (<[key := (payload, Some (clock r + inject_Z n)%Q)]> (db r))
               r)
      | None => (Ok tt, with_db (<[key := (payload, None)]> (db r)) r)
      end
    else (Raise ConnectionError, r).

Definition delete (key : string) : M t unit :=
  fun r =>
    let r := issue (DEL key) r in
    if reachable r then (Ok tt, with_db (base.delete key (db r)) r)
    else (Raise ConnectionError, r).

(** Time passing on the server. *)
Definition tick (dt : Q) (r : t) : t :=
  {| reachable := reachable r; clock := (clock r + dt)%Q; db := db r;
     log := log r |}.

End Redis.

(** ** [ORJSONSerializer]

    [encode] is [orjson.dumps(value, default=jsonable_encoder).decode()] and
    [decode] is [orjson.loads(value)].  orjson is outside the repository, so
    the serializer is an interface.  Either direction may fail: [None]
    stands for the fault orjson raises, [JSONEncodeError] or
    [JSONDecodeError]. *)

Class ORJSONSerializer : Type := {
  encode : pyval -> option string;
  decode : string -> option pyval
}.

Definition encode_or_raise `{ORJSONSerializer} {S} (value : pyval) : M S string :=
  match encode value with
  | Some payload => ret payload
  | None => raise JSONEncodeError
  end.

Definition decode_or_raise `{ORJSONSerializer} {S} (payload : string) : M S pyval :=
  match decode payload with
  | Some value => ret value
  | None => raise JSONDecodeError
  end.

(** ** [RedisCache] *)

Module RedisCache.
Section WithSerializer.
Context {_serializer : ORJSONSerializer}.

Record t : Type := { _client : Redis.t; _prefix : option string }.

Definition init (redis : Redis.t) (prefix : option string) : t :=
  {| _client := redis; _prefix := prefix |}.

(** Run a client command on [self._client]. *)
Definition on_client {A} (m : M Redis.t A) : M t A :=
  fun self =>
    let '(r, c) := m (_client self) in
    (r, {| _client := c; _prefix := _prefix self |}).

(** [if self._prefix: key = f"{self._prefix}:{key}"] *)
Definition prefixed (self : t) (key : string) : string :=
  match _prefix self with
  | Some p => if str_truthy p then p +:+ ":" +:+ key else key
  | None => key
  end.

Definition get (key : string) : M t pyval :=
  fun self =>
    if negb (str_truthy key) then (Ok PNone, self)
    else
      let key := prefixed self key in
      except_ConnectionError
        (let* value := on_client (Redis.get key) in
         match value with
         | Some payload =>
             if str_truthy payload then decode_or_raise payload
             else ret PNone
         | None => ret PNone
         end)
        (ret PNone)
        self.

Definition set (key : string) (value : pyval) (ttl : option Z) : M t unit :=
  fun self =>
    if negb (str_truthy key) || negb (truthy value) then (Ok tt, self)
    else
      let key := prefixed self key in
      except_ConnectionError
        (let* payload := encode_or_raise value in
         on_client (Redis.set key payload ttl))
        (ret tt)
        self.

Definition delete (key : string) : M t unit :=
  fun self =>
    if negb (str_truthy key) then (Ok tt, self)
    else
      let key := prefixed self key in
      except_ConnectionError
        (on_client (Redis.delete key))
        (ret tt)
        self.

End WithSerializer.
End RedisCache.

(** ** The module-level [cache] and the [cached] decorator *)

Module Caching.
Section WithSerializer.
Context {_serializer : ORJSONSerializer}.

(** [cache] is an [InMemoryCache] until [set_redis_cache] rebinds it to a
    [RedisCache]; its methods are dispatched on the object it is bound to. *)
Inductive Cache : Type :=
  | InMemory (c : InMemoryCache.t)
  | Remote (c : RedisCache.t).

Definition cache : Cache := InMemory InMemoryCache.init.

Definition set_redis_cache (redis : Redis.t) (prefix : option string)
  (_ : Cache) : Cache :=
  Remote (RedisCache.init redis prefix).

Definition cache_get (now : Q) (key : string) : M Cache pyval :=
  fun c =>
    match c with
    | InMemory m =>
        let '(r, m') := InMemoryCache.get now key m in (r, InMemory m')
    | Remote m =>
        let '(r, m') := RedisCache.get key m in (r, Remote m')
    end.

Definition cache_set (now : Q) (key : string) (value : pyval)
  (ttl : option Z) : M Cache unit :=
  fun c =>
    match c with
    | InMemory m =>
        let '(r, m') := InMemoryCache.set now key value ttl m in
        (r, InMemory m')
    | Remote m =>
        let '(r, m') := RedisCache.set key value ttl m in (r, Remote m')
    end.

Definition cache_delete (key : string) : M Cache unit :=
  fun c =>
    match c with
    | InMemory m =>
        let '(r, m') := InMemoryCache.delete key m in (r, InMemory m')
    | Remote m =>
        let '(r, m') := RedisCache.delete key m in (r, Remote m')
    end.

(** [hashlib.md5(...).hexdigest()] and the rendering of a Python object
    inside an f-string are library code: they are taken as an interface. *)
Class Fingerprint : Type := {
  md5_hexdigest : string -> string;
  py_format : pyval -> string
}.
Context {_fingerprint : Fingerprint}.

(** [def default_key_builder(func, *args, **kwargs)]: [args] is the tuple
    of the positional arguments after [func] and [kwargs] the mapping of
    the keyword arguments. *)
Definition default_key_builder (func_name : string) (args : list pyval)
  (kwargs : list (string * pyval)) : string :=
  md5_hexdigest
    (func_name +:+ ":" +:+ py_format (PTuple args) +:+ ":" +:+
     py_format (PDict kwargs)).

(** The wrapped function or coroutine: its [__name__] and its body, which
    acts on an environment [U] of its own and may raise. *)
Record Func (U : Type) : Type := {
  func_name : string;
  body : list pyval -> list (string * pyval) -> M U pyval
}.
#[global] Arguments func_name {U} _.
#[global] Arguments body {U} _ _ _.

(** The keyword parameters of [cached]. *)
Record Options (U : Type) : Type := {
  cache_key : option string;
  ttl : option Z;
  namespace : option string;
  key_builder :
    option (Func U -> list pyval -> list (string * pyval) -> string)
}.
#[global] Arguments cache_key {U} _.
#[global] Arguments ttl {U} _.
#[global] Arguments namespace {U} _.
#[global] Arguments key_builder {U} _.

(** What a call of the wrapper acts on: the module-level cache, the
    environment of the wrapped function, and how many times the wrapped
    function has been invoked so far. *)
Record World (U : Type) : Type := {
  the_cache : Cache;
  env : U;
  calls : nat
}.
#[global] Arguments the_cache {U} _.
#[global] Arguments env {U} _.
#[global] Arguments calls {U} _.

Section Wrapper.
Context {U : Type}.

Definition on_cache {A} (m : M Cache A) : M (World U) A :=
  fun w =>
    let '(r, c) := m (the_cache w) in
    (r, {| the_cache := c; env := env w; calls := calls w |}).

(** Both branches of [ensure_async_func] run the wrapped function to
    completion with the arguments of the call; the thread pool is not
    modelled. *)
Definition ensure_async_func (f : Func U) (args : list pyval)
  (kwargs : list (string * pyval)) : M (World U) pyval :=
  fun w =>
    let '(r, u) := body f args kwargs (env w) in
    (r, {| the_cache := the_cache w; env := u; calls := S (calls w) |}).

(** The key of a call.  The wrapper passes the tuple [args] and the dict
    [kwargs] as two positional arguments to the key builder. *)
Definition make_key (o : Options U) (f : Func U) (args : list pyval)
  (kwargs : list (string * pyval)) : string :=
  let built :=
    match key_builder o with
    | Some kb => kb f args kwargs
    | None =>
        default_key_builder (func_name f) [PTuple args; PDict kwargs] []
    end in
  let key :=
    match cache_key o with
    | Some k => if str_truthy k then k else built
    | None => built
    end in
  match namespace o with
  | Some ns => if str_truthy ns then ns +:+ ":" +:+ key else key
  | None => key
  end.

(** [now] is the instant of [cache.get] and [now'] that of [cache.set]. *)
Definition wrapper (o : Options U) (f : Func U) (now now' : Q)
  (args : list pyval) (kwargs : list (string * pyval)) : M (World U) pyval :=
  let key := make_key o f args kwargs in
  let* value := on_cache (cache_get now key) in
  if is_None value then
    let* value := ensure_async_func f args kwargs in
    let* _ := on_cache (cache_set now' key value (ttl o)) in
    ret value
  else ret value.

(** [cached(func, cache_key=..., ttl=..., namespace=..., key_builder=...)]
    returns the wrapper. *)
Definition cached (o : Options U) (f : Func U)
  : Q -> Q -> list pyval -> list (string * pyval) -> M (World U) pyval :=
  wrapper o f.

End Wrapper.
End WithSerializer.
End Caching.

(** ** [SessionMiddleware] *)

Module SessionMiddleware.
Section WithSerializer.
Context {_serializer : ORJSONSerializer}.

Inductive SameSite : Type := lax | strict | none.

Definition same_site_str (s : SameSite) : string :=
  match s with lax => "lax" | strict => "strict" | none => "none" end.

(** The attributes [__init__] sets, apart from [self.app] and [self.cache]. *)
Record t : Type := {
  session_cookie : string;
  max_age : option Z;
  path : string;
  security_flags : string
}.

Definition init (session_cookie : string) (max_age : option Z)
  (path : string) (same_site : SameSite) (https_only : bool)
  (domain : option string) : t :=
  let flags := "httponly; samesite=" +:+ same_site_str same_site in
  let flags := if https_only then flags +:+ "; secure" else flags in
  let flags := match domain with
               | Some d => flags +:+ "; domain=" +:+ d
               | None => flags
               end in
  {| session_cookie := session_cookie; max_age := max_age; path := path;
     security_flags := flags |}.

(** [self.cache = RedisCache(redis, prefix=session_cookie)] *)
Definition init_cache (redis : Redis.t) (session_cookie : string)
  : RedisCache.t :=
  RedisCache.init redis (Some session_cookie).

(** An ASGI message: its type and, for a response start, the raw headers. *)
Record Message : Type := {
  mtype : string;
  headers : list (string * string)
}.

(** The connection scope: its type, the cookies parsed from the request
    and the [session] entry, absent until the middleware sets it. *)
Record Scope : Type := {
  type : string;
  cookies : gmap string string;
  session : option pyval
}.

Definition with_session (v : pyval) (sc : Scope) : Scope :=
  {| type := type sc; cookies := cookies sc; session := Some v |}.

(** What one connection acts on: the session store, the scope shared with
    the wrapped application, the messages handed to the outer [send], and
    the number of tokens drawn from [secrets]. *)
Record Conn : Type := {
  cache : RedisCache.t;
  scope : Scope;
  sent : list Message;
  drawn : nat
}.

Definition on_store {A} (m : M RedisCache.t A) : M Conn A :=
  fun st =>
    let '(r, c) := m (cache st) in
    (r, {| cache := c; scope := scope st; sent := sent st;
           drawn := drawn st |}).

(** The outer [send]. *)
Definition send (message : Message) : M Conn unit :=
  fun st =>
    (Ok tt, {| cache := cache st; scope := scope st;
               sent := sent st ++ [message]; drawn := drawn st |}).

(** [secrets.token_urlsafe(32)]: the [n]-th draw is [entropy n]. *)
Definition token_urlsafe (entropy : nat -> string) : M Conn string :=
  fun st =>
    (Ok (entropy (drawn st)),
     {| cache := cache st; scope := scope st; sent := sent st;
        drawn := S (drawn st) |}).

(** [scope["session"]] *)
Definition read_session : M Conn pyval :=
  fun st =>
    match session (scope st) with
    | Some v => (Ok v, st)
    | None => (Raise (KeyError "session"), st)
    end.

(** [MutableHeaders(scope=message).append("Set-Cookie", header_value)] *)
Definition append_set_cookie (header_value : string) (message : Message)
  : Message :=
  {| mtype := mtype message;
     headers := headers message ++ [("set-cookie", header_value)] |}.

Definition persist_header (self : t) (token : string) : string :=
  session_cookie self +:+ "=" +:+ token +:+ "; path=" +:+ path self +:+ "; "
  +:+ (match max_age self with
       | Some n =>
           if negb (n =? 0)%Z then "Max-Age=" +:+ pretty n +:+ "; " else ""
       | None => ""
       end)
  +:+ security_flags self.

Definition clear_header (self : t) : string :=
  session_cookie self +:+ "=" +:+ "null" +:+ "; path=" +:+ path self +:+ "; "
  +:+ "expires=Thu, 01 Jan 1970 00:00:00 GMT; "
  +:+ security_flags self.

(** [cache.delete(value)] with [value : str | None] *)
Definition delete_value (value : option string) : M Conn unit :=
  match value with
  | Some v => on_store (RedisCache.delete v)
  | None => ret tt
  end.

Definition send_wrapper (self : t) (entropy : nat -> string)
  (value : option string) (initial_session_was_empty : bool)
  (message : Message) : M Conn unit :=
  if String.eqb (mtype message) "http.response.start" then
    let* data := read_session in
    if truthy data then
      let* token :=
        (if opt_str_truthy value then ret (default "" value)
         else token_urlsafe entropy) in
      let* _ := on_store (RedisCache.set token data (max_age self)) in
      send (append_set_cookie (persist_header self token) message)
    else if negb initial_session_was_empty then
      let* _ := delete_value value in
      send (append_set_cookie (clear_header self) message)
    else send message
  else send message.

(** The wrapped application, as far as the middleware can observe it: it
    is started on the scope and then assigns to [scope["session"]] and
    sends messages, in some order. *)
Inductive step : Type :=
  | SetSession (v : pyval)
  | Send (message : Message).

Definition App : Type := Scope -> list step.

Definition set_session (v : pyval) : M Conn unit :=
  fun st =>
    (Ok tt, {| cache := cache st; scope := with_session v (scope st);
               sent := sent st; drawn := drawn st |}).

Fixpoint run_app (send : Message -> M Conn unit) (steps : list step)
  : M Conn unit :=
  match steps with
  | [] => ret tt
  | SetSession v :: rest => let* _ := set_session v in run_app send rest
  | Send m :: rest => let* _ := send m in run_app send rest
  end.

(** [scope["type"] not in ("http", "websocket")] *)
Definition not_http_or_websocket (ty : string) : bool :=
  negb (String.eqb ty "http" || String.eqb ty "websocket").

Definition call (self : t) (entropy : nat -> string) (app : App)
  : M Conn unit :=
  fun st =>
    if not_http_or_websocket (type (scope st)) then
      run_app send (app (scope st)) st
    else
      match cookies (scope st) !! session_cookie self with
      | Some value =>
          (let* data := on_store (RedisCache.get value) in
           let initial_session_was_empty := negb (truthy data) in
           let* _ := set_session (if truthy data then data else PDict []) in
           fun st' =>
             run_app
               (send_wrapper self entropy (Some value)
                  initial_session_was_empty)
               (app (scope st')) st') st
      | None =>
          (let* _ := set_session (PDict []) in
           fun st' =>
             run_app (send_wrapper self entropy None true)
               (app (scope st')) st') st
      end.

End WithSerializer.
End SessionMiddleware.

(** ** A serializer for examples

    A compact JSON codec for the fragment of [null], booleans, 64-bit
    integers, strings of printable characters without quote or backslash,
    arrays and objects.  It instantiates [ORJSONSerializer] in the examples, all
    of which stay inside the fragment; outside of it (floats, escape
    sequences) it raises. *)

Module JsonFragment.

Definition dquote : ascii := "034"%char.

Definition plain_char (c : ascii) : bool :=
  let n := nat_of_ascii c in
  (32 <=? n)%nat && (n <=? 126)%nat && negb (Ascii.eqb c dquote)
  && negb (n =? 92)%nat.

Definition plain (s : string) : bool :=
  forallb plain_char (list_ascii_of_string s).

Definition quoted (s : string) : string :=
  String dquote s +:+ String dquote "".

Definition join (sep : string) (parts : list string) : string :=
  match parts with
  | [] => ""
  | p :: ps => fold_left (fun acc q => acc +:+ sep +:+ q) ps p
  end.

Fixpoint dumps (v : pyval) : option string :=
  match v with
  | PNone => Some "null"
  | PBool true => Some "true"
  | PBool false => Some "false"
  | PInt n =>
      if ((- 2 ^ 63 <=? n) && (n <? 2 ^ 64))%Z then Some (pretty n) else None
  | PStr s => if plain s then Some (quoted s) else None
  | PList l | PTuple l =>
      let fix items (l : list pyval) : option (list string) :=
        match l with
        | [] => Some []
        | x :: r =>
            match dumps x, items r with
            | Some a, Some b => Some (a :: b)
            | _, _ => None
            end
        end in
      match items l with
      | Some parts => Some ("[" +:+ join "," parts +:+ "]")
      | None => None
      end
  | PDict d =>
      let fix members (d : list (string * pyval)) : option (list string) :=
        match d with
        | [] => Some []
        | (k, x) :: r =>
            match dumps x, members r with
            | Some a, Some b =>
                if plain k then Some ((quoted k +:+ ":" +:+ a) :: b) else None
            | _, _ => None
            end
        end in
      match members d with
      | Some parts => Some ("{" +:+ join "," parts +:+ "}")
      | None => None
      end
  end.

Definition is_space (c : ascii) : bool :=
  let n := nat_of_ascii c in
  (n =? 32)%nat || (n =? 9)%nat || (n =? 10)%nat || (n =? 13)%nat.

Fixpoint skip (cs : list ascii) : list ascii :=
  match cs with
  | c :: r => if is_space c then skip r else cs
  | [] => []
  end.

Definition is_digit (c : ascii) : bool :=
  let n := nat_of_ascii c in (48 <=? n)%nat && (n <=? 57)%nat.

Fixpoint digits (acc : Z) (cs : list ascii) : Z * list ascii :=
  match cs with
  | c :: r =>
      if is_digit c
      then digits (10 * acc + Z.of_nat (nat_of_ascii c - 48)) r
      else (acc, cs)
  | [] => (acc, [])
  end.

(** A number without fraction or exponent and without a leading zero. *)
Definition number (cs : list ascii) : option (Z * list ascii) :=
  match cs with
  | c :: r =>
      if is_digit c then
        let '(n, rest) := digits 0 cs in
        let leading_zero :=
          Ascii.eqb c "0" && match r with d :: _ => is_digit d | [] => false end in
        match rest with
        | d :: _ =>
            if Ascii.eqb d "." || Ascii.eqb d "e" || Ascii.eqb d "E"
            then None
            else if leading_zero then None else Some (n, rest)
        | [] => if leading_zero then None else Some (n, rest)
        end
      else None
  | [] => None
  end.

Fixpoint chars (acc : string) (cs : list ascii) : option (string * list ascii) :=
  match cs with
  | c :: r =>
      if Ascii.eqb c dquote then Some (acc, r)
      else if plain_char c then chars (acc +:+ String c "") r
      else None
  | [] => None
  end.

Definition literal (word : string) (cs : list ascii) : option (list ascii) :=
  let w := list_ascii_of_string word in
  if String.eqb (string_of_list_ascii (take (length w) cs)) word
  then Some (drop (length w) cs) else None.

Fixpoint value (fuel : nat) (cs : list ascii) : option (pyval * list ascii) :=
  match fuel with
  | O => None
  | S fuel =>
      let fix elements (n : nat) (cs : list ascii)
        : option (list pyval * list ascii) :=
        match n with
        | O => None
        | S n =>
            match value fuel cs with
            | Some (v, rest) =>
                match skip rest with
                | c :: rest' =>
                    if Ascii.eqb c "," then
                      match elements n rest' with
                      | Some (vs, out) => Some (v :: vs, out)
                      | None => None
                      end
                    else if Ascii.eqb c "]" then Some ([v], rest')
                    else None
                | [] => None
                end
            | None => None
            end
        end in
      let fix members (n : nat) (cs : list ascii)
        : option (list (string * pyval) * list ascii) :=
        match n with
        | O => None
        | S n =>
            match skip cs with
            | q :: after_q =>
                if Ascii.eqb q dquote then
                  match chars "" after_q with
                  | Some (k, rest) =>
                      match skip rest with
                      | c :: rest' =>
                          if Ascii.eqb c ":" then
                            match value fuel rest' with
                            | Some (v, rest'') =>
                                match skip rest'' with
                                | c' :: out =>
                                    if Ascii.eqb c' "," then
                                      match members n out with
                                      | Some (kvs, out') =>
                                          Some ((k, v) :: kvs, out')
                                      | None => None
                                      end
                                    else if Ascii.eqb c' "}"
                                    then Some ([(k, v)], out)
                                    else None
                                | [] => None
                                end
                            | None => None
                            end
                          else None
                      | [] => None
                      end
                  | None => None
                  end
                else None
            | [] => None
            end
        end in
      match skip cs with
      | c :: r =>
          if Ascii.eqb c "n" then
            match literal "null" (c :: r) with
            | Some rest => Some (PNone, rest) | None => None end
          else if Ascii.eqb c "t" then
            match literal "true" (c :: r) with
            | Some rest => Some (PBool true, rest) | None => None end
          else if Ascii.eqb c "f" then
            match literal "false" (c :: r) with
            | Some rest => Some (PBool false, rest) | None => None end
          else if Ascii.eqb c dquote then
            match chars "" r with
            | Some (s, rest) => Some (PStr s, rest) | None => None end
          else if Ascii.eqb c "-" then
            match number r with
            | Some (n, rest) => Some (PInt (- n), rest) | None => None end
          else if is_digit c then
            match number (c :: r) with
            | Some (n, rest) => Some (PInt n, rest) | None => None end
          else if Ascii.eqb c "[" then
            match skip r with
            | c' :: r' =>
                if Ascii.eqb c' "]" then Some (PList [], r')
                else match elements (length r) r with
                     | Some (vs, rest) => Some (PList vs, rest)
                     | None => None
                     end
            | [] => None
            end
          else if Ascii.eqb c "{" then
            match skip r with
            | c' :: r' =>
                if Ascii.eqb c' "}" then Some (PDict [], r')
                else match members (length r) r with
                     | Some (kvs, rest) => Some (PDict kvs, rest)
                     | None => None
                     end
            | [] => None
            end
          else None
      | [] => None
      end
  end.

Definition loads (s : string) : option pyval :=
  let cs := list_ascii_of_string s in
  match value (S (length cs)) cs with
  | Some (v, rest) => match skip rest with [] => Some v | _ => None end
  | None => None
  end.

#[export] Instance serializer : ORJSONSerializer := {
  encode := dumps;
  decode := loads
}.

End JsonFragment.


(** ** Notions used in the statements *)

Module Notions.
Section WithSerializer.
Context {_serializer : ORJSONSerializer}.

(** The cache object after the client was asked to issue [c] and the
    server did not change. *)
Definition sent_to (c : Redis.command) (self : RedisCache.t) : RedisCache.t :=
  {| RedisCache._client := Redis.issue c (RedisCache._client self);
     RedisCache._prefix := RedisCache._prefix self |}.

Definition is_write (c : Redis.command) : bool :=
  match c with Redis.GET _ => false | _ => true end.

(** The SET and DEL commands a client was asked to issue. *)
Definition writes (r : Redis.t) : list Redis.command :=
  List.filter is_write (Redis.log r).

(** Nothing was written to the cache between [c0] and [c1]: no entry was
    added or changed (entries may have been dropped on expiry), and on the
    remote backend no SET or DEL was issued. *)
Definition unwritten (c0 c1 : Caching.Cache) : Prop :=
  match c0, c1 with
  | Caching.InMemory m0, Caching.InMemory m1 =>
      forall k : string,
        InMemoryCache.store m1 !! k = InMemoryCache.store m0 !! k
        \/ InMemoryCache.store m1 !! k = None
  | Caching.Remote r0, Caching.Remote r1 =>
      Redis.db (RedisCache._client r1) = Redis.db (RedisCache._client r0)
      /\ writes (RedisCache._client r1) = writes (RedisCache._client r0)
  | _, _ => False
  end.


(** A value that, once set under [key] at [now'] with [ttl], is handed
    back by a lookup at [now2].  In memory: any value but [None], looked up
    before it expires.  On the remote backend: a truthy value under a
    non-empty key on a reachable server, whose payload is non-empty and
    decodes to the value again, with no expiry or a positive one (the
    server clock, not [now'] and [now2], decides expiry there). *)
Definition retained (c : Caching.Cache) (key : string) (v : pyval)
  (ttl : option Z) (now' now2 : Q) : Prop :=
  match c with
  | Caching.InMemory _ =>
      v <> PNone
      /\ match ttl with
         | Some n => n = 0 \/ (now2 < now' + inject_Z n)%Q
         | None => True
         end
  | Caching.Remote r =>
      key <> "" /\ truthy v = true
      /\ Redis.reachable (RedisCache._client r) = true
      /\ (exists payload : string,
            encode v = Some payload /\ payload <> ""
            /\ decode payload = Some v)
      /\ v <> PNone
      /\ match ttl with Some n => 0 < n | None => True end
  end.

(** [value or secrets.token_urlsafe(32)], with the draw counter at [n]. *)
Definition token_of (entropy : nat -> string) (value : option string)
  (n : nat) : string :=
  if opt_str_truthy value then default "" value else entropy n.

(** The messages an application script sends, in order. *)
Fixpoint sends (steps : list SessionMiddleware.step)
  : list SessionMiddleware.Message :=
  match steps with
  | [] => []
  | SessionMiddleware.SetSession _ :: rest => sends rest
  | SessionMiddleware.Send m :: rest => m :: sends rest
  end.

(** The value [scope["session"]] holds after a script, from [before]. *)
Fixpoint last_session (before : option pyval)
  (steps : list SessionMiddleware.step) : option pyval :=
  match steps with
  | [] => before
  | SessionMiddleware.SetSession v :: rest => last_session (Some v) rest
  | SessionMiddleware.Send _ :: rest => last_session before rest
  end.

End WithSerializer.
End Notions.

(** ** Sample objects for the examples *)

Module Samples.

Definition redis_up : Redis.t :=
  {| Redis.reachable := true; Redis.clock := 0%Q; Redis.db := ∅;
     Redis.log := [] |}.

Definition redis_down : Redis.t :=
  {| Redis.reachable := false; Redis.clock := 0%Q; Redis.db := ∅;
     Redis.log := [] |}.

(** A server holding a truncated payload under [app:k]. *)
Definition redis_garbled : Redis.t :=
  {| Redis.reachable := true; Redis.clock := 0%Q;
     Redis.db := {[ "app:k" := ("{", None) ]}; Redis.log := [] |}.

(** A server holding an earlier value under [app:k]. *)
Definition redis_seeded : Redis.t :=
  {| Redis.reachable := true; Redis.clock := 0%Q;
     Redis.db := {[ "app:k" := ("7", None) ]}; Redis.log := [] |}.

(** Stand-ins for [hashlib.md5] and for the rendering of the arguments:
    the digest of a text is the text itself, and a value is rendered as its
    JSON text. *)
#[export] Instance fingerprint : Caching.Fingerprint := {
  Caching.md5_hexdigest s := s;
  Caching.py_format v := default "?" (JsonFragment.dumps v)
}.



(** Raises on its first invocation and returns [1] afterwards. *)
Definition flaky : Caching.Func nat :=
  {| Caching.func_name := "flaky";
     Caching.body := fun _ _ n =>
       match n with
       | O => (Raise (AppError "upstream timeout"), S n)
       | S _ => (Ok (PInt 1), S n)
       end |}.

Definition twice : Caching.Func nat :=
  {| Caching.func_name := "twice";
     Caching.body := fun args _ n =>
       match args with
       | [PInt k] => (Ok (PInt (2 * k)), S n)
       | _ => (Raise (AppError "bad arguments"), S n)
       end |}.

Definition fixed_key : Caching.Options nat :=
  {| Caching.cache_key := Some "fixed"; Caching.ttl := Some 60;
     Caching.namespace := Some "sso"; Caching.key_builder := None |}.

Definition by_arguments : Caching.Options nat :=
  {| Caching.cache_key := None; Caching.ttl := Some 60;
     Caching.namespace := None; Caching.key_builder := None |}.

Definition local_world : Caching.World nat :=
  {| Caching.the_cache := Caching.InMemory InMemoryCache.init;
     Caching.env := O; Caching.calls := O |}.

Definition remote_world : Caching.World nat :=
  {| Caching.the_cache :=
       Caching.Remote (RedisCache.init redis_up (Some "app"));
     Caching.env := O; Caching.calls := O |}.

(** The middleware as the application configures it by default. *)
Definition middleware : SessionMiddleware.t :=
  SessionMiddleware.init "session" (Some 1209600) "/" SessionMiddleware.lax
    false None.

Definition entropy (n : nat) : string := "fresh-" +:+ pretty n.

Definition response_start : SessionMiddleware.Message :=
  {| SessionMiddleware.mtype := "http.response.start";
     SessionMiddleware.headers := [("content-type", "application/json")] |}.

Definition response_body : SessionMiddleware.Message :=
  {| SessionMiddleware.mtype := "http.response.body";
     SessionMiddleware.headers := [] |}.

Definition websocket_accept : SessionMiddleware.Message :=
  {| SessionMiddleware.mtype := "websocket.accept";
     SessionMiddleware.headers := [] |}.

Definition lifespan_complete : SessionMiddleware.Message :=
  {| SessionMiddleware.mtype := "lifespan.startup.complete";
     SessionMiddleware.headers := [] |}.

Definition user_session : pyval := PDict [("user_id", PInt 42)].

(** A connection of type [ty] carrying [cookies], on server [redis]. *)
Definition connection (ty : string) (cookies : gmap string string)
  (redis : Redis.t) : SessionMiddleware.Conn :=
  {| SessionMiddleware.cache := SessionMiddleware.init_cache redis "session";
     SessionMiddleware.scope :=
       {| SessionMiddleware.type := ty;
          SessionMiddleware.cookies := cookies;
          SessionMiddleware.session := None |};
     SessionMiddleware.sent := [];
     SessionMiddleware.drawn := O |}.

(** The same connection once [scope["session"]] holds [data]. *)
Definition in_request (ty : string) (cookies : gmap string string)
  (redis : Redis.t) (data : pyval) : SessionMiddleware.Conn :=
  {| SessionMiddleware.cache := SessionMiddleware.init_cache redis "session";
     SessionMiddleware.scope :=
       {| SessionMiddleware.type := ty;
          SessionMiddleware.cookies := cookies;
          SessionMiddleware.session := Some data |};
     SessionMiddleware.sent := [];
     SessionMiddleware.drawn := O |}.

Definition user_payload : string :=
  "{" +:+ JsonFragment.quoted "user_id" +:+ ":42}".

(** A handler that logs the user in and answers. *)
Definition login_app : SessionMiddleware.App :=
  fun _ => [SessionMiddleware.SetSession user_session;
            SessionMiddleware.Send response_start;
            SessionMiddleware.Send response_body].

(** The same handler, up to the start of the response. *)
Definition login_start_app : SessionMiddleware.App :=
  fun _ => [SessionMiddleware.SetSession user_session;
            SessionMiddleware.Send response_start].

(** A handler that empties the session and answers. *)
Definition logout_app : SessionMiddleware.App :=
  fun _ => [SessionMiddleware.SetSession (PDict []);
            SessionMiddleware.Send response_start;
            SessionMiddleware.Send response_body].

(** A handler that leaves the session alone. *)
Definition plain_app : SessionMiddleware.App :=
  fun _ => [SessionMiddleware.Send response_start;
            SessionMiddleware.Send response_body].

Definition websocket_app : SessionMiddleware.App :=
  fun _ => [SessionMiddleware.Send websocket_accept].

Definition lifespan_app : SessionMiddleware.App :=
  fun _ => [SessionMiddleware.Send lifespan_complete].

(** A server that holds [user_session] under the token [abc]. *)
Definition redis_with_session : Redis.t :=
  {| Redis.reachable := true; Redis.clock := 0%Q;
     Redis.db :=
       {[ "session:abc" :=
            (default "" (JsonFragment.dumps user_session), None) ]};
     Redis.log := [] |}.

End Samples.

(** ** Further notions used in the statements *)

Module MoreNotions.
Section WithSerializer.
Context {_serializer : ORJSONSerializer}.

(** [s2] is [s1] but for the entry under the prefixed [key] and for the
    command log: the prefix, the reachability, the clock and every other
    entry are the same. *)
Definition same_but (key : string) (s1 s2 : RedisCache.t) : Prop :=
  RedisCache._prefix s2 = RedisCache._prefix s1
  /\ Redis.reachable (RedisCache._client s2)
     = Redis.reachable (RedisCache._client s1)
  /\ Redis.clock (RedisCache._client s2) = Redis.clock (RedisCache._client s1)
  /\ forall k : string,
       k <> RedisCache.prefixed s1 key ->
       Redis.db (RedisCache._client s2) !! k
       = Redis.db (RedisCache._client s1) !! k.

(** No message of the script starts an HTTP response. *)
Definition no_response_start (steps : list SessionMiddleware.step) : Prop :=
  Forall (fun s => match s with
                   | SessionMiddleware.Send m =>
                       SessionMiddleware.mtype m <> "http.response.start"
                   | SessionMiddleware.SetSession _ => True
                   end) steps.

(** The script assigns nothing but empty values to the session. *)
Definition keeps_session_empty (steps : list SessionMiddleware.step) : Prop :=
  Forall (fun s => match s with
                   | SessionMiddleware.SetSession v => truthy v = false
                   | SessionMiddleware.Send _ => True
                   end) steps.

(** [m'] is [m] with at most one header appended, a [set-cookie] one. *)
Definition extends (m m' : SessionMiddleware.Message) : Prop :=
  SessionMiddleware.mtype m' = SessionMiddleware.mtype m
  /\ (SessionMiddleware.headers m' = SessionMiddleware.headers m
      \/ exists cookie : string,
           SessionMiddleware.headers m'
           = (SessionMiddleware.headers m
              ++ [("set-cookie", cookie)])%list).

End WithSerializer.
End MoreNotions.


(** ** Further sample objects *)

Module MoreSamples.

Definition down_world : Caching.World nat :=
  {| Caching.the_cache :=
       Caching.Remote (RedisCache.init Samples.redis_down (Some "app"));
     Caching.env := O; Caching.calls := O |}.

Definition garbled_world : Caching.World nat :=
  {| Caching.the_cache :=
       Caching.Remote (RedisCache.init Samples.redis_garbled (Some "app"));
     Caching.env := O; Caching.calls := O |}.

(** [cached(cache_key="k")] *)
Definition key_k : Caching.Options nat :=
  {| Caching.cache_key := Some "k"; Caching.ttl := None;
     Caching.namespace := None; Caching.key_builder := None |}.

(** The world after [twice(3)] went through the wrapper keyed by its
    arguments. *)
Definition warm_world : Caching.World nat :=
  (@Caching.wrapper JsonFragment.serializer Samples.fingerprint nat
     Samples.by_arguments Samples.twice 0%Q 0%Q [PInt 3] []
     Samples.local_world).2.

(** A handler that empties the session and starts the response. *)
Definition logout_start_app : SessionMiddleware.App :=
  fun _ => [SessionMiddleware.SetSession (PDict []);
            SessionMiddleware.Send Samples.response_start].

(** The same middleware session with the store out of reach. *)
Definition in_request_down (data : pyval) : SessionMiddleware.Conn :=
  Samples.in_request "http" ∅ Samples.redis_down data.

End MoreSamples.

(** ** Python helpers for the request-level code

    The functions below raise exceptions the cache layer never does, so
    they come with an exception type and an outcome type of their own. *)

Module Py.

Inductive exception : Type :=
  | ValueError
  | KeyError (key : string)
  | TypeError
  | IndexError
  | LookupError
  | Failure (name : string).

Inductive outcome (A : Type) : Type :=
  | Return (a : A)
  | Throw (e : exception).
Arguments Return {A} a.
Arguments Throw {A} e.

(** [d.get(key)] on a mapping kept as the list of its items, in insertion
    order *)
Fixpoint dict_get (key : string) (d : list (string * pyval)) : option pyval :=
  match d with
  | [] => None
  | (k, v) :: rest => if String.eqb k key then Some v else dict_get key rest
  end.

(** [d[key] = value]: an existing key keeps its place, a new one goes to
    the end *)
Fixpoint dict_set (key : string) (value : pyval) (d : list (string * pyval))
  : list (string * pyval) :=
  match d with
  | [] => [(key, value)]
  | (k, v) :: rest =>
      if String.eqb k key then (k, value) :: rest
      else (k, v) :: dict_set key value rest
  end.

(** [d.pop(key, None)], the returned value dropped *)
Fixpoint dict_pop (key : string) (d : list (string * pyval))
  : list (string * pyval) :=
  match d with
  | [] => []
  | (k, v) :: rest =>
      if String.eqb k key then rest else (k, v) :: dict_pop key rest
  end.

(** The keys of a mapping are pairwise distinct. *)
Definition well_formed (d : list (string * pyval)) : Prop := NoDup (d.*1).

(** [value["groups"]]-style subscription with a [str] key *)
Definition getitem (value : pyval) (key : string) : outcome pyval :=
  match value with
  | PDict d =>
      match dict_get key d with
      | Some v => Return v
      | None => Throw (KeyError key)
      end
  | _ => Throw TypeError
  end.

Fixpoint is_prefix (p s : string) : bool :=
  match p, s with
  | EmptyString, _ => true
  | String a p', String b s' => Ascii.eqb a b && is_prefix p' s'
  | String _ _, EmptyString => false
  end.

(** [needle in haystack] for two [str] *)
Fixpoint is_substring (needle haystack : string) : bool :=
  is_prefix needle haystack
  || match haystack with
     | EmptyString => false
     | String _ rest => is_substring needle rest
     end.

(** [x == s] for a [str] [s] *)
Definition eq_str (s : string) (x : pyval) : bool :=
  match x with PStr t => String.eqb t s | _ => false end.

(** [s in container] for a [str] [s] *)
Definition contains (container : pyval) (s : string) : outcome bool :=
  match container with
  | PList items | PTuple items => Return (existsb (eq_str s) items)
  | PStr t => Return (is_substring s t)
  | PDict d => Return (existsb (fun kv => String.eqb kv.1 s) d)
  | PNone | PBool _ | PInt _ => Throw TypeError
  end.

(** [sep.join(parts)] *)
Fixpoint join (sep : string) (parts : list string) : string :=
  match parts with
  | [] => ""
  | [p] => p
  | p :: rest => p +:+ sep +:+ join sep rest
  end.

End Py.

(** ** [ContentLengthMiddleware] *)

Module ContentLengthMiddleware.

(** A request as the middleware reads it: the method and the headers, the
    names in lower case as the server delivers them. *)
Record Request : Type := {
  method : string;
  headers : list (string * string)
}.

Record Response : Type := { status_code : Z }.

(** [request.headers[name]], the first header of that name; [None] when
    [name not in request.headers] *)
Fixpoint header (name : string) (hs : list (string * string)) : option string :=
  match hs with
  | [] => None
  | (k, v) :: rest => if String.eqb k name then Some v else header name rest
  end.

(** [int(text)] is library code; [None] stands for its [ValueError]. *)
Class Builtins : Type := { int : string -> option Z }.

Section Dispatch.
Context {_builtins : Builtins} {S : Type}.

(** The default of [__init__]: one megabyte. *)
Definition default_max_length : Z := 1024 * 1024.

(** [call_next] is the rest of the pipeline, acting on a state [S]. *)
Definition dispatch (_max_length : Z)
  (call_next : Request -> S -> Py.outcome Response * S) (request : Request)
  : S -> Py.outcome Response * S :=
  fun s =>
    if String.eqb (method request) "POST" then
      match header "content-length" (headers request) with
      | None => (Py.Return {| status_code := 411 |}, s)
      | Some text =>
          match int text with
          | None => (Py.Throw Py.ValueError, s)
          | Some content_length =>
              if (content_length >? _max_length)%Z
              then (Py.Return {| status_code := 413 |}, s)
              else call_next request s
          end
      end
    else call_next request s.

End Dispatch.
End ContentLengthMiddleware.

(** ** [AuthenticationBackend] of the admin pages *)

Module AuthenticationBackend.

Record t : Type := { auth_group : string; public_key : string }.

(** What a call acts on: [request.session] and the world behind
    [auth_internal_user]. *)
Record State (W : Type) : Type := {
  session : list (string * pyval);
  world : W
}.
Arguments session {W} _.
Arguments world {W} _.

Section Backend.
Context {W : Type}.

(** [app.internal.auth_internal_user], a call to the single sign-on
    service behind the memoizer, and [app.security.decode_token]: both are
    taken as given, with the errors they may raise. *)
Variable auth_internal_user : string -> string -> W -> Py.outcome pyval * W.
Variable decode_token : pyval -> string -> Py.outcome pyval.

(** [request_form] is what [await request.form()] yields: the submitted
    form, or the fault of reading and parsing the body.  The call stands
    before the [try], so its fault leaves [login].  A missing field raises
    [KeyError] inside the [try], which the bare [except] turns into
    [False], as it does any fault of the sign-on call.  [request.session]
    is the mapping the session middleware has put on the scope. *)
Definition login (request_form : Py.outcome (gmap string string))
  : State W -> Py.outcome bool * State W :=
  fun st =>
    match request_form with
    | Py.Throw e => (Py.Throw e, st)
    | Py.Return form =>
        match form !! "username" with
        | None => (Py.Return false, st)
        | Some username =>
            match form !! "password" with
            | None => (Py.Return false, st)
            | Some password =>
                match auth_internal_user username password (world st) with
                | (Py.Throw _, w) =>
                    (Py.Return false, {| session := session st; world := w |})
                | (Py.Return token, w) =>
                    (Py.Return true,
                     {| session :=
                          Py.dict_set "access_token" token (session st);
                        world := w |})
                end
            end
        end
    end.

Definition logout : State W -> Py.outcome bool * State W :=
  fun st =>
    (Py.Return true,
     {| session := Py.dict_pop "access_token" (session st);
        world := world st |}).

Definition authenticate (self : t) : State W -> Py.outcome bool * State W :=
  fun st =>
    match Py.dict_get "access_token" (session st) with
    | None => (Py.Return false, st)
    | Some token =>
        if negb (truthy token) then (Py.Return false, st)
        else
          match decode_token token (public_key self) with
          | Py.Throw _ => (Py.Return false, st)
          | Py.Return payload =>
              match Py.getitem payload "groups" with
              | Py.Throw e => (Py.Throw e, st)
              | Py.Return groups => (Py.contains groups (auth_group self), st)
              end
          end
    end.

End Backend.
End AuthenticationBackend.

(** ** [paginated_response] *)

Module Pagination.

Record PaginatedResponse (T : Type) : Type := {
  count : Z;
  next : option string;
  previous : option string;
  results : list T
}.
Arguments count {T} _.
Arguments next {T} _.
Arguments previous {T} _.
Arguments results {T} _.

(** [request_context] holds the current request or nothing; of the
    request only [str(request.url.replace_query_params(offset=o,
    limit=l))] is used, a function of [o] and [l]. *)
Definition paginated_response {T : Type}
  (request_context : option (Z -> Z -> string))
  (results : list T) (count limit offset : Z)
  : Py.outcome (PaginatedResponse T) :=
  match request_context with
  | None => Py.Throw Py.LookupError
  | Some replace_query_params =>
      let next_offset := offset + limit in
      let next_url :=
        if next_offset <? count
        then Some (replace_query_params next_offset limit) else None in
      let prev_offset := offset - limit in
      let prev_url :=
        if 0 <=? prev_offset
        then Some (replace_query_params prev_offset limit) else None in
      Py.Return {| count := count; next := next_url; previous := prev_url;
                   results := results |}
  end.

End Pagination.

(** ** [request_validation_error_handler] *)

Module Handlers.

(** An item of a location: a name or an index. *)
Inductive loc_item : Type :=
  | Name (s : string)
  | Index (n : Z).

(** [str(item)] *)
Definition str (item : loc_item) : string :=
  match item with Name s => s | Index n => pretty n end.

(** One entry of [exc.errors()]. *)
Record error : Type := { loc : list loc_item; msg : string }.

(** [loc[0] in ("body", "query", "path")] *)
Definition is_source (item : loc_item) : bool :=
  match item with
  | Name s => String.eqb s "body" || String.eqb s "query" || String.eqb s "path"
  | Index _ => false
  end.

(** The key of an error; [loc[0]] raises [IndexError] on an empty
    location. *)
Definition field_key (e : error) : Py.outcome string :=
  match loc e with
  | [] => Py.Throw Py.IndexError
  | first :: rest =>
      let loc' := if is_source first then rest else first :: rest in
      Py.Return (Py.join "." (map str loc'))
  end.

(** The loop over [exc.errors()], from the fields gathered so far. *)
Fixpoint collect (errors : list error) (fields : list (string * pyval))
  : Py.outcome (list (string * pyval)) :=
  match errors with
  | [] => Py.Return fields
  | e :: rest =>
      match field_key e with
      | Py.Throw x => Py.Throw x
      | Py.Return key => collect rest (Py.dict_set key (PStr (msg e)) fields)
      end
  end.

Record JSONResponse : Type := { content : pyval; status_code : Z }.

(** [jsonable_encoder] leaves a mapping from [str] to [str] as it is. *)
Definition request_validation_error_handler (errors : list error)
  : Py.outcome JSONResponse :=
  match collect errors [] with
  | Py.Throw x => Py.Throw x
  | Py.Return fields =>
      Py.Return
        {| content := PDict [("message", PStr "ValidationError");
                             ("fields", PDict fields)];
           status_code := 422 |}
  end.

End Handlers.

(** ** Notions and sample objects for the request-level code *)

Module WebNotions.

(** A POST request the length check lets through: its first
    [content-length] header parses to an integer not above the limit. *)
Definition admissible `{ContentLengthMiddleware.Builtins} (max_length : Z)
  (request : ContentLengthMiddleware.Request) : Prop :=
  exists (text : string) (n : Z),
    ContentLengthMiddleware.header "content-length"
      (ContentLengthMiddleware.headers request) = Some text
    /\ ContentLengthMiddleware.int text = Some n
    /\ n <= max_length.

(** The message of the last error whose key is [key]. *)
Fixpoint last_msg (key : string) (errors : list Handlers.error)
  : option string :=
  match errors with
  | [] => None
  | e :: rest =>
      match last_msg key rest with
      | Some m => Some m
      | None =>
          match Handlers.field_key e with
          | Py.Return k =>
              if String.eqb k key then Some (Handlers.msg e) else None
          | Py.Throw _ => None
          end
      end
  end.

End WebNotions.

Module WebSamples.

(** A stand-in for [int]: plain decimal digits, with an optional minus
    sign. *)
Definition decimal (text : string) : option Z :=
  match list_ascii_of_string text with
  | [] => None
  | c :: rest =>
      if Ascii.eqb c "-" then
        match rest with
        | [] => None
        | _ => if forallb JsonFragment.is_digit rest
               then Some (- (JsonFragment.digits 0 rest).1) else None
        end
      else if forallb JsonFragment.is_digit (c :: rest)
           then Some (JsonFragment.digits 0 (c :: rest)).1 else None
  end.

#[export] Instance builtins : ContentLengthMiddleware.Builtins :=
  {| ContentLengthMiddleware.int := decimal |}.

Definition post (hs : list (string * string))
  : ContentLengthMiddleware.Request :=
  {| ContentLengthMiddleware.method := "POST";
     ContentLengthMiddleware.headers := hs |}.

(** A pipeline that counts the requests it serves and answers 200. *)
Definition counting_app (_ : ContentLengthMiddleware.Request) (n : nat)
  : Py.outcome ContentLengthMiddleware.Response * nat :=
  (Py.Return {| ContentLengthMiddleware.status_code := 200 |}, S n).

Definition admins : AuthenticationBackend.t :=
  {| AuthenticationBackend.auth_group := "admins";
     AuthenticationBackend.public_key := "public-key" |}.

(** A sign-on service that knows one user, and a decoder that knows the
    token it hands out. *)
Definition sso (username password : string) (n : nat)
  : Py.outcome pyval * nat :=
  if String.eqb username "root" && String.eqb password "secret"
  then (Py.Return (PStr "jwt-root"), S n)
  else (Py.Throw (Py.Failure "AuthenticationError"), S n).

Definition decoder (token : pyval) (key : string) : Py.outcome pyval :=
  match token with
  | PStr "jwt-root" =>
      Py.Return (PDict [("user_id", PInt 1);
                        ("groups", PList [PStr "staff"; PStr "admins"])])
  | PStr "jwt-guest" => Py.Return (PDict [("user_id", PInt 2)])
  | _ => Py.Throw (Py.Failure "AuthenticationError")
  end.

Definition root_form : gmap string string :=
  {[ "username" := "root"; "password" := "secret" ]}.

Definition signed_out : AuthenticationBackend.State nat :=
  {| AuthenticationBackend.session := [("theme", PStr "dark")];
     AuthenticationBackend.world := O |}.

Definition page_url (offset limit : Z) : string :=
  "/items?offset=" +:+ pretty offset +:+ "&limit=" +:+ pretty limit.

Definition validation_errors : list Handlers.error :=
  [ {| Handlers.loc := [Handlers.Name "body"; Handlers.Name "user";
                        Handlers.Name "name"];
       Handlers.msg := "Field required" |};
    {| Handlers.loc := [Handlers.Name "query"; Handlers.Name "limit"];
       Handlers.msg := "Input should be a valid integer" |};
    {| Handlers.loc := [Handlers.Name "body"; Handlers.Name "items";
                        Handlers.Index 0];
       Handlers.msg := "Input should be a valid string" |};
    {| Handlers.loc := [Handlers.Name "user"; Handlers.Name "name"];
       Handlers.msg := "String too short" |} ].

End WebSamples.

(** * Properties *)

(** ** The JSON fragment on examples *)

Example dumps_session :
  JsonFragment.dumps (PDict [("user_id", PInt 42); ("roles", PList [PStr "a"; PNone])])
  = Some ("{" +:+ JsonFragment.quoted "user_id" +:+ ":42,"
          +:+ JsonFragment.quoted "roles" +:+ ":["
          +:+ JsonFragment.quoted "a" +:+ ",null]}").
Proof. reflexivity. Qed.

Example loads_session :
  JsonFragment.loads
    (" {" +:+ JsonFragment.quoted "user_id" +:+ ": -42 , "
     +:+ JsonFragment.quoted "roles" +:+ ":[ true, [], {} ,"
     +:+ JsonFragment.quoted "a" +:+ "]} ")
  = Some (PDict [("user_id", PInt (-42));
                 ("roles", PList [PBool true; PList []; PDict []; PStr "a"])]).
Proof. vm_compute. reflexivity. Qed.

Example loads_malformed :
  JsonFragment.loads "{" = None /\ JsonFragment.loads "[1,]" = None
  /\ JsonFragment.loads "01" = None /\ JsonFragment.loads "" = None
  /\ JsonFragment.loads "nul" = None /\ JsonFragment.loads "1 2" = None.
Proof. vm_compute. repeat split. Qed.

(** ** The in-memory cache *)

Section InMemoryFacts.
Import InMemoryCache.

Lemma later_than_true (e now : Q) : later_than e now = true <-> (now < e)%Q.
Proof.
  unfold later_than. rewrite negb_true_iff.
  destruct (Qle_bool e now) eqn:E.
  - apply Qle_bool_iff in E. split; [discriminate | intros H; lra].
  - split; [intros _ | reflexivity].
    destruct (Qlt_le_dec now e) as [H | H]; [exact H |].
    apply Qle_bool_iff in H. congruence.
Qed.

Lemma later_than_false (e now : Q) : later_than e now = false <-> (e <= now)%Q.
Proof.
  unfold later_than. rewrite negb_false_iff. apply Qle_bool_iff.
Qed.

Lemma mem_get_absent (now : Q) (key : string) (self : t) :
  store self !! key = None -> get now key self = (Ok PNone, self).
Proof. intros H. unfold get. now rewrite H. Qed.

Lemma mem_get_no_expiry (now : Q) (key : string) (value : pyval) (self : t) :
  store self !! key = Some (value, None) -> get now key self = (Ok value, self).
Proof. intros H. unfold get. now rewrite H. Qed.

Lemma mem_get_unexpired (now e : Q) (key : string) (value : pyval) (self : t) :
  store self !! key = Some (value, Some e) -> (now < e)%Q ->
  get now key self = (Ok value, self).
Proof.
  intros H Hlt. unfold get. rewrite H.
  apply later_than_true in Hlt. now rewrite Hlt.
Qed.

Lemma mem_get_expired (now e : Q) (key : string) (value : pyval) (self : t) :
  store self !! key = Some (value, Some e) -> (e <= now)%Q ->
  get now key self = (Ok PNone, {| store := base.delete key (store self) |}).
Proof.
  intros H Hle. unfold get. rewrite H.
  apply later_than_false in Hle. now rewrite Hle.
Qed.

Lemma mem_set_store (now : Q) (key : string) (value : pyval) (ttl : Z) (self : t) :
  ttl <> 0 ->
  store (set now key value (Some ttl) self).2
  = <[key := (value, Some (now + inject_Z ttl)%Q)]> (store self).
Proof.
  intros H. unfold set. simpl.
  destruct (ttl =? 0) eqn:E; [apply Z.eqb_eq in E; contradiction | reflexivity].
Qed.

(** [get] never adds or changes an entry: it can only drop the one it
    was asked for. *)
Lemma mem_get_only_removes (now : Q) (key k : string) (self : t) :
  store (get now key self).2 !! k = store self !! k
  \/ (k = key /\ store (get now key self).2 !! k = None).
Proof.
  unfold get. destruct (store self !! key) as [[v [e |]] |] eqn:E; simpl; auto.
  destruct (later_than e now); simpl; auto.
  destruct (decide (k = key)) as [-> | Hne].
  - right. split; [reflexivity | apply lookup_delete_eq].
  - left. now apply lookup_delete_ne.
Qed.

(** A lookup that returned [None] at [now] returns [None] at any later
    lookup as well, whatever its instant. *)
Lemma mem_get_miss_stable (now now2 : Q) (key : string) (self self1 : t) :
  get now key self = (Ok PNone, self1) ->
  (get now2 key self1).1 = Ok PNone.
Proof.
  unfold get. destruct (store self !! key) as [[v [e |]] |] eqn:E.
  - destruct (later_than e now).
    + intros [= -> <-]. rewrite E. now destruct (later_than e now2).
    + intros [= <-]. simpl. now rewrite lookup_delete_eq.
  - intros [= -> <-]. now rewrite E.
  - intros [= <-]. now rewrite E.
Qed.

End InMemoryFacts.

(** C2.  TTL correctness of the in-memory cache: after
    [set(key, value, ttl)] with [ttl > 0] at instant [now], a [get(key)] at
    the same instant, or at any instant before [now + ttl], returns
    [value] and leaves the store as it is; a [get(key)] at an instant at or
    past [now + ttl] returns [None] and removes the entry from the store. *)
Theorem in_memory_ttl_correct (now : Q) (key : string) (value : pyval)
  (ttl : Z) (self : InMemoryCache.t) :
  0 < ttl ->
  let self' := (InMemoryCache.set now key value (Some ttl) self).2 in
  InMemoryCache.get now key self' = (Ok value, self')
  /\ (forall t : Q, (t < now + inject_Z ttl)%Q ->
        InMemoryCache.get t key self' = (Ok value, self'))
  /\ (forall t : Q, (now + inject_Z ttl <= t)%Q ->
        (InMemoryCache.get t key self').1 = Ok PNone
        /\ InMemoryCache.store (InMemoryCache.get t key self').2 !! key = None
        /\ InMemoryCache.store (InMemoryCache.get t key self').2
           = base.delete key (InMemoryCache.store self)).
Proof.
  intros Hpos self'.
  assert (Hs : InMemoryCache.store self'
               = <[key := (value, Some (now + inject_Z ttl)%Q)]>
                   (InMemoryCache.store self)).
  { subst self'. apply mem_set_store. lia. }
  assert (Hst : InMemoryCache.store self' !! key
                = Some (value, Some (now + inject_Z ttl)%Q)).
  { rewrite Hs. apply lookup_insert_eq. }
  assert (Hlt : (now < now + inject_Z ttl)%Q).
  { assert (0 < inject_Z ttl)%Q by (unfold Qlt, inject_Z; simpl; lia). lra. }
  split; [| split].
  - now apply mem_get_unexpired with (e := (now + inject_Z ttl)%Q).
  - intros t Ht. now apply mem_get_unexpired with (e := (now + inject_Z ttl)%Q).
  - intros t Ht.
    rewrite (mem_get_expired t _ key value self' Hst Ht).
    cbn [fst snd InMemoryCache.store].
    split; [reflexivity |]. split; [apply lookup_delete_eq |].
    rewrite Hs. apply delete_insert_eq.
Qed.

Lemma in_memory_ttl_correct_witness :
  0 < 60
  /\ InMemoryCache.get 100 "k"
       (InMemoryCache.set 100 "k" (PInt 7) (Some 60) InMemoryCache.init).2
     = (Ok (PInt 7),
        (InMemoryCache.set 100 "k" (PInt 7) (Some 60) InMemoryCache.init).2)
  /\ (InMemoryCache.get 160 "k"
        (InMemoryCache.set 100 "k" (PInt 7) (Some 60) InMemoryCache.init).2).1
     = Ok PNone.
Proof.
  assert (H : 0 < 60) by lia.
  pose proof (in_memory_ttl_correct 100 "k" (PInt 7) 60 InMemoryCache.init H)
    as (Hnow & _ & Hpast).
  split; [exact H |]. split; [exact Hnow |].
  apply (Hpast 160%Q). vm_compute. discriminate.
Defined.

(** C6, on the in-memory backend: deleting a key that is not in the store
    raises [KeyError] instead of doing nothing. *)
Theorem in_memory_delete_missing_raises :
  InMemoryCache.delete "missing" InMemoryCache.init
  = (Raise (KeyError "missing"), InMemoryCache.init).
Proof. reflexivity. Qed.

Lemma in_memory_delete_absent (key : string) (self : InMemoryCache.t) :
  InMemoryCache.store self !! key = None ->
  InMemoryCache.delete key self = (Raise (KeyError key), self).
Proof. intros H. unfold InMemoryCache.delete. now rewrite H. Qed.

Lemma in_memory_delete_present (key : string) (self : InMemoryCache.t) :
  is_Some (InMemoryCache.store self !! key) ->
  (InMemoryCache.delete key self).1 = Ok tt
  /\ InMemoryCache.store (InMemoryCache.delete key self).2 !! key = None.
Proof.
  intros [v H]. unfold InMemoryCache.delete. rewrite H. simpl.
  split; [reflexivity | apply lookup_delete_eq].
Qed.

(** ** The remote-backend cache *)

Lemma str_truthy_true (s : string) : str_truthy s = true <-> s <> "".
Proof.
  unfold str_truthy. rewrite negb_true_iff.
  destruct (String.eqb_spec s ""); split; congruence.
Qed.

Lemma str_truthy_false (s : string) : str_truthy s = false <-> s = "".
Proof.
  unfold str_truthy. rewrite negb_false_iff. apply String.eqb_eq.
Qed.

Lemma string_app_assoc (s1 s2 s3 : string) :
  (s1 +:+ s2) +:+ s3 = s1 +:+ s2 +:+ s3.
Proof.
  induction s1 as [| a s1 IH]; [reflexivity |].
  change (String a ((s1 +:+ s2) +:+ s3) = String a (s1 +:+ s2 +:+ s3)).
  now f_equal.
Qed.

Section RedisCacheFacts.
Context {_serializer : ORJSONSerializer}.
Import RedisCache Notions.

Lemma redis_get_unreachable (key : string) (self : t) :
  key <> "" -> Redis.reachable (_client self) = false ->
  get key self = (Ok PNone, sent_to (Redis.GET (prefixed self key)) self).
Proof.
  intros Hk Hr. apply str_truthy_true in Hk.
  unfold get, except_ConnectionError, bind, on_client, Redis.get.
  rewrite Hk. simpl. now rewrite Hr.
Qed.

Lemma redis_get_reachable (key : string) (self : t) :
  key <> "" -> Redis.reachable (_client self) = true ->
  get key self
  = (match Redis.live (_client self) (prefixed self key) with
     | Some payload =>
         if str_truthy payload then
           match decode payload with
           | Some v => Ok v
           | None => Raise JSONDecodeError
           end
         else Ok PNone
     | None => Ok PNone
     end,
     sent_to (Redis.GET (prefixed self key)) self).
Proof.
  intros Hk Hr. apply str_truthy_true in Hk.
  unfold get, except_ConnectionError, bind, on_client, Redis.get.
  rewrite Hk. simpl. rewrite Hr.
  change (Redis.live (Redis.issue _ (_client self)) (prefixed self key))
    with (Redis.live (_client self) (prefixed self key)).
  destruct (Redis.live (_client self) (prefixed self key)) as [payload |];
    [| reflexivity].
  destruct (str_truthy payload); [| reflexivity].
  unfold decode_or_raise. now destruct (decode payload).
Qed.

Lemma redis_set_falsy (key : string) (value : pyval) (ttl : option Z) (self : t) :
  truthy value = false -> set key value ttl self = (Ok tt, self).
Proof.
  intros Hv. unfold set. rewrite Hv. now rewrite orb_true_r.
Qed.

Lemma redis_set_reachable (key payload : string) (value : pyval) (ttl : option Z)
  (self : t) :
  key <> "" -> truthy value = true -> encode value = Some payload ->
  Redis.reachable (_client self) = true ->
  match ttl with Some n => 0 < n | None => True end ->
  set key value ttl self
  = (Ok tt,
     {| _client :=
          Redis.with_db
            (<[prefixed self key :=
                 (payload,
                  match ttl with
                  | Some n => Some (Redis.clock (_client self) + inject_Z n)%Q
                  | None => None
                  end)]> (Redis.db (_client self)))
            (Redis.issue (Redis.SET (prefixed self key) payload ttl)
               (_client self));
        _prefix := _prefix self |}).
Proof.
  intros Hk Hv He Hr Httl. apply str_truthy_true in Hk.
  unfold set, except_ConnectionError, bind, on_client, encode_or_raise,
    Redis.set.
  rewrite Hk, Hv, He. simpl. rewrite Hr.
  destruct ttl as [n |]; [| reflexivity].
  assert (Hpos : (n <=? 0)%Z = false) by now apply Z.leb_gt.
  now rewrite Hpos.
Qed.

(** The server refuses an expiry that is not positive: the fault is not a
    [ConnectionError], so it reaches the caller, and nothing is stored. *)
Lemma redis_set_refused (key payload : string) (value : pyval) (n : Z)
  (self : t) :
  key <> "" -> truthy value = true -> encode value = Some payload ->
  Redis.reachable (_client self) = true -> n <= 0 ->
  set key value (Some n) self
  = (Raise ResponseError,
     sent_to (Redis.SET (prefixed self key) payload (Some n)) self).
Proof.
  intros Hk Hv He Hr Hn. apply str_truthy_true in Hk.
  unfold set, except_ConnectionError, bind, on_client, encode_or_raise,
    Redis.set.
  rewrite Hk, Hv, He. simpl. rewrite Hr.
  assert (Hneg : (n <=? 0)%Z = true) by now apply Z.leb_le.
  now rewrite Hneg.
Qed.

Lemma redis_set_unreachable (key payload : string) (value : pyval)
  (ttl : option Z) (self : t) :
  key <> "" -> truthy value = true -> encode value = Some payload ->
  Redis.reachable (_client self) = false ->
  set key value ttl self
  = (Ok tt, sent_to (Redis.SET (prefixed self key) payload ttl) self).
Proof.
  intros Hk Hv He Hr. apply str_truthy_true in Hk.
  unfold set, except_ConnectionError, bind, on_client, encode_or_raise,
    Redis.set.
  rewrite Hk, Hv, He. simpl. now rewrite Hr.
Qed.

(** On the remote backend [delete] never raises, and on a reachable server
    nothing is left under the key, whether or not an entry was there. *)
Lemma redis_delete_never_raises (key : string) (self : t) :
  (delete key self).1 = Ok tt.
Proof.
  unfold delete, except_ConnectionError, on_client, Redis.delete.
  destruct (str_truthy key); [| reflexivity]. simpl.
  now destruct (Redis.reachable (_client self)).
Qed.

Lemma redis_delete_reachable (key : string) (self : t) :
  key <> "" -> Redis.reachable (_client self) = true ->
  delete key self
  = (Ok tt,
     {| _client :=
          Redis.with_db (base.delete (prefixed self key) (Redis.db (_client self)))
            (Redis.issue (Redis.DEL (prefixed self key)) (_client self));
        _prefix := _prefix self |}).
Proof.
  intros Hk Hr. apply str_truthy_true in Hk.
  unfold delete, except_ConnectionError, on_client, Redis.delete.
  rewrite Hk. simpl. now rewrite Hr.
Qed.

Lemma redis_delete_unreachable (key : string) (self : t) :
  key <> "" -> Redis.reachable (_client self) = false ->
  delete key self = (Ok tt, sent_to (Redis.DEL (prefixed self key)) self).
Proof.
  intros Hk Hr. apply str_truthy_true in Hk.
  unfold delete, except_ConnectionError, on_client, Redis.delete.
  rewrite Hk. simpl. now rewrite Hr.
Qed.

(** X6.  On the remote backend an entry set with a positive expiry is
    handed back until the server clock has advanced by that many seconds,
    and is absent from then on. *)
Lemma redis_entry_expires (key payload : string) (value : pyval) (n : Z)
  (dt : Q) (self : t) :
  key <> "" -> truthy value = true -> encode value = Some payload ->
  payload <> "" -> decode payload = Some value ->
  Redis.reachable (_client self) = true -> 0 < n ->
  let self' := (set key value (Some n) self).2 in
  let later := {| _client := Redis.tick dt (_client self');
                  _prefix := _prefix self' |} in
  ((dt < inject_Z n)%Q -> (get key later).1 = Ok value)
  /\ ((inject_Z n <= dt)%Q -> (get key later).1 = Ok PNone).
Proof.
  intros Hk Hv He Hp Hd Hr Hn self' later.
  assert (Hlater : get key later
                   = (match Redis.live (_client later) (prefixed later key) with
                      | Some p =>
                          if str_truthy p then
                            match decode p with
                            | Some v => Ok v
                            | None => Raise JSONDecodeError
                            end
                          else Ok PNone
                      | None => Ok PNone
                      end,
                      sent_to (Redis.GET (prefixed later key)) later)).
  { apply redis_get_reachable; [exact Hk |].
    subst later self'.
    now rewrite (redis_set_reachable key payload value (Some n) self
                   Hk Hv He Hr Hn). }
  rewrite Hlater. cbn [fst].
  subst later self'.
  rewrite (redis_set_reachable key payload value (Some n) self Hk Hv He Hr Hn).
  unfold Redis.live, prefixed. simpl.
  rewrite lookup_insert_eq.
  apply str_truthy_true in Hp.
  split; intros Hdt.
  - assert (Hlive : negb (Qle_bool
                            (Redis.clock (_client self) + inject_Z n)
                            (Redis.clock (_client self) + dt)) = true).
    { apply later_than_true. lra. }
    now rewrite Hlive, Hp, Hd.
  - assert (Hdead : negb (Qle_bool
                            (Redis.clock (_client self) + inject_Z n)
                            (Redis.clock (_client self) + dt)) = false).
    { apply later_than_false. lra. }
    now rewrite Hdead.
Qed.

(** C10.  With the empty string as key, every operation of the remote
    backend returns at once, whatever the prefix: [get] returns [None],
    [set] and [delete] return, and the cache object, the server and the
    command log are exactly as before, so no command was issued. *)
Theorem redis_cache_empty_key_noop (self : t) (value : pyval)
  (ttl : option Z) :
  get "" self = (Ok PNone, self)
  /\ set "" value ttl self = (Ok tt, self)
  /\ delete "" self = (Ok tt, self)
  /\ Redis.log (_client (get "" self).2) = Redis.log (_client self)
  /\ Redis.log (_client (set "" value ttl self).2) = Redis.log (_client self)
  /\ Redis.log (_client (delete "" self).2) = Redis.log (_client self).
Proof.
  assert (Hguard : negb (str_truthy "") = true) by reflexivity.
  assert (Hget : get "" self = (Ok PNone, self)).
  { unfold get. now rewrite Hguard. }
  assert (Hset : set "" value ttl self = (Ok tt, self)).
  { unfold set. now rewrite Hguard. }
  assert (Hdel : delete "" self = (Ok tt, self)).
  { unfold delete. now rewrite Hguard. }
  rewrite Hget, Hset, Hdel. repeat split.
Qed.

(** C3, as amended.  On the remote backend, [set(key, value)] with a falsy
    [value] does nothing: no command is issued and the server is left as it
    is.  A [get(key)] right after it therefore returns what it would have
    returned before, and returns [None] when no live entry was stored under
    the key. *)
Theorem redis_cache_set_falsy_noop (key : string) (value : pyval)
  (ttl : option Z) (self : t) :
  truthy value = false ->
  set key value ttl self = (Ok tt, self)
  /\ get key (set key value ttl self).2 = get key self
  /\ (Redis.live (_client self) (prefixed self key) = None ->
      (get key (set key value ttl self).2).1 = Ok PNone).
Proof.
  intros Hv. rewrite (redis_set_falsy key value ttl self Hv). simpl.
  split; [reflexivity |]. split; [reflexivity |].
  intros Hlive.
  destruct (String.eqb_spec key "") as [-> | Hk]; [reflexivity |].
  destruct (Redis.reachable (_client self)) eqn:Hr.
  - rewrite redis_get_reachable by assumption. now rewrite Hlive.
  - now rewrite redis_get_unreachable.
Qed.

(** C5, as amended.  [get] on the remote backend returns [None] when the
    server is unreachable; when the server returns a non-empty payload
    that the serializer cannot decode, the decode fault is not caught and
    reaches the caller. *)
Theorem redis_cache_get_faults (key : string) (self : t) :
  (Redis.reachable (_client self) = false -> (get key self).1 = Ok PNone)
  /\ (forall payload : string,
        key <> "" -> Redis.reachable (_client self) = true ->
        Redis.live (_client self) (prefixed self key) = Some payload ->
        payload <> "" -> decode payload = None ->
        (get key self).1 = Raise JSONDecodeError).
Proof.
  split.
  - intros Hr. destruct (String.eqb_spec key "") as [-> | Hk]; [reflexivity |].
    now rewrite redis_get_unreachable.
  - intros payload Hk Hr Hlive Hp Hd.
    rewrite redis_get_reachable by assumption. rewrite Hlive.
    apply str_truthy_true in Hp. now rewrite Hp, Hd.
Qed.

End RedisCacheFacts.

(** The examples below run on the JSON fragment. *)
#[local] Existing Instance JsonFragment.serializer.

Lemma redis_cache_set_falsy_noop_witness :
  truthy (PStr "") = false
  /\ RedisCache.set "k" (PStr "") (Some 60)
       (RedisCache.init Samples.redis_up (Some "app"))
     = (Ok tt, RedisCache.init Samples.redis_up (Some "app"))
  /\ (RedisCache.get "k"
        (RedisCache.set "k" (PStr "") (Some 60)
           (RedisCache.init Samples.redis_up (Some "app"))).2).1
     = Ok PNone.
Proof.
  assert (H : truthy (PStr "") = false) by reflexivity.
  pose proof (redis_cache_set_falsy_noop "k" (PStr "") (Some 60)
                (RedisCache.init Samples.redis_up (Some "app")) H)
    as (Hset & _ & Hget).
  split; [exact H |]. split; [exact Hset |].
  apply Hget. reflexivity.
Defined.

Lemma redis_cache_get_faults_witness :
  (Redis.reachable Samples.redis_down = false
   /\ (RedisCache.get "k" (RedisCache.init Samples.redis_down (Some "app"))).1
      = Ok PNone)
  /\ (Redis.live Samples.redis_garbled "app:k" = Some "{"
      /\ decode "{" = None
      /\ (RedisCache.get "k"
            (RedisCache.init Samples.redis_garbled (Some "app"))).1
         = Raise JSONDecodeError).
Proof.
  split.
  - split; [reflexivity |].
    apply (proj1 (redis_cache_get_faults "k"
                    (RedisCache.init Samples.redis_down (Some "app")))).
    reflexivity.
  - split; [reflexivity |]. split; [reflexivity |].
    apply (proj2 (redis_cache_get_faults "k"
                    (RedisCache.init Samples.redis_garbled (Some "app")))
             "{").
    + discriminate.
    + reflexivity.
    + reflexivity.
    + discriminate.
    + reflexivity.
Defined.

(** C3 does not hold of the in-memory backend as specified: the falsy
    value is stored and [get] returns it. *)
Lemma in_memory_set_falsy_is_cached :
  InMemoryCache.get 0 "k"
    (InMemoryCache.set 0 "k" (PStr "") None InMemoryCache.init).2
  = (Ok (PStr ""),
     (InMemoryCache.set 0 "k" (PStr "") None InMemoryCache.init).2)
  /\ (InMemoryCache.get 0 "k"
        (InMemoryCache.set 0 "k" (PStr "") None InMemoryCache.init).2).1
     <> Ok PNone
  /\ (InMemoryCache.get 0 "k"
        (InMemoryCache.set 0 "k" (PInt 0) None InMemoryCache.init).2).1
     = Ok (PInt 0)
  /\ (InMemoryCache.get 0 "k"
        (InMemoryCache.set 0 "k" (PList []) None InMemoryCache.init).2).1
     = Ok (PList []).
Proof. repeat split. discriminate. Qed.

(** On the remote backend a falsy [set] leaves an earlier entry under the
    key retrievable. *)
Lemma redis_set_falsy_keeps_earlier_entry :
  (RedisCache.get "k"
     (RedisCache.set "k" (PInt 0) None
        (RedisCache.init Samples.redis_seeded (Some "app"))).2).1
  = Ok (PInt 7).
Proof. vm_compute. reflexivity. Qed.

(** C5 does not hold as specified: a payload that does not decode makes
    [get] raise the decode fault. *)
Lemma redis_get_propagates_decode_fault :
  (RedisCache.get "k"
     (RedisCache.init Samples.redis_garbled (Some "app"))).1
  = Raise JSONDecodeError.
Proof. vm_compute. reflexivity. Qed.

(** ** The memoizing decorator *)

Section MemoizerFacts.
Context {_serializer : ORJSONSerializer} {_fingerprint : Caching.Fingerprint}.
Import Caching Notions.

Lemma redis_get_miss_stable (key : string) (self self1 : RedisCache.t) :
  RedisCache.get key self = (Ok PNone, self1) ->
  (RedisCache.get key self1).1 = Ok PNone.
Proof.
  destruct (String.eqb_spec key "") as [-> | Hk]; [reflexivity |].
  destruct (Redis.reachable (RedisCache._client self)) eqn:Hr.
  - rewrite redis_get_reachable by assumption. intros [= Hres <-].
    rewrite redis_get_reachable by assumption. exact Hres.
  - rewrite redis_get_unreachable by assumption. intros [= <-].
    now rewrite redis_get_unreachable.
Qed.

Lemma cache_get_miss_stable (now now2 : Q) (key : string) (c c1 : Cache) :
  cache_get now key c = (Ok PNone, c1) ->
  (cache_get now2 key c1).1 = Ok PNone.
Proof.
  destruct c as [m | r]; simpl.
  - destruct (InMemoryCache.get now key m) as [res m1] eqn:E.
    intros [= -> <-]. simpl.
    pose proof (mem_get_miss_stable now now2 key m m1 E) as H.
    destruct (InMemoryCache.get now2 key m1). exact H.
  - destruct (RedisCache.get key r) as [res r1] eqn:E.
    intros [= -> <-]. simpl.
    pose proof (redis_get_miss_stable key r r1 E) as H.
    destruct (RedisCache.get key r1). exact H.
Qed.

Lemma writes_issue_GET (k : string) (r : Redis.t) :
  writes (Redis.issue (Redis.GET k) r) = writes r.
Proof.
  unfold writes. simpl. rewrite List.filter_app. simpl. apply app_nil_r.
Qed.

Lemma redis_get_state (key : string) (self : RedisCache.t) :
  (RedisCache.get key self).2 = self
  \/ (RedisCache.get key self).2
     = sent_to (Redis.GET (RedisCache.prefixed self key)) self.
Proof.
  destruct (String.eqb_spec key "") as [-> | Hk]; [now left |]. right.
  destruct (Redis.reachable (RedisCache._client self)) eqn:Hr.
  - now rewrite redis_get_reachable.
  - now rewrite redis_get_unreachable.
Qed.

(** A lookup writes nothing. *)
Lemma cache_get_unwritten (now : Q) (key : string) (c : Cache) :
  unwritten c (cache_get now key c).2.
Proof.
  destruct c as [m | r]; simpl.
  - pose proof (mem_get_only_removes now key) as H.
    destruct (InMemoryCache.get now key m) as [res m1] eqn:E. simpl.
    intros k. specialize (H k m). rewrite E in H. simpl in H. tauto.
  - pose proof (redis_get_state key r) as H.
    destruct (RedisCache.get key r) as [res r1]. simpl in *.
    destruct H as [-> | ->]; [now split |].
    split; [reflexivity | apply writes_issue_GET].
Qed.

(** The two ways through the wrapper. *)
Lemma wrapper_hit {U} (o : Options U) (f : Func U) (now now' : Q)
  (args : list pyval) (kwargs : list (string * pyval)) (w : World U)
  (v : pyval) (c1 : Cache) :
  cache_get now (make_key o f args kwargs) (the_cache w) = (Ok v, c1) ->
  v <> PNone ->
  wrapper o f now now' args kwargs w
  = (Ok v, {| the_cache := c1; env := env w; calls := calls w |}).
Proof.
  intros Hget Hv. unfold wrapper, bind, on_cache. rewrite Hget.
  destruct v; try reflexivity. contradiction.
Qed.

Lemma wrapper_miss {U} (o : Options U) (f : Func U) (now now' : Q)
  (args : list pyval) (kwargs : list (string * pyval)) (w : World U)
  (c1 : Cache) :
  cache_get now (make_key o f args kwargs) (the_cache w) = (Ok PNone, c1) ->
  wrapper o f now now' args kwargs w
  = match body f args kwargs (env w) with
    | (Ok v, u) =>
        match cache_set now' (make_key o f args kwargs) v (ttl o) c1 with
        | (Ok _, c2) =>
            (Ok v, {| the_cache := c2; env := u; calls := S (calls w) |})
        | (Raise e, c2) =>
            (Raise e, {| the_cache := c2; env := u; calls := S (calls w) |})
        end
    | (Raise e, u) =>
        (Raise e, {| the_cache := c1; env := u; calls := S (calls w) |})
    end.
Proof.
  intros Hget. unfold wrapper, bind, on_cache, ensure_async_func.
  rewrite Hget. simpl.
  destruct (body f args kwargs (env w)) as [[v | e] u]; [| reflexivity].
  simpl. now destruct (cache_set _ _ _ _ c1) as [[[] | e] c2].
Qed.

(** [cache.set] raises nothing but the fault of the encoder and, on the
    remote backend, the refusal of an expiry that is not positive. *)
Lemma cache_set_result (now : Q) (key : string) (v : pyval)
  (ttl : option Z) (c : Cache) :
  (cache_set now key v ttl c).1 = Ok tt
  \/ (cache_set now key v ttl c).1 = Raise JSONEncodeError
  \/ ((cache_set now key v ttl c).1 = Raise ResponseError
      /\ exists n : Z, ttl = Some n /\ n <= 0).
Proof.
  destruct c as [m | r]; simpl; [now left |].
  destruct (RedisCache.set key v ttl r) as [res r1] eqn:E. simpl.
  revert E.
  unfold RedisCache.set, except_ConnectionError, bind, encode_or_raise,
    RedisCache.on_client, Redis.set.
  destruct (negb (str_truthy key) || negb (truthy v));
    [intros [= <- _]; now left |].
  destruct (encode v); simpl.
  - destruct (Redis.reachable (RedisCache._client r)); simpl;
      [| intros [= <- _]; now left].
    destruct ttl as [n |]; [| intros [= <- _]; now left].
    destruct (Z.leb_spec n 0) as [Hn | Hn]; intros [= <- _]; [| now left].
    right. right. split; [reflexivity |]. now exists n.
  - intros [= <- _]. right. now left.
Qed.

Lemma wrapper_miss_calls {U} (o : Options U) (f : Func U) (now now' : Q)
  (args : list pyval) (kwargs : list (string * pyval)) (w : World U) :
  (cache_get now (make_key o f args kwargs) (the_cache w)).1 = Ok PNone ->
  calls (wrapper o f now now' args kwargs w).2 = S (calls w).
Proof.
  intros Hget.
  destruct (cache_get now (make_key o f args kwargs) (the_cache w))
    as [res c1] eqn:E.
  simpl in Hget. subst res.
  rewrite (wrapper_miss o f now now' args kwargs w c1 E).
  destruct (body f args kwargs (env w)) as [[v | e] u]; [| reflexivity].
  now destruct (cache_set _ _ _ _ c1) as [[[] | e] c2].
Qed.

(** C4.  When the lookup of a call misses and the wrapped computation
    raises, the wrapper raises the same error, the cache is left as the
    lookup left it, with nothing written, and the computation was invoked
    once.  A second call with the same arguments, at whatever instant,
    invokes the computation again; when the computation succeeds there
    with [v], the call returns [v] unless storing [v] fails: in the
    encoder, or on the remote backend because the expiry is not positive
    and the server refuses it. *)
Theorem memoizer_never_caches_errors {U} (o : Options U) (f : Func U)
  (now now' now2 now2' : Q) (args : list pyval)
  (kwargs : list (string * pyval)) (w : World U) (c1 : Cache) (e : exn)
  (u1 : U) :
  cache_get now (make_key o f args kwargs) (the_cache w) = (Ok PNone, c1) ->
  body f args kwargs (env w) = (Raise e, u1) ->
  let first := wrapper o f now now' args kwargs w in
  let second := wrapper o f now2 now2' args kwargs first.2 in
  first = (Raise e, {| the_cache := c1; env := u1; calls := S (calls w) |})
  /\ unwritten (the_cache w) (the_cache first.2)
  /\ calls second.2 = S (S (calls w))
  /\ (forall (v : pyval) (u2 : U),
        body f args kwargs u1 = (Ok v, u2) ->
        env second.2 = u2
        /\ (second.1 = Ok v \/ second.1 = Raise JSONEncodeError
            \/ (second.1 = Raise ResponseError
                /\ exists n : Z, ttl o = Some n /\ n <= 0))).
Proof.
  intros Hmiss Hraise first second.
  assert (Hfirst : first = (Raise e, {| the_cache := c1; env := u1;
                                        calls := S (calls w) |})).
  { subst first. rewrite (wrapper_miss o f now now' args kwargs w c1 Hmiss).
    now rewrite Hraise. }
  split; [exact Hfirst |]. split.
  { rewrite Hfirst. simpl.
    pose proof (cache_get_unwritten now (make_key o f args kwargs)
                  (the_cache w)) as H.
    now rewrite Hmiss in H. }
  subst second. rewrite Hfirst. cbn [snd].
  pose proof (cache_get_miss_stable now now2 _ _ _ Hmiss) as Hagain.
  split.
  { now rewrite wrapper_miss_calls. }
  intros v u2 Hok.
  destruct (cache_get now2 (make_key o f args kwargs) c1) as [res c1'] eqn:E.
  simpl in Hagain. subst res.
  rewrite (wrapper_miss o f now2 now2' args kwargs
             {| the_cache := c1; env := u1; calls := S (calls w) |} c1' E).
  simpl. rewrite Hok.
  pose proof (cache_set_result now2' (make_key o f args kwargs) v (ttl o) c1')
    as Hset.
  destruct (cache_set now2' (make_key o f args kwargs) v (ttl o) c1')
    as [[[] | e'] c2]; simpl in *.
  - auto.
  - destruct Hset as [Hset | [Hset | [Hset Hn]]]; [discriminate | |];
      injection Hset as ->; auto.
Qed.

(** A retained value is stored without fault and handed back. *)
Lemma retained_round_trip (c1 : Cache) (key : string) (v : pyval)
  (ttl : option Z) (now' now2 : Q) :
  retained c1 key v ttl now' now2 ->
  exists c2 c3 : Cache,
    cache_set now' key v ttl c1 = (Ok tt, c2)
    /\ cache_get now2 key c2 = (Ok v, c3).
Proof.
  destruct c1 as [m | r]; simpl.
  - intros [Hv Httl].
    exists (InMemory (InMemoryCache.set now' key v ttl m).2).
    exists (InMemory (InMemoryCache.set now' key v ttl m).2).
    split; [reflexivity |].
    assert (Hget : InMemoryCache.get now2 key
                     (InMemoryCache.set now' key v ttl m).2
                   = (Ok v, (InMemoryCache.set now' key v ttl m).2)).
    { destruct ttl as [n |].
      - destruct (Z.eq_dec n 0) as [-> | Hn].
        + apply mem_get_no_expiry. apply lookup_insert_eq.
        + destruct Httl as [-> | Hlt]; [contradiction |].
          apply mem_get_unexpired with (e := (now' + inject_Z n)%Q);
            [| exact Hlt].
          rewrite mem_set_store by exact Hn. apply lookup_insert_eq.
      - apply mem_get_no_expiry. apply lookup_insert_eq. }
    unfold cache_get. now rewrite Hget.
  - intros (Hk & Hv & Hr & (payload & He & Hp & Hd) & Hnone & Httl).
    pose proof (redis_set_reachable key payload v ttl r Hk Hv He Hr Httl)
      as Hset.
    exists (Remote (RedisCache.set key v ttl r).2).
    exists (Remote (RedisCache.get key (RedisCache.set key v ttl r).2).2).
    split; [unfold cache_set; now rewrite Hset |].
    unfold cache_get. rewrite Hset. cbn [snd].
    rewrite redis_get_reachable by assumption. cbn [fst snd]. f_equal.
    unfold Redis.live, RedisCache.prefixed. simpl.
    rewrite lookup_insert_eq.
    apply str_truthy_true in Hp.
    destruct ttl as [n |].
    + assert (Hlive : negb (Qle_bool
                              (Redis.clock (RedisCache._client r) + inject_Z n)
                              (Redis.clock (RedisCache._client r))) = true).
      { apply later_than_true.
        assert (0 < inject_Z n)%Q by (unfold Qlt, inject_Z; simpl; lia).
        lra. }
      rewrite Hlive, Hp, Hd. reflexivity.
    + rewrite Hp, Hd. reflexivity.
Qed.



Lemma prefixed_inj (r : RedisCache.t) (k1 k2 : string) :
  RedisCache.prefixed r k1 = RedisCache.prefixed r k2 -> k1 = k2.
Proof.
  unfold RedisCache.prefixed.
  destruct (RedisCache._prefix r) as [p |]; [| auto].
  destruct (str_truthy p); [| auto].
  intros H. apply String.app_inj in H. now apply String.app_inj in H.
Qed.







End MemoizerFacts.

#[local] Existing Instance Samples.fingerprint.

Lemma memoizer_never_caches_errors_witness :
  (Caching.cache_get 0%Q
     (Caching.make_key Samples.fixed_key Samples.flaky [] [])
     (Caching.the_cache Samples.local_world)
   = (Ok PNone, Caching.the_cache Samples.local_world)
   /\ Caching.body Samples.flaky [] [] (Caching.env Samples.local_world)
      = (Raise (AppError "upstream timeout"), 1%nat)
   /\ Caching.body Samples.flaky [] [] 1%nat = (Ok (PInt 1), 2%nat))
  /\ (Caching.wrapper Samples.fixed_key Samples.flaky 0%Q 0%Q [] []
        Samples.local_world).1
     = Raise (AppError "upstream timeout")
  /\ Caching.calls
       (Caching.wrapper Samples.fixed_key Samples.flaky 1%Q 1%Q [] []
          (Caching.wrapper Samples.fixed_key Samples.flaky 0%Q 0%Q [] []
             Samples.local_world).2).2
     = 2%nat.
Proof.
  assert (H1 : Caching.cache_get 0%Q
                 (Caching.make_key Samples.fixed_key Samples.flaky [] [])
                 (Caching.the_cache Samples.local_world)
               = (Ok PNone, Caching.the_cache Samples.local_world))
    by reflexivity.
  assert (H2 : Caching.body Samples.flaky [] []
                 (Caching.env Samples.local_world)
               = (Raise (AppError "upstream timeout"), 1%nat))
    by reflexivity.
  assert (H3 : Caching.body Samples.flaky [] [] 1%nat
               = (Ok (PInt 1), 2%nat))
    by reflexivity.
  pose proof (memoizer_never_caches_errors Samples.fixed_key Samples.flaky
                0%Q 0%Q 1%Q 1%Q [] [] Samples.local_world _ _ _
                H1 H2) as (Hfirst & _ & Hcalls & Hlater).
  pose proof (Hlater _ _ H3) as (_ & _).
  split; [exact (conj H1 (conj H2 H3)) |].
  split; [now rewrite Hfirst | exact Hcalls].
Defined.


(** The same on the remote backend, through the JSON fragment. *)
Example memoizer_reuses_on_remote_backend :
  Caching.wrapper Samples.by_arguments Samples.twice 1%Q 1%Q [PInt 3] []
    (Caching.wrapper Samples.by_arguments Samples.twice 0%Q 0%Q
       [PInt 3] [] Samples.remote_world).2
  = (Ok (PInt 6),
     {| Caching.the_cache :=
          Caching.the_cache
            (Caching.wrapper Samples.by_arguments Samples.twice 1%Q 1%Q
               [PInt 3] []
               (Caching.wrapper Samples.by_arguments Samples.twice 0%Q 0%Q
                  [PInt 3] [] Samples.remote_world).2).2;
        Caching.env := 1%nat; Caching.calls := 1%nat |}).
Proof. vm_compute. reflexivity. Qed.


(** ** The session middleware *)

Section SessionFacts.
Context {_serializer : ORJSONSerializer}.
Import SessionMiddleware Notions MoreNotions.

(** [set] returns without a fault when the value encodes and the expiry
    is absent or positive, or when the server is out of reach. *)
Lemma redis_set_encodable_ok (key payload : string) (value : pyval)
  (ttl : option Z) (self : RedisCache.t) :
  encode value = Some payload ->
  match ttl with Some n => 0 < n | None => True end
  \/ Redis.reachable (RedisCache._client self) = false ->
  (RedisCache.set key value ttl self).1 = Ok tt.
Proof.
  intros He Hok.
  unfold RedisCache.set, except_ConnectionError, bind, encode_or_raise,
    RedisCache.on_client, Redis.set.
  destruct (negb (str_truthy key) || negb (truthy value)); [reflexivity |].
  rewrite He. simpl.
  destruct (Redis.reachable (RedisCache._client self)) eqn:Hr;
    [| reflexivity].
  destruct Hok as [Httl | Hdown]; [| discriminate].
  destruct ttl as [n |]; [| reflexivity].
  assert (Hpos : (n <=? 0)%Z = false) by now apply Z.leb_gt.
  now rewrite Hpos.
Qed.

Lemma send_wrapper_other (self : t) (entropy : nat -> string)
  (value : option string) (initial_empty : bool) (message : Message)
  (st : Conn) :
  mtype message <> "http.response.start" ->
  send_wrapper self entropy value initial_empty message st = send message st.
Proof.
  intros H. unfold send_wrapper.
  destruct (String.eqb_spec (mtype message) "http.response.start");
    [contradiction | reflexivity].
Qed.

Lemma send_wrapper_persist (self : t) (entropy : nat -> string)
  (value : option string) (initial_empty : bool) (message : Message)
  (st : Conn) (data : pyval) (payload : string) :
  mtype message = "http.response.start" ->
  session (scope st) = Some data -> truthy data = true ->
  encode data = Some payload ->
  match max_age self with Some n => 0 < n | None => True end
  \/ Redis.reachable (RedisCache._client (cache st)) = false ->
  send_wrapper self entropy value initial_empty message st
  = (Ok tt,
     {| cache :=
          (RedisCache.set (token_of entropy value (drawn st)) data
             (max_age self) (cache st)).2;
        scope := scope st;
        sent :=
          sent st
          ++ [append_set_cookie
                (persist_header self (token_of entropy value (drawn st)))
                message];
        drawn := if opt_str_truthy value then drawn st else S (drawn st) |}).
Proof.
  intros Hty Hs Hd He Hage.
  unfold send_wrapper. rewrite Hty, String.eqb_refl.
  unfold bind, read_session. rewrite Hs, Hd. unfold token_of.
  destruct (opt_str_truthy value); unfold ret, token_urlsafe, on_store, send;
    simpl.
  - pose proof (redis_set_encodable_ok (default "" value) payload data
                  (max_age self) (cache st) He Hage) as Hok.
    destruct (RedisCache.set (default "" value) data (max_age self) (cache st))
      as [res c]. simpl in *. now subst res.
  - pose proof (redis_set_encodable_ok (entropy (drawn st)) payload data
                  (max_age self) (cache st) He Hage) as Hok.
    destruct (RedisCache.set (entropy (drawn st)) data (max_age self)
                (cache st))
      as [res c]. simpl in *. now subst res.
Qed.

(** With a [max_age] that is not positive a reachable server refuses the
    write: the fault leaves the wrapper and the message is not sent. *)
Lemma send_wrapper_refused (self : t) (entropy : nat -> string)
  (value : option string) (initial_empty : bool) (message : Message)
  (st : Conn) (data : pyval) (payload : string) (n : Z) :
  mtype message = "http.response.start" ->
  session (scope st) = Some data -> truthy data = true ->
  encode data = Some payload ->
  token_of entropy value (drawn st) <> "" ->
  Redis.reachable (RedisCache._client (cache st)) = true ->
  max_age self = Some n -> n <= 0 ->
  let out := send_wrapper self entropy value initial_empty message st in
  out.1 = Raise ResponseError /\ sent out.2 = sent st.
Proof.
  intros Hty Hs Hd He Htok Hr Hage Hn out. subst out.
  unfold send_wrapper. rewrite Hty, String.eqb_refl.
  unfold bind, read_session. rewrite Hs, Hd, Hage.
  unfold token_of in Htok.
  destruct (opt_str_truthy value); unfold ret, token_urlsafe, on_store; simpl.
  - now rewrite (redis_set_refused _ payload data n (cache st) Htok Hd He Hr Hn).
  - now rewrite (redis_set_refused _ payload data n (cache st) Htok Hd He Hr Hn).
Qed.

Lemma send_wrapper_clear (self : t) (entropy : nat -> string)
  (value : option string) (message : Message) (st : Conn) (data : pyval) :
  mtype message = "http.response.start" ->
  session (scope st) = Some data -> truthy data = false ->
  send_wrapper self entropy value false message st
  = (Ok tt,
     {| cache :=
          match value with
          | Some old => (RedisCache.delete old (cache st)).2
          | None => cache st
          end;
        scope := scope st;
        sent := sent st ++ [append_set_cookie (clear_header self) message];
        drawn := drawn st |}).
Proof.
  intros Hty Hs Hd.
  unfold send_wrapper. rewrite Hty, String.eqb_refl.
  unfold bind, read_session. rewrite Hs, Hd. simpl.
  unfold delete_value, on_store, send, ret.
  destruct value as [old |]; [| reflexivity].
  pose proof (redis_delete_never_raises old (cache st)) as Hok.
  destruct (RedisCache.delete old (cache st)) as [res c]. simpl in *.
  now subst res.
Qed.

Lemma send_wrapper_idle (self : t) (entropy : nat -> string)
  (value : option string) (message : Message) (st : Conn) (data : pyval) :
  session (scope st) = Some data -> truthy data = false ->
  send_wrapper self entropy value true message st = send message st.
Proof.
  intros Hs Hd. unfold send_wrapper.
  destruct (String.eqb (mtype message) "http.response.start");
    [| reflexivity].
  unfold bind, read_session. now rewrite Hs, Hd.
Qed.

(** With the outer [send] itself, an application script runs to its end:
    its messages go out as they are and nothing else changes but the
    session entry the script assigns. *)
Lemma run_app_send (steps : list step) (st : Conn) :
  run_app send steps st
  = (Ok tt,
     {| cache := cache st;
        scope := {| type := type (scope st); cookies := cookies (scope st);
                    session := last_session (session (scope st)) steps |};
        sent := sent st ++ sends steps;
        drawn := drawn st |}).
Proof.
  revert st. induction steps as [| [v | m] rest IH]; intros st.
  - destruct st as [c [ty ck se] out n]. simpl. now rewrite app_nil_r.
  - simpl. unfold bind, set_session. simpl. now rewrite IH.
  - simpl. unfold bind, send. simpl. rewrite IH. simpl.
    now rewrite <- app_assoc.
Qed.

Lemma not_http_or_websocket_true (ty : string) :
  not_http_or_websocket ty = true <-> ty <> "http" /\ ty <> "websocket".
Proof.
  unfold not_http_or_websocket. rewrite negb_true_iff, orb_false_iff.
  destruct (String.eqb_spec ty "http"), (String.eqb_spec ty "websocket");
    split; intros [? ?]; try split; congruence.
Qed.

(** A lookup of a token with no live entry returns [None] and issues the
    one GET. *)
Lemma redis_get_vacant (key : string) (self : RedisCache.t) :
  key <> "" ->
  Redis.live (RedisCache._client self) (RedisCache.prefixed self key) = None ->
  RedisCache.get key self
  = (Ok PNone, sent_to (Redis.GET (RedisCache.prefixed self key)) self).
Proof.
  intros Hk Hlive.
  destruct (Redis.reachable (RedisCache._client self)) eqn:Hr.
  - rewrite redis_get_reachable by assumption. now rewrite Hlive.
  - now rewrite redis_get_unreachable.
Qed.

Lemma redis_set_log (key payload : string) (value : pyval) (ttl : option Z)
  (self : RedisCache.t) :
  key <> "" -> truthy value = true -> encode value = Some payload ->
  Redis.log (RedisCache._client (RedisCache.set key value ttl self).2)
  = (Redis.log (RedisCache._client self)
     ++ [Redis.SET (RedisCache.prefixed self key) payload ttl])%list.
Proof.
  intros Hk Hv He.
  destruct (Redis.reachable (RedisCache._client self)) eqn:Hr.
  - assert (Hcases : match ttl with Some n => 0 < n | None => True end
                     \/ exists n : Z, ttl = Some n /\ n <= 0).
    { destruct ttl as [n |]; [| now left].
      destruct (Z.lt_ge_cases 0 n); [now left | right; now exists n]. }
    destruct Hcases as [Httl | (n & -> & Hn)].
    + now rewrite (redis_set_reachable key payload value ttl self Hk Hv He Hr
                     Httl).
    + now rewrite (redis_set_refused key payload value n self Hk Hv He Hr Hn).
  - now rewrite (redis_set_unreachable key payload value ttl self Hk Hv He Hr).
Qed.

(** After hydration from a cookie the application runs behind the wrapper
    that remembers the value of the cookie, found or not. *)
Lemma call_with_cookie (self : t) (entropy : nat -> string) (app : App)
  (st : Conn) (old : string) (d : pyval) (c1 : RedisCache.t) :
  not_http_or_websocket (type (scope st)) = false ->
  cookies (scope st) !! session_cookie self = Some old ->
  RedisCache.get old (cache st) = (Ok d, c1) ->
  call self entropy app st
  = run_app (send_wrapper self entropy (Some old) (negb (truthy d)))
      (app (with_session (if truthy d then d else PDict []) (scope st)))
      {| cache := c1;
         scope := with_session (if truthy d then d else PDict []) (scope st);
         sent := sent st; drawn := drawn st |}.
Proof.
  intros Hty Hck Hget. unfold call, bind, on_store, set_session.
  now rewrite Hty, Hck, Hget.
Qed.

Lemma call_without_cookie (self : t) (entropy : nat -> string) (app : App)
  (st : Conn) :
  not_http_or_websocket (type (scope st)) = false ->
  cookies (scope st) !! session_cookie self = None ->
  call self entropy app st
  = run_app (send_wrapper self entropy None true)
      (app (with_session (PDict []) (scope st)))
      {| cache := cache st; scope := with_session (PDict []) (scope st);
         sent := sent st; drawn := drawn st |}.
Proof.
  intros Hty Hck. unfold call, bind, set_session.
  now rewrite Hty, Hck.
Qed.

Lemma run_app_set_then_send (w : Message -> M Conn unit) (data : pyval)
  (message : Message) (st : Conn) :
  run_app w [SetSession data; Send message] st
  = w message {| cache := cache st; scope := with_session data (scope st);
                 sent := sent st; drawn := drawn st |}.
Proof.
  simpl. unfold bind, set_session, ret.
  now destruct (w message _) as [[[] | e] s].
Qed.


Lemma run_app_app (w : Message -> M Conn unit) (a b : list step) (st : Conn) :
  run_app w (a ++ b) st = (let* _ := run_app w a in run_app w b) st.
Proof.
  revert st. induction a as [| [v | m] a IH]; intros st.
  - reflexivity.
  - simpl. unfold bind in *.
    destruct (set_session v st) as [[[] | e] s]; [apply IH | reflexivity].
  - simpl. unfold bind in *.
    destruct (w m st) as [[[] | e] s]; [apply IH | reflexivity].
Qed.

(** A script without an [http.response.start] message runs behind the
    wrapper as it does on the outer [send]. *)
Lemma run_app_quiet (self : t) (entropy : nat -> string)
  (value : option string) (initial_empty : bool) (steps : list step)
  (st : Conn) :
  no_response_start steps ->
  run_app (send_wrapper self entropy value initial_empty) steps st
  = run_app send steps st.
Proof.
  intros Hquiet. revert st.
  induction Hquiet as [| [v | m] rest Hhead _ IH]; intros st.
  - reflexivity.
  - simpl. unfold bind. destruct (set_session v st) as [[[] | e] s];
      [apply IH | reflexivity].
  - simpl. unfold bind.
    rewrite (send_wrapper_other self entropy value initial_empty m st Hhead).
    destruct (send m st) as [[[] | e] s]; [apply IH | reflexivity].
Qed.

(** A script with one [http.response.start] message: what precedes it
    goes out as it is, the wrapper acts on the message with the session
    the script has assigned by then, and what follows goes out as it is. *)
Lemma run_single_response (self : t) (entropy : nat -> string)
  (value : option string) (initial_empty : bool) (pre post : list step)
  (message : Message) (st : Conn) :
  no_response_start pre -> no_response_start post ->
  run_app (send_wrapper self entropy value initial_empty)
    (pre ++ Send message :: post) st
  = (let* _ := send_wrapper self entropy value initial_empty message in
     run_app send post)
      {| cache := cache st;
         scope := {| type := type (scope st); cookies := cookies (scope st);
                     session := last_session (session (scope st)) pre |};
         sent := sent st ++ sends pre;
         drawn := drawn st |}.
Proof.
  intros Hpre Hpost. rewrite run_app_app. unfold bind at 1.
  rewrite (run_app_quiet self entropy value initial_empty pre st Hpre).
  rewrite run_app_send. simpl. unfold bind.
  destruct (send_wrapper self entropy value initial_empty message _)
    as [[[] | e] s]; [| reflexivity].
  apply run_app_quiet. exact Hpost.
Qed.

(** The same when the session is not empty at the start of the response
    and the store takes the write or is out of reach. *)
Lemma single_response_persist (self : t) (entropy : nat -> string)
  (value : option string) (initial_empty : bool) (post : list step)
  (message : Message) (st : Conn) (data : pyval) (payload : string) :
  mtype message = "http.response.start" ->
  session (scope st) = Some data -> truthy data = true ->
  encode data = Some payload ->
  match max_age self with Some n => 0 < n | None => True end
  \/ Redis.reachable (RedisCache._client (cache st)) = false ->
  (let* _ := send_wrapper self entropy value initial_empty message in
   run_app send post) st
  = (Ok tt,
     {| cache :=
          (RedisCache.set (token_of entropy value (drawn st)) data
             (max_age self) (cache st)).2;
        scope := {| type := type (scope st); cookies := cookies (scope st);
                    session := last_session (session (scope st)) post |};
        sent :=
          sent st
          ++ [append_set_cookie
                (persist_header self (token_of entropy value (drawn st)))
                message]
          ++ sends post;
        drawn := if opt_str_truthy value then drawn st else S (drawn st) |}).
Proof.
  intros Hm Hs Hd He Hage. unfold bind.
  rewrite (send_wrapper_persist self entropy value initial_empty message st
             data payload Hm Hs Hd He Hage).
  rewrite run_app_send. cbn [cache scope sent drawn].
  now rewrite <- app_assoc.
Qed.

(** Behind a wrapper that holds a non-empty cookie value no token is
    drawn, whatever the script does. *)
Lemma send_wrapper_keeps_drawn (self : t) (entropy : nat -> string)
  (old : string) (initial_empty : bool) (m : Message) (st : Conn) :
  old <> "" ->
  drawn (send_wrapper self entropy (Some old) initial_empty m st).2 = drawn st.
Proof.
  intros Hold. apply str_truthy_true in Hold.
  unfold send_wrapper.
  destruct (String.eqb (mtype m) "http.response.start"); [| reflexivity].
  unfold bind, read_session.
  destruct (session (scope st)) as [data |]; [| reflexivity].
  destruct (truthy data).
  - simpl. rewrite Hold. unfold ret, on_store.
    now destruct (RedisCache.set _ data (max_age self) (cache st))
      as [[[] | e] c].
  - destruct initial_empty; simpl; [reflexivity |]. unfold on_store.
    now destruct (RedisCache.delete old (cache st)) as [[[] | e] c].
Qed.

Lemma run_app_keeps_drawn (self : t) (entropy : nat -> string)
  (old : string) (initial_empty : bool) (steps : list step) (st : Conn) :
  old <> "" ->
  drawn (run_app (send_wrapper self entropy (Some old) initial_empty)
           steps st).2
  = drawn st.
Proof.
  intros Hold. revert st. induction steps as [| [v | m] rest IH]; intros st.
  - reflexivity.
  - simpl. unfold bind, set_session. now rewrite IH.
  - simpl. unfold bind.
    pose proof (send_wrapper_keeps_drawn self entropy old initial_empty m st
                  Hold) as Hstep.
    destruct (send_wrapper self entropy (Some old) initial_empty m st)
      as [[[] | e] s]; simpl in Hstep; [| exact Hstep].
    now rewrite IH.
Qed.

Lemma call_keeps_drawn (self : t) (entropy : nat -> string) (app : App)
  (st : Conn) (old : string) :
  not_http_or_websocket (type (scope st)) = false ->
  cookies (scope st) !! session_cookie self = Some old -> old <> "" ->
  drawn (call self entropy app st).2 = drawn st.
Proof.
  intros Hty Hck Hold. unfold call. rewrite Hty, Hck.
  unfold bind, on_store.
  destruct (RedisCache.get old (cache st)) as [[d | e] c1]; [| reflexivity].
  unfold set_session. now rewrite run_app_keeps_drawn.
Qed.

(** The text of the cookie that carries the token: the max-age is left
    out when [max_age] is absent or zero. *)
Lemma persist_header_text (self : t) (token : string) :
  persist_header self token
  = session_cookie self +:+ "=" +:+ token +:+ "; path=" +:+ path self
    +:+ "; "
    +:+ match max_age self with
        | Some n =>
            if (n =? 0)%Z then "" else "Max-Age=" +:+ pretty n +:+ "; "
        | None => ""
        end
    +:+ security_flags self.
Proof.
  unfold persist_header.
  destruct (max_age self) as [n |]; [| reflexivity].
  now destruct (n =? 0)%Z.
Qed.

(** C1.  On a message of type [http.response.start] the wrapper does one
    of three things, chosen by the session mapping and by whether the
    session was empty on entry.  A non-empty mapping is sent to the store
    in full, under the token of the cookie or a freshly drawn one, and the
    message goes out with one more header, the cookie carrying the token,
    the path, the max-age and the security flags; here [max_age] is
    absent or positive, as the store requires of an expiry, or the store
    is out of reach.  An empty mapping
    that was not empty on entry makes the store delete the entry of the
    old token, and the message goes out with a cookie that expires at the
    epoch.  An empty mapping that was empty on entry leaves the store
    alone and the message goes out as it came.  The middleware runs the
    wrapper on the message that starts the response of a request: what
    the application sends before and after goes out as it is, the wrapper
    holds the value of the session cookie and whether the looked-up
    session was empty, and it sees the session the application has
    assigned by then. *)
Theorem session_response_start (self : t) (entropy : nat -> string)
  (value : option string) (initial_empty : bool) (message : Message)
  (st : Conn) (data : pyval) :
  mtype message = "http.response.start" ->
  session (scope st) = Some data ->
  let out := send_wrapper self entropy value initial_empty message st in
  let server := RedisCache._client (cache st) in
  let server' := RedisCache._client (cache out.2) in
  (truthy data = true ->
   match max_age self with Some n => 0 < n | None => True end
   \/ Redis.reachable server = false ->
   forall (token payload : string),
     token = token_of entropy value (drawn st) -> token <> "" ->
     encode data = Some payload ->
     out.1 = Ok tt
     /\ sent out.2
        = (sent st
           ++ [append_set_cookie (persist_header self token) message])%list
     /\ persist_header self token
        = session_cookie self +:+ "=" +:+ token +:+ "; path=" +:+ path self
          +:+ "; "
          +:+ match max_age self with
              | Some n =>
                  if (n =? 0)%Z then "" else "Max-Age=" +:+ pretty n +:+ "; "
              | None => ""
              end
          +:+ security_flags self
     /\ drawn out.2 = (if opt_str_truthy value then drawn st else S (drawn st))
     /\ Redis.log server'
        = (Redis.log server
           ++ [Redis.SET (RedisCache.prefixed (cache st) token) payload
                 (max_age self)])%list
     /\ (Redis.reachable server = true ->
         Redis.db server' !! RedisCache.prefixed (cache st) token
         = Some (payload,
                 match max_age self with
                 | Some n => Some (Redis.clock server + inject_Z n)%Q
                 | None => None
                 end)))
  /\ (truthy data = false -> initial_empty = false ->
      out.1 = Ok tt
      /\ sent out.2
         = (sent st
            ++ [append_set_cookie (clear_header self) message])%list
      /\ clear_header self
         = session_cookie self +:+ "=null; path=" +:+ path self
           +:+ "; expires=Thu, 01 Jan 1970 00:00:00 GMT; "
           +:+ security_flags self
      /\ (forall old : string,
            value = Some old -> old <> "" ->
            Redis.log server'
            = (Redis.log server
               ++ [Redis.DEL (RedisCache.prefixed (cache st) old)])%list
            /\ (Redis.reachable server = true ->
                Redis.db server' !! RedisCache.prefixed (cache st) old
                = None)))
  /\ (truthy data = false -> initial_empty = true ->
      out.1 = Ok tt
      /\ sent out.2 = (sent st ++ [message])%list
      /\ cache out.2 = cache st)
  /\ (forall (app : App) (st0 : Conn) (pre post : list step),
        not_http_or_websocket (type (scope st0)) = false ->
        no_response_start pre -> no_response_start post ->
        (cookies (scope st0) !! session_cookie self = None ->
         app (with_session (PDict []) (scope st0))
         = (pre ++ Send message :: post)%list ->
         call self entropy app st0
         = (let* _ := send_wrapper self entropy None true message in
            run_app send post)
             {| cache := cache st0;
                scope := {| type := type (scope st0);
                            cookies := cookies (scope st0);
                            session := last_session (Some (PDict [])) pre |};
                sent := (sent st0 ++ sends pre)%list;
                drawn := drawn st0 |})
        /\ (forall (old : string) (found : pyval) (c1 : RedisCache.t),
              cookies (scope st0) !! session_cookie self = Some old ->
              RedisCache.get old (cache st0) = (Ok found, c1) ->
              app (with_session (if truthy found then found else PDict [])
                     (scope st0))
              = (pre ++ Send message :: post)%list ->
              call self entropy app st0
              = (let* _ := send_wrapper self entropy (Some old)
                             (negb (truthy found)) message in
                 run_app send post)
                  {| cache := c1;
                     scope :=
                       {| type := type (scope st0);
                          cookies := cookies (scope st0);
                          session :=
                            last_session
                              (Some (if truthy found then found else PDict []))
                              pre |};
                     sent := (sent st0 ++ sends pre)%list;
                     drawn := drawn st0 |})).
Proof.
  intros Hty Hs out server server'. split; [| split; [| split]].
  - intros Hd Hok token payload -> Htok He.
    subst out server'.
    rewrite (send_wrapper_persist self entropy value initial_empty message st
               data payload Hty Hs Hd He Hok).
    cbn [fst snd cache sent drawn].
    split; [reflexivity |]. split; [reflexivity |].
    split; [apply persist_header_text |].
    split; [reflexivity |].
    destruct (Redis.reachable server) eqn:Hr; subst server.
    + destruct Hok as [Hage | Hdown]; [| discriminate].
      rewrite (redis_set_reachable _ payload data (max_age self) (cache st)
                 Htok Hd He Hr Hage).
      simpl. split; [reflexivity |].
      intros _; apply lookup_insert_eq.
    + rewrite (redis_set_unreachable _ payload data (max_age self) (cache st)
                 Htok Hd He Hr).
      simpl. split; [reflexivity | discriminate].
  - intros Hd ->. subst out server'.
    rewrite (send_wrapper_clear self entropy value message st data Hty Hs Hd).
    cbn [fst snd cache sent].
    split; [reflexivity |]. split; [reflexivity |].
    split; [reflexivity |].
    intros old -> Hold.
    destruct (Redis.reachable server) eqn:Hr; subst server.
    + rewrite (redis_delete_reachable old (cache st) Hold Hr). simpl.
      split; [reflexivity |]. intros _. apply lookup_delete_eq.
    + rewrite (redis_delete_unreachable old (cache st) Hold Hr). simpl.
      split; [reflexivity | discriminate].
  - intros Hd ->. subst out server'.
    rewrite (send_wrapper_idle self entropy value message st data Hs Hd).
    repeat split.
  - intros app st0 pre post Hty0 Hpre Hpost. split.
    + intros Hck Happ.
      rewrite (call_without_cookie self entropy app st0 Hty0 Hck), Happ.
      now rewrite (run_single_response self entropy None true pre post message
                     _ Hpre Hpost).
    + intros old found c1 Hck Hget Happ.
      rewrite (call_with_cookie self entropy app st0 old found c1 Hty0 Hck
                 Hget), Happ.
      now rewrite (run_single_response self entropy (Some old)
                     (negb (truthy found)) pre post message _ Hpre Hpost).
Qed.

(** C7, as amended.  A request whose cookie carries a non-empty token
    draws no token, whatever the store answers and whatever the handler
    does: a token is drawn only for a request without the session cookie
    or with an empty one.  When the store holds no live entry for the
    token of the cookie and the handler has assigned a non-empty session
    by the start of the response, the session is stored under the token of
    the cookie and that same token goes back in the cookie; here
    [max_age] is absent or positive, as the store requires of an expiry,
    or the store is out of reach. *)
Theorem session_token_taken_from_cookie (self : t) (entropy : nat -> string)
  (app : App) (st : Conn) (old : string) :
  not_http_or_websocket (type (scope st)) = false ->
  cookies (scope st) !! session_cookie self = Some old -> old <> "" ->
  let out := call self entropy app st in
  drawn out.2 = drawn st
  /\ (forall (pre post : list step) (message : Message) (data : pyval)
        (payload : string),
        Redis.live (RedisCache._client (cache st))
          (RedisCache.prefixed (cache st) old) = None ->
        app (with_session (PDict []) (scope st))
        = (pre ++ Send message :: post)%list ->
        no_response_start pre -> no_response_start post ->
        mtype message = "http.response.start" ->
        last_session (Some (PDict [])) pre = Some data ->
        truthy data = true -> encode data = Some payload ->
        match max_age self with Some n => 0 < n | None => True end
        \/ Redis.reachable (RedisCache._client (cache st)) = false ->
        out.1 = Ok tt
        /\ sent out.2
           = (sent st ++ sends pre
              ++ [append_set_cookie (persist_header self old) message]
              ++ sends post)%list
        /\ Redis.log (RedisCache._client (cache out.2))
           = (Redis.log (RedisCache._client (cache st))
              ++ [Redis.GET (RedisCache.prefixed (cache st) old);
                  Redis.SET (RedisCache.prefixed (cache st) old) payload
                    (max_age self)])%list
        /\ (Redis.reachable (RedisCache._client (cache st)) = true ->
            Redis.db (RedisCache._client (cache out.2))
              !! RedisCache.prefixed (cache st) old
            = Some (payload,
                    match max_age self with
                    | Some n =>
                        Some (Redis.clock (RedisCache._client (cache st))
                              + inject_Z n)%Q
                    | None => None
                    end))).
Proof.
  intros Hty Hck Hold out.
  split; [now apply (call_keeps_drawn self entropy app st old) |].
  intros pre post message data payload Hlive Happ Hpre Hpost Hm Hlast Hd He
    Hage.
  assert (Htoken : opt_str_truthy (Some old) = true)
    by now apply str_truthy_true.
  subst out.
  rewrite (call_with_cookie self entropy app st old PNone _ Hty Hck
             (redis_get_vacant old (cache st) Hold Hlive)).
  cbn [truthy negb]. rewrite Happ.
  rewrite (run_single_response self entropy (Some old) true pre post message
             _ Hpre Hpost).
  cbn [cache scope sent drawn with_session session type cookies].
  rewrite Hlast.
  erewrite (single_response_persist self entropy (Some old) true post message
              _ data payload Hm); [| reflexivity | exact Hd | exact He
                                   | exact Hage].
  unfold token_of. rewrite Htoken.
  cbn [default from_option id drawn cache sent fst snd].
  split; [reflexivity |].
  split; [now rewrite <- app_assoc |].
  split.
  - rewrite (redis_set_log old payload data (max_age self) _ Hold Hd He).
    simpl. now rewrite <- app_assoc.
  - intros Hr. destruct Hage as [Hage | Hdown]; [| congruence].
    rewrite (redis_set_reachable old payload data (max_age self)
               (sent_to (Redis.GET (RedisCache.prefixed (cache st) old))
                  (cache st)) Hold Hd He Hr Hage).
    simpl. apply lookup_insert_eq.
Qed.

(** C9, as amended.  A connection whose type is neither [http] nor
    [websocket] is handed to the wrapped application as it is: the
    application starts on the scope as it came, its messages reach the
    outer [send] unchanged and in order, the session store is not touched
    and no token is drawn. *)
Theorem session_passes_other_types_through (self : t)
  (entropy : nat -> string) (app : App) (st : Conn) :
  type (scope st) <> "http" -> type (scope st) <> "websocket" ->
  let out := call self entropy app st in
  out = run_app send (app (scope st)) st
  /\ out.1 = Ok tt
  /\ cache out.2 = cache st
  /\ drawn out.2 = drawn st
  /\ sent out.2 = (sent st ++ sends (app (scope st)))%list.
Proof.
  intros Hh Hw out.
  assert (Hty : not_http_or_websocket (type (scope st)) = true)
    by now apply not_http_or_websocket_true.
  assert (Hcall : call self entropy app st
                  = run_app send (app (scope st)) st).
  { unfold call. now rewrite Hty. }
  subst out. split; [exact Hcall |].
  rewrite Hcall, run_app_send. repeat split.
Qed.

End SessionFacts.

(** *** The application's own requests, end to end *)

(** The application's own requests, end to end. *)
Example session_round_trip_first_request :
  let out := SessionMiddleware.call Samples.middleware Samples.entropy
               Samples.login_app
               (Samples.connection "http" ∅ Samples.redis_up) in
  out.1 = Ok tt
  /\ SessionMiddleware.sent out.2
     = [ {| SessionMiddleware.mtype := "http.response.start";
            SessionMiddleware.headers :=
              [("content-type", "application/json");
               ("set-cookie",
                "session=fresh-0; path=/; Max-Age=1209600; httponly; samesite=lax")] |};
         Samples.response_body ]
  /\ Redis.log (RedisCache._client (SessionMiddleware.cache out.2))
     = [Redis.SET "session:fresh-0"
          ("{" +:+ JsonFragment.quoted "user_id" +:+ ":42}") (Some 1209600)].
Proof. vm_compute. repeat split. Qed.

Example session_round_trip_second_request :
  let out := SessionMiddleware.call Samples.middleware Samples.entropy
               (fun sc => match SessionMiddleware.session sc with
                          | Some v => [SessionMiddleware.SetSession (PList [v])]
                          | None => []
                          end)
               (Samples.connection "http" {[ "session" := "abc" ]}
                  Samples.redis_with_session) in
  SessionMiddleware.session (SessionMiddleware.scope out.2)
  = Some (PList [Samples.user_session]).
Proof. vm_compute. reflexivity. Qed.

Example session_cleared :
  let out := SessionMiddleware.call Samples.middleware Samples.entropy
               Samples.logout_app
               (Samples.connection "http" {[ "session" := "abc" ]}
                  Samples.redis_with_session) in
  out.1 = Ok tt
  /\ SessionMiddleware.sent out.2
     = [ {| SessionMiddleware.mtype := "http.response.start";
            SessionMiddleware.headers :=
              [("content-type", "application/json");
               ("set-cookie",
                "session=null; path=/; expires=Thu, 01 Jan 1970 00:00:00 GMT; httponly; samesite=lax")] |};
         Samples.response_body ]
  /\ Redis.db (RedisCache._client (SessionMiddleware.cache out.2)) = ∅
  /\ Redis.log (RedisCache._client (SessionMiddleware.cache out.2))
     = [Redis.GET "session:abc"; Redis.DEL "session:abc"].
Proof. vm_compute. repeat split. Qed.

Example session_no_churn :
  SessionMiddleware.call Samples.middleware Samples.entropy Samples.plain_app
    (Samples.connection "http" ∅ Samples.redis_up)
  = (Ok tt,
     {| SessionMiddleware.cache :=
          SessionMiddleware.init_cache Samples.redis_up "session";
        SessionMiddleware.scope :=
          {| SessionMiddleware.type := "http";
             SessionMiddleware.cookies := ∅;
             SessionMiddleware.session := Some (PDict []) |};
        SessionMiddleware.sent :=
          [Samples.response_start; Samples.response_body];
        SessionMiddleware.drawn := O |}).
Proof. vm_compute. reflexivity. Qed.

(** *** Instances of the theorems *)

Lemma session_response_start_witness :
  (SessionMiddleware.mtype Samples.response_start = "http.response.start"
   /\ truthy Samples.user_session = true
   /\ Samples.entropy 0 <> ""
   /\ encode Samples.user_session = Some Samples.user_payload
   /\ MoreNotions.no_response_start
        [SessionMiddleware.SetSession Samples.user_session]
   /\ MoreNotions.no_response_start
        [SessionMiddleware.Send Samples.response_body])
  /\ (let out :=
        SessionMiddleware.send_wrapper Samples.middleware Samples.entropy
          None true Samples.response_start
          (Samples.in_request "http" ∅ Samples.redis_up Samples.user_session)
      in
      out.1 = Ok tt
      /\ Redis.log (RedisCache._client (SessionMiddleware.cache out.2))
         = [Redis.SET "session:fresh-0" Samples.user_payload (Some 1209600)]
      /\ SessionMiddleware.headers
           <$> last (SessionMiddleware.sent out.2)
         = Some [("content-type", "application/json");
                 ("set-cookie",
                  "session=fresh-0; path=/; Max-Age=1209600; httponly; samesite=lax")])
  /\ (let out :=
        SessionMiddleware.send_wrapper Samples.middleware Samples.entropy
          (Some "abc") false Samples.response_start
          (Samples.in_request "http" {[ "session" := "abc" ]}
             Samples.redis_with_session (PDict []))
      in
      out.1 = Ok tt
      /\ Redis.log (RedisCache._client (SessionMiddleware.cache out.2))
         = [Redis.DEL "session:abc"]
      /\ Redis.db (RedisCache._client (SessionMiddleware.cache out.2))
           !! "session:abc" = None)
  /\ (let out :=
        SessionMiddleware.send_wrapper Samples.middleware Samples.entropy
          None true Samples.response_start
          (Samples.in_request "http" ∅ Samples.redis_up (PDict []))
      in
      out.1 = Ok tt
      /\ SessionMiddleware.sent out.2 = [Samples.response_start])
  /\ SessionMiddleware.sent
       (SessionMiddleware.call Samples.middleware Samples.entropy
          Samples.login_app
          (Samples.connection "http" ∅ Samples.redis_up)).2
     = [SessionMiddleware.append_set_cookie
          "session=fresh-0; path=/; Max-Age=1209600; httponly; samesite=lax"
          Samples.response_start;
        Samples.response_body].
Proof.
  assert (Hpre : MoreNotions.no_response_start
                   [SessionMiddleware.SetSession Samples.user_session])
    by (repeat constructor).
  assert (Hpost : MoreNotions.no_response_start
                    [SessionMiddleware.Send Samples.response_body])
    by (repeat constructor; discriminate).
  split; [repeat split; try discriminate; assumption |].
  split; [| split; [| split]].
  - pose proof (session_response_start Samples.middleware Samples.entropy
                  None true Samples.response_start
                  (Samples.in_request "http" ∅ Samples.redis_up
                     Samples.user_session)
                  Samples.user_session eq_refl eq_refl)
      as (Hpersist & _ & _ & _).
    destruct (Hpersist eq_refl ltac:(left; reflexivity) "fresh-0"
                Samples.user_payload eq_refl
                ltac:(discriminate) eq_refl)
      as (Hres & Hsent & _ & _ & Hlog & _).
    cbv zeta. split; [exact Hres |]. split; [exact Hlog |].
    rewrite Hsent. reflexivity.
  - pose proof (session_response_start Samples.middleware Samples.entropy
                  (Some "abc") false Samples.response_start
                  (Samples.in_request "http" {[ "session" := "abc" ]}
                     Samples.redis_with_session (PDict []))
                  (PDict []) eq_refl eq_refl) as (_ & Hclear & _ & _).
    destruct (Hclear eq_refl eq_refl) as (Hres & _ & _ & Hold).
    destruct (Hold "abc" eq_refl ltac:(discriminate)) as (Hlog & Hdb).
    cbv zeta. split; [exact Hres |]. split; [exact Hlog |].
    exact (Hdb eq_refl).
  - pose proof (session_response_start Samples.middleware Samples.entropy
                  None true Samples.response_start
                  (Samples.in_request "http" ∅ Samples.redis_up (PDict []))
                  (PDict []) eq_refl eq_refl) as (_ & _ & Hidle & _).
    destruct (Hidle eq_refl eq_refl) as (Hres & Hsent & _).
    cbv zeta. split; [exact Hres | exact Hsent].
  - pose proof (session_response_start Samples.middleware Samples.entropy
                  None true Samples.response_start
                  (Samples.in_request "http" ∅ Samples.redis_up (PDict []))
                  (PDict []) eq_refl eq_refl) as (_ & _ & _ & Hcall).
    destruct (Hcall Samples.login_app
                (Samples.connection "http" ∅ Samples.redis_up)
                [SessionMiddleware.SetSession Samples.user_session]
                [SessionMiddleware.Send Samples.response_body]
                ltac:(reflexivity) Hpre Hpost) as (Hfresh & _).
    rewrite (Hfresh ltac:(reflexivity) ltac:(reflexivity)).
    vm_compute. reflexivity.
Defined.

Lemma session_token_taken_from_cookie_witness :
  (SessionMiddleware.not_http_or_websocket "http" = false
   /\ ({[ "session" := "stale" ]} : gmap string string) !! "session"
      = Some "stale"
   /\ Redis.live Samples.redis_up "session:stale" = None
   /\ truthy Samples.user_session = true
   /\ encode Samples.user_session = Some Samples.user_payload)
  /\ (let out :=
        SessionMiddleware.call Samples.middleware Samples.entropy
          Samples.login_app
          (Samples.connection "http" {[ "session" := "stale" ]}
             Samples.redis_up)
      in
      out.1 = Ok tt
      /\ SessionMiddleware.drawn out.2 = O
      /\ SessionMiddleware.sent out.2
         = [SessionMiddleware.append_set_cookie
              (SessionMiddleware.persist_header Samples.middleware "stale")
              Samples.response_start;
            Samples.response_body]
      /\ Redis.log (RedisCache._client (SessionMiddleware.cache out.2))
         = [Redis.GET "session:stale";
            Redis.SET "session:stale" Samples.user_payload (Some 1209600)]).
Proof.
  split; [repeat split |].
  destruct (session_token_taken_from_cookie Samples.middleware
              Samples.entropy Samples.login_app
              (Samples.connection "http" {[ "session" := "stale" ]}
                 Samples.redis_up)
              "stale"
              ltac:(reflexivity) ltac:(reflexivity) ltac:(discriminate))
    as (Hdrawn & Hstored).
  destruct (Hstored [SessionMiddleware.SetSession Samples.user_session]
              [SessionMiddleware.Send Samples.response_body]
              Samples.response_start Samples.user_session
              Samples.user_payload
              ltac:(reflexivity) ltac:(reflexivity)
              ltac:(repeat constructor)
              ltac:(repeat constructor; discriminate)
              ltac:(reflexivity) ltac:(reflexivity) ltac:(reflexivity)
              ltac:(reflexivity) ltac:(left; reflexivity))
    as (Hres & Hsent & Hlog & _).
  cbv zeta. split; [exact Hres |]. split; [exact Hdrawn |].
  split; [exact Hsent | exact Hlog].
Defined.

Lemma session_passes_other_types_through_witness :
  ("lifespan" <> "http" /\ "lifespan" <> "websocket")
  /\ (let out :=
        SessionMiddleware.call Samples.middleware Samples.entropy
          Samples.lifespan_app
          (Samples.connection "lifespan" {[ "session" := "abc" ]}
             Samples.redis_with_session)
      in
      out.1 = Ok tt
      /\ SessionMiddleware.cache out.2
         = SessionMiddleware.init_cache Samples.redis_with_session "session"
      /\ SessionMiddleware.sent out.2 = [Samples.lifespan_complete]).
Proof.
  assert (H1 : "lifespan" <> "http") by discriminate.
  assert (H2 : "lifespan" <> "websocket") by discriminate.
  split; [exact (conj H1 H2) |].
  destruct (session_passes_other_types_through Samples.middleware
              Samples.entropy Samples.lifespan_app
              (Samples.connection "lifespan" {[ "session" := "abc" ]}
                 Samples.redis_with_session) H1 H2)
    as (_ & Hres & Hcache & _ & Hsent).
  cbv zeta. split; [exact Hres |]. split; [exact Hcache | exact Hsent].
Defined.

(** *** Where the code departs from the specification *)

(** C7: a request whose cookie names a token the store does not know, and
    which ends with a non-empty session, has the session stored under
    that stale token and the stale token sent back; no token is drawn. *)
Lemma session_persisted_under_stale_token :
  let out :=
    SessionMiddleware.call Samples.middleware Samples.entropy
      Samples.login_app
      (Samples.connection "http" {[ "session" := "stale" ]} Samples.redis_up)
  in
  out.1 = Ok tt
  /\ SessionMiddleware.drawn out.2 = O
  /\ Redis.log (RedisCache._client (SessionMiddleware.cache out.2))
     = [Redis.GET "session:stale";
        Redis.SET "session:stale" Samples.user_payload (Some 1209600)]
  /\ Redis.db (RedisCache._client (SessionMiddleware.cache out.2))
       !! "session:stale"
     = Some (Samples.user_payload, Some (0 + inject_Z 1209600)%Q)
  /\ SessionMiddleware.sent out.2
     = [ {| SessionMiddleware.mtype := "http.response.start";
            SessionMiddleware.headers :=
              [("content-type", "application/json");
               ("set-cookie",
                "session=stale; path=/; Max-Age=1209600; httponly; samesite=lax")] |};
         Samples.response_body ].
Proof. vm_compute. repeat split. Qed.

(** C9: a websocket connection is not passed through untouched: the
    session store is read and the application sees the hydrated session. *)
Lemma session_hydrates_websocket :
  let out :=
    SessionMiddleware.call Samples.middleware Samples.entropy
      Samples.websocket_app
      (Samples.connection "websocket" {[ "session" := "abc" ]}
         Samples.redis_with_session)
  in
  out.1 = Ok tt
  /\ Redis.log (RedisCache._client (SessionMiddleware.cache out.2))
     = [Redis.GET "session:abc"]
  /\ SessionMiddleware.session (SessionMiddleware.scope out.2)
     = Some Samples.user_session
  /\ SessionMiddleware.sent out.2 = [Samples.websocket_accept].
Proof. vm_compute. repeat split. Qed.

(** * Further properties of the code *)

(** ** [InMemoryCache]: expiry, overwriting and independence of keys *)

Section InMemoryMore.
Import InMemoryCache.

Lemma mem_set_store_no_ttl (now : Q) (key : string) (value : pyval)
  (ttl : option Z) (self : t) :
  ttl = None \/ ttl = Some 0 ->
  store (set now key value ttl self).2 = <[key := (value, None)]> (store self).
Proof. intros [-> | ->]; reflexivity. Qed.

(** What [get] returns is decided by the entry under the key alone. *)
Lemma mem_get_result_local (t : Q) (k : string) (s1 s2 : InMemoryCache.t) :
  store s1 !! k = store s2 !! k -> (get t k s1).1 = (get t k s2).1.
Proof.
  intros H. unfold get. rewrite H.
  destruct (store s2 !! k) as [[v [e |]] |]; try reflexivity.
  now destruct (later_than e t).
Qed.

(** X1.  An entry set without a TTL, or with the TTL [0], never expires:
    a [get] at any instant returns the value and leaves the store as it
    is. *)
Theorem in_memory_no_ttl_persists (now t : Q) (key : string) (value : pyval)
  (ttl : option Z) (self : InMemoryCache.t) :
  ttl = None \/ ttl = Some 0 ->
  get t key (set now key value ttl self).2
  = (Ok value, (set now key value ttl self).2).
Proof.
  intros Httl. apply mem_get_no_expiry.
  rewrite (mem_set_store_no_ttl now key value ttl self Httl).
  apply lookup_insert_eq.
Qed.

Lemma in_memory_no_ttl_persists_witness :
  (Some 0 = None \/ Some 0 = Some 0)
  /\ get 1000000 "k" (set 0 "k" (PStr "v") (Some 0) init).2
     = (Ok (PStr "v"), (set 0 "k" (PStr "v") (Some 0) init).2).
Proof.
  assert (H : Some 0 = None \/ Some 0 = Some 0) by now right.
  split; [exact H |].
  exact (in_memory_no_ttl_persists 0 1000000 "k" (PStr "v") (Some 0) init H).
Defined.

(** X2.  A negative TTL stores an entry that has already expired: a [get]
    at the instant of the [set], or at any later one, returns [None] and
    removes the entry. *)
Theorem in_memory_negative_ttl_born_expired (now t : Q) (key : string)
  (value : pyval) (ttl : Z) (self : InMemoryCache.t) :
  ttl < 0 -> (now <= t)%Q ->
  (get t key (set now key value (Some ttl) self).2).1 = Ok PNone
  /\ store (get t key (set now key value (Some ttl) self).2).2
     = base.delete key (store self).
Proof.
  intros Hneg Ht.
  assert (Hs : store (set now key value (Some ttl) self).2
               = <[key := (value, Some (now + inject_Z ttl)%Q)]> (store self)).
  { apply mem_set_store. lia. }
  assert (He : (now + inject_Z ttl <= t)%Q).
  { assert (inject_Z ttl < 0)%Q by (unfold Qlt, inject_Z; simpl; lia). lra. }
  rewrite (mem_get_expired t (now + inject_Z ttl)%Q key value
             (set now key value (Some ttl) self).2);
    [| rewrite Hs; apply lookup_insert_eq | exact He].
  cbn [fst snd store]. split; [reflexivity |].
  rewrite Hs. apply delete_insert_eq.
Qed.

Lemma in_memory_negative_ttl_born_expired_witness :
  (- 5 < 0 /\ (7 <= 7)%Q)
  /\ (get 7 "k" (set 7 "k" (PInt 1) (Some (- 5)) init).2).1 = Ok PNone.
Proof.
  assert (H1 : - 5 < 0) by lia.
  assert (H2 : (7 <= 7)%Q) by (vm_compute; discriminate).
  split; [exact (conj H1 H2) |].
  exact (proj1 (in_memory_negative_ttl_born_expired 7 7 "k" (PInt 1) (- 5)
                  init H1 H2)).
Defined.

(** X3.  Keys are independent: what [get] returns for a key is not
    changed by a [set], a [delete] or a [get] of another key. *)
Theorem in_memory_keys_independent (now t t' : Q) (key k : string)
  (value : pyval) (ttl : option Z) (self : InMemoryCache.t) :
  k <> key ->
  (get t k (set now key value ttl self).2).1 = (get t k self).1
  /\ (get t k (delete key self).2).1 = (get t k self).1
  /\ (get t k (get t' key self).2).1 = (get t k self).1.
Proof.
  intros Hne. split; [| split]; apply mem_get_result_local.
  - unfold set. simpl. apply lookup_insert_ne. congruence.
  - unfold delete. destruct (store self !! key); simpl; [| reflexivity].
    apply lookup_delete_ne. congruence.
  - destruct (mem_get_only_removes t' key k self) as [H | [H _]];
      [exact H | contradiction].
Qed.

Lemma in_memory_keys_independent_witness :
  "a" <> "b"
  /\ (get 0 "a" (set 0 "b" (PInt 2) None (set 0 "a" (PInt 1) None init).2).2).1
     = Ok (PInt 1).
Proof.
  assert (H : "a" <> "b") by discriminate.
  split; [exact H |].
  rewrite (proj1 (in_memory_keys_independent 0 0 0 "b" "a" (PInt 2) None
                    (set 0 "a" (PInt 1) None init).2 H)).
  reflexivity.
Defined.

(** X4.  The last write wins: a [set] over an existing entry replaces the
    value and the expiry together, so two [set]s in a row leave the store
    a single [set] of the second would leave. *)
Theorem in_memory_last_write_wins (now1 now2 : Q) (key : string)
  (v1 v2 : pyval) (ttl1 ttl2 : option Z) (self : InMemoryCache.t) :
  set now2 key v2 ttl2 (set now1 key v1 ttl1 self).2
  = set now2 key v2 ttl2 self.
Proof.
  unfold set. simpl. f_equal. f_equal. apply insert_insert_eq.
Qed.

(** X5.  After a [set], [delete] of the same key succeeds and leaves the
    store without the key; from there [get] returns [None] and a second
    [delete] raises [KeyError]. *)
Theorem in_memory_set_then_delete (now t : Q) (key : string) (value : pyval)
  (ttl : option Z) (self : InMemoryCache.t) :
  let deleted := delete key (set now key value ttl self).2 in
  deleted.1 = Ok tt
  /\ store deleted.2 = base.delete key (store self)
  /\ get t key deleted.2 = (Ok PNone, deleted.2)
  /\ delete key deleted.2 = (Raise (KeyError key), deleted.2).
Proof.
  intros deleted.
  assert (Hdel : deleted
                 = (Ok tt, {| store := base.delete key (store self) |})).
  { subst deleted. unfold delete, set. simpl. rewrite lookup_insert_eq.
    now rewrite delete_insert_eq. }
  rewrite Hdel. cbn [fst snd store].
  split; [reflexivity |]. split; [reflexivity |]. split.
  - apply mem_get_absent. apply lookup_delete_eq.
  - apply in_memory_delete_absent. apply lookup_delete_eq.
Qed.

End InMemoryMore.

(** ** [RedisCache]: expiry, degraded mode and independence of keys *)

Section RedisCacheMore.
Context {_serializer : ORJSONSerializer}.
Import RedisCache Notions MoreNotions.

(** What [get] returns is decided by the prefix, by whether the server is
    reachable, by its clock and by the entry under the prefixed key. *)
Lemma redis_get_result_local (k : string) (s1 s2 : RedisCache.t) :
  _prefix s1 = _prefix s2 ->
  Redis.reachable (_client s1) = Redis.reachable (_client s2) ->
  Redis.clock (_client s1) = Redis.clock (_client s2) ->
  Redis.db (_client s1) !! prefixed s2 k = Redis.db (_client s2) !! prefixed s2 k ->
  (get k s1).1 = (get k s2).1.
Proof.
  intros Hp Hr Hc Hdb.
  destruct (String.eqb_spec k "") as [-> | Hk]; [reflexivity |].
  assert (Hpre : prefixed s1 k = prefixed s2 k)
    by (unfold prefixed; now rewrite Hp).
  assert (Hlive : Redis.live (_client s1) (prefixed s1 k)
                  = Redis.live (_client s2) (prefixed s2 k)).
  { unfold Redis.live. now rewrite Hpre, Hdb, Hc. }
  destruct (Redis.reachable (_client s2)) eqn:Hr2.
  - rewrite !redis_get_reachable by assumption. cbn [fst]. now rewrite Hlive.
  - now rewrite !redis_get_unreachable.
Qed.

Lemma same_but_refl (key : string) (s : RedisCache.t) : same_but key s s.
Proof. repeat split. Qed.

Lemma redis_set_same_but (key : string) (value : pyval) (ttl : option Z)
  (self : RedisCache.t) :
  same_but key self (set key value ttl self).2.
Proof.
  unfold set, except_ConnectionError, bind, encode_or_raise, on_client,
    Redis.set.
  destruct (negb (str_truthy key) || negb (truthy value));
    [apply same_but_refl |].
  destruct (encode value) as [payload |]; simpl; [| apply same_but_refl].
  destruct (Redis.reachable (_client self)) eqn:Hr; simpl.
  - destruct ttl as [n |]; [destruct (n <=? 0)%Z |]; simpl;
      repeat split; simpl; try assumption;
      intros k Hk; apply lookup_insert_ne; congruence.
  - repeat split; simpl; assumption.
Qed.

Lemma redis_delete_same_but (key : string) (self : RedisCache.t) :
  same_but key self (delete key self).2.
Proof.
  unfold delete, except_ConnectionError, on_client, Redis.delete.
  destruct (negb (str_truthy key)); [apply same_but_refl |]. simpl.
  destruct (Redis.reachable (_client self)) eqn:Hr; simpl.
  - repeat split; simpl; try assumption.
    intros k Hk. apply lookup_delete_ne. congruence.
  - repeat split; simpl; assumption.
Qed.

Lemma redis_get_same_but (key : string) (self : RedisCache.t) :
  same_but key self (get key self).2.
Proof.
  destruct (redis_get_state key self) as [-> | ->];
    [apply same_but_refl | repeat split].
Qed.

Lemma same_but_get (key k : string) (s1 s2 : RedisCache.t) :
  k <> key -> same_but key s1 s2 -> (get k s2).1 = (get k s1).1.
Proof.
  intros Hne (Hp & Hr & Hc & Hdb).
  apply redis_get_result_local; try assumption.
  apply Hdb. intros Heq. apply Hne. now apply (prefixed_inj s1).
Qed.

Lemma redis_get_unreachable_none (key : string) (self : RedisCache.t) :
  Redis.reachable (_client self) = false -> (get key self).1 = Ok PNone.
Proof.
  intros Hr. destruct (String.eqb_spec key "") as [-> | Hk]; [reflexivity |].
  now rewrite redis_get_unreachable.
Qed.

(** X7.  With the server unreachable, [set] of an encodable value and
    [delete] return normally, the stored data is left as it is, and a
    [get] afterwards returns [None]. *)
Theorem redis_cache_unreachable_is_swallowed (key : string) (value : pyval)
  (ttl : option Z) (self : RedisCache.t) :
  Redis.reachable (_client self) = false -> is_Some (encode value) ->
  (set key value ttl self).1 = Ok tt
  /\ Redis.db (_client (set key value ttl self).2) = Redis.db (_client self)
  /\ (delete key self).1 = Ok tt
  /\ Redis.db (_client (delete key self).2) = Redis.db (_client self)
  /\ (get key (set key value ttl self).2).1 = Ok PNone.
Proof.
  intros Hr [payload He].
  assert (Hset : Redis.db (_client (set key value ttl self).2)
                 = Redis.db (_client self)
                 /\ Redis.reachable (_client (set key value ttl self).2)
                    = false).
  { unfold set, except_ConnectionError, bind, encode_or_raise, on_client,
      Redis.set.
    destruct (negb (str_truthy key) || negb (truthy value)); [now split |].
    rewrite He. simpl. rewrite Hr. simpl. now split. }
  split; [exact (redis_set_encodable_ok key payload value ttl self He
                   (or_intror Hr)) |].
  split; [exact (proj1 Hset) |].
  split; [apply redis_delete_never_raises |].
  split.
  - unfold delete, except_ConnectionError, on_client, Redis.delete.
    destruct (negb (str_truthy key)); [reflexivity |]. simpl.
    now rewrite Hr.
  - apply redis_get_unreachable_none. exact (proj2 Hset).
Qed.

(** X8.  A value the serializer cannot encode makes [set] raise the
    encoder's fault before the server is contacted: no command is issued
    and nothing changes. *)
Theorem redis_cache_set_encode_fault (key : string) (value : pyval)
  (ttl : option Z) (self : RedisCache.t) :
  key <> "" -> truthy value = true -> encode value = None ->
  set key value ttl self = (Raise JSONEncodeError, self).
Proof.
  intros Hk Hv He. apply str_truthy_true in Hk.
  unfold set, except_ConnectionError, bind, encode_or_raise.
  now rewrite Hk, Hv, He.
Qed.

(** X9.  Keys of one cache are independent: what [get] returns for a key
    is not changed by a [set], a [delete] or a [get] of another key. *)
Theorem redis_cache_keys_independent (key k : string) (value : pyval)
  (ttl : option Z) (self : RedisCache.t) :
  k <> key ->
  (get k (set key value ttl self).2).1 = (get k self).1
  /\ (get k (delete key self).2).1 = (get k self).1
  /\ (get k (get key self).2).1 = (get k self).1.
Proof.
  intros Hne. split; [| split]; apply (same_but_get key k self _ Hne).
  - apply redis_set_same_but.
  - apply redis_delete_same_but.
  - apply redis_get_same_but.
Qed.

(** X10.  After [delete(key)] a [get(key)] returns [None], whether or not
    an entry was stored and whether or not the server is reachable. *)
Theorem redis_cache_delete_then_get (key : string) (self : RedisCache.t) :
  (get key (delete key self).2).1 = Ok PNone.
Proof.
  destruct (String.eqb_spec key "") as [-> | Hk]; [reflexivity |].
  destruct (Redis.reachable (_client self)) eqn:Hr.
  - rewrite (redis_delete_reachable key self Hk Hr).
    rewrite redis_get_reachable; [| exact Hk | exact Hr].
    cbn [fst]. unfold Redis.live, prefixed. simpl.
    now rewrite lookup_delete_eq.
  - rewrite (redis_delete_unreachable key self Hk Hr).
    now apply redis_get_unreachable_none.
Qed.

End RedisCacheMore.

Lemma redis_entry_expires_witness :
  ("k" <> "" /\ truthy (PInt 7) = true /\ encode (PInt 7) = Some "7"
   /\ "7" <> "" /\ decode "7" = Some (PInt 7)
   /\ Redis.reachable Samples.redis_up = true /\ 0 < 60)
  /\ (RedisCache.get "k"
        {| RedisCache._client :=
             Redis.tick 59
               (RedisCache._client
                  (RedisCache.set "k" (PInt 7) (Some 60)
                     (RedisCache.init Samples.redis_up (Some "app"))).2);
           RedisCache._prefix := Some "app" |}).1
     = Ok (PInt 7)
  /\ (RedisCache.get "k"
        {| RedisCache._client :=
             Redis.tick 60
               (RedisCache._client
                  (RedisCache.set "k" (PInt 7) (Some 60)
                     (RedisCache.init Samples.redis_up (Some "app"))).2);
           RedisCache._prefix := Some "app" |}).1
     = Ok PNone.
Proof.
  assert (Hk : "k" <> "") by discriminate.
  assert (Hp : "7" <> "") by discriminate.
  assert (Hn : 0 < 60) by lia.
  split; [repeat split; solve [assumption | vm_compute; reflexivity] |].
  split.
  - apply (proj1 (redis_entry_expires "k" "7" (PInt 7) 60 59
                    (RedisCache.init Samples.redis_up (Some "app"))
                    Hk ltac:(vm_compute; reflexivity) ltac:(vm_compute; reflexivity) Hp ltac:(vm_compute; reflexivity) ltac:(vm_compute; reflexivity) Hn)).
    vm_compute. reflexivity.
  - apply (proj2 (redis_entry_expires "k" "7" (PInt 7) 60 60
                    (RedisCache.init Samples.redis_up (Some "app"))
                    Hk ltac:(vm_compute; reflexivity) ltac:(vm_compute; reflexivity) Hp ltac:(vm_compute; reflexivity) ltac:(vm_compute; reflexivity) Hn)).
    vm_compute. discriminate.
Defined.

Lemma redis_cache_unreachable_is_swallowed_witness :
  (Redis.reachable Samples.redis_down = false /\ is_Some (encode (PInt 7)))
  /\ (RedisCache.set "k" (PInt 7) None
        (RedisCache.init Samples.redis_down (Some "app"))).1 = Ok tt
  /\ (RedisCache.delete "k"
        (RedisCache.init Samples.redis_down (Some "app"))).1 = Ok tt.
Proof.
  assert (He : is_Some (encode (PInt 7))) by (eexists; vm_compute; reflexivity).
  split; [split; [reflexivity | exact He] |].
  destruct (redis_cache_unreachable_is_swallowed "k" (PInt 7) None
              (RedisCache.init Samples.redis_down (Some "app")) ltac:(vm_compute; reflexivity) He)
    as (Hset & _ & Hdel & _).
  split; [exact Hset | exact Hdel].
Defined.

Lemma redis_cache_set_encode_fault_witness :
  ("k" <> "" /\ truthy (PInt (2 ^ 70)) = true
   /\ encode (PInt (2 ^ 70)) = None)
  /\ RedisCache.set "k" (PInt (2 ^ 70)) None
       (RedisCache.init Samples.redis_up (Some "app"))
     = (Raise JSONEncodeError, RedisCache.init Samples.redis_up (Some "app")).
Proof.
  assert (Hk : "k" <> "") by discriminate.
  split; [repeat split; solve [exact Hk | vm_compute; reflexivity] |].
  exact (redis_cache_set_encode_fault "k" (PInt (2 ^ 70)) None
           (RedisCache.init Samples.redis_up (Some "app"))
           Hk ltac:(vm_compute; reflexivity) ltac:(vm_compute; reflexivity)).
Defined.

Lemma redis_cache_keys_independent_witness :
  "a" <> "b"
  /\ (RedisCache.get "a"
        (RedisCache.set "b" (PInt 2) None
           (RedisCache.set "a" (PInt 1) None
              (RedisCache.init Samples.redis_up (Some "app"))).2).2).1
     = Ok (PInt 1).
Proof.
  assert (H : "a" <> "b") by discriminate.
  split; [exact H |].
  rewrite (proj1 (redis_cache_keys_independent "b" "a" (PInt 2) None
                    (RedisCache.set "a" (PInt 1) None
                       (RedisCache.init Samples.redis_up (Some "app"))).2 H)).
  vm_compute. reflexivity.
Defined.

(** ** The memoizing decorator: hits, shared keys and degraded modes *)

Section MemoizerMore.
Context {_serializer : ORJSONSerializer} {_fingerprint : Caching.Fingerprint}.
Import Caching Notions.

Lemma wrapper_get_raises {U} (o : Options U) (f : Func U) (now now' : Q)
  (args : list pyval) (kwargs : list (string * pyval)) (w : World U)
  (e : exn) (c1 : Cache) :
  cache_get now (make_key o f args kwargs) (the_cache w) = (Raise e, c1) ->
  wrapper o f now now' args kwargs w
  = (Raise e, {| the_cache := c1; env := env w; calls := calls w |}).
Proof.
  intros Hget. unfold wrapper, bind, on_cache. now rewrite Hget.
Qed.

(** X11.  On a hit the wrapper returns the stored value without invoking
    the wrapped computation: the invocation count and the environment of
    the computation are as before and nothing is written to the cache. *)
Theorem memoizer_hit_skips_computation {U} (o : Options U) (f : Func U)
  (now now' : Q) (args : list pyval) (kwargs : list (string * pyval))
  (w : World U) (v : pyval) (c1 : Cache) :
  cache_get now (make_key o f args kwargs) (the_cache w) = (Ok v, c1) ->
  v <> PNone ->
  let out := wrapper o f now now' args kwargs w in
  out.1 = Ok v
  /\ calls out.2 = calls w
  /\ env out.2 = env w
  /\ unwritten (the_cache w) (the_cache out.2).
Proof.
  intros Hget Hv out. subst out.
  rewrite (wrapper_hit o f now now' args kwargs w v c1 Hget Hv).
  cbn [fst snd the_cache env calls]. repeat (split; [reflexivity |]).
  pose proof (cache_get_unwritten now (make_key o f args kwargs)
                (the_cache w)) as H.
  now rewrite Hget in H.
Qed.

Lemma make_key_fixed {U} (o : Options U) (f : Func U) (k : string)
  (args args2 : list pyval) (kwargs kwargs2 : list (string * pyval)) :
  cache_key o = Some k -> k <> "" ->
  make_key o f args2 kwargs2 = make_key o f args kwargs.
Proof.
  intros Hck Hk. apply str_truthy_true in Hk.
  unfold make_key. now rewrite Hck, Hk.
Qed.

(** X12.  With an explicit [cache_key] the arguments play no part in the
    key: once a call has stored its result, a call with any other
    arguments is answered with that same result and the computation is
    not invoked for them. *)
Theorem memoizer_fixed_key_ignores_arguments {U} (o : Options U)
  (f : Func U) (now now' now2 now2' : Q) (k : string) (args args2 : list pyval)
  (kwargs kwargs2 : list (string * pyval)) (w : World U) (c1 : Cache)
  (v : pyval) (u1 : U) :
  cache_key o = Some k -> k <> "" ->
  cache_get now (make_key o f args kwargs) (the_cache w) = (Ok PNone, c1) ->
  body f args kwargs (env w) = (Ok v, u1) ->
  retained c1 (make_key o f args kwargs) v (ttl o) now' now2 ->
  let first := wrapper o f now now' args kwargs w in
  let other := wrapper o f now2 now2' args2 kwargs2 first.2 in
  other.1 = Ok v /\ calls other.2 = S (calls w) /\ env other.2 = u1.
Proof.
  intros Hck Hk Hmiss Hbody Hret first other.
  destruct (retained_round_trip _ _ _ _ _ _ Hret) as (c2 & c3 & Hset & Hget).
  assert (Hv : v <> PNone) by (destruct c1; simpl in Hret; tauto).
  assert (Hfirst : first = (Ok v, {| the_cache := c2; env := u1;
                                     calls := S (calls w) |})).
  { subst first. rewrite (wrapper_miss o f now now' args kwargs w c1 Hmiss).
    now rewrite Hbody, Hset. }
  subst other. rewrite Hfirst. cbn [snd].
  rewrite <- (make_key_fixed o f k args args2 kwargs kwargs2 Hck Hk) in Hget.
  rewrite (wrapper_hit o f now2 now2' args2 kwargs2
             {| the_cache := c2; env := u1; calls := S (calls w) |}
             v c3 Hget Hv).
  repeat split.
Qed.

(** X13.  On a remote backend that cannot be reached the wrapper degrades
    to the computation itself: every call misses, invokes the computation
    and returns its result, provided the result can be encoded; the
    stored data is left as it is. *)
Theorem memoizer_unreachable_backend_recomputes {U} (o : Options U)
  (f : Func U) (now now' : Q) (args : list pyval)
  (kwargs : list (string * pyval)) (w : World U) (r : RedisCache.t)
  (v : pyval) (u1 : U) :
  the_cache w = Remote r ->
  Redis.reachable (RedisCache._client r) = false ->
  body f args kwargs (env w) = (Ok v, u1) -> is_Some (encode v) ->
  let out := wrapper o f now now' args kwargs w in
  out.1 = Ok v /\ calls out.2 = S (calls w) /\ env out.2 = u1
  /\ exists r' : RedisCache.t,
       the_cache out.2 = Remote r'
       /\ Redis.reachable (RedisCache._client r') = false
       /\ Redis.db (RedisCache._client r') = Redis.db (RedisCache._client r).
Proof.
  intros Hc Hr Hbody [payload He] out.
  set (key := make_key o f args kwargs) in *.
  assert (Hget : exists r1,
             RedisCache.get key r = (Ok PNone, r1)
             /\ Redis.reachable (RedisCache._client r1) = false
             /\ Redis.db (RedisCache._client r1)
                = Redis.db (RedisCache._client r)).
  { destruct (String.eqb_spec key "") as [Hk | Hk].
    - rewrite Hk. exists r. now repeat split.
    - rewrite (redis_get_unreachable key r Hk Hr).
      eexists. split; [reflexivity |]. now split. }
  destruct Hget as (r1 & Hget & Hr1 & Hdb1).
  assert (Hset : exists r2,
             RedisCache.set key v (ttl o) r1 = (Ok tt, r2)
             /\ Redis.reachable (RedisCache._client r2) = false
             /\ Redis.db (RedisCache._client r2)
                = Redis.db (RedisCache._client r1)).
  { unfold RedisCache.set, except_ConnectionError, bind, encode_or_raise,
      RedisCache.on_client, Redis.set.
    destruct (negb (str_truthy key) || negb (truthy v));
      [exists r1; now repeat split |].
    rewrite He. simpl. rewrite Hr1. simpl.
    eexists. split; [reflexivity |]. now split. }
  destruct Hset as (r2 & Hset & Hr2 & Hdb2).
  subst out.
  rewrite (wrapper_miss o f now now' args kwargs w (Remote r1)).
  - rewrite Hbody. fold key. unfold cache_set. rewrite Hset.
    cbn [fst snd the_cache env calls]. repeat (split; [reflexivity |]).
    exists r2. split; [reflexivity |]. split; [exact Hr2 | congruence].
  - rewrite Hc. fold key. unfold cache_get. now rewrite Hget.
Qed.

(** X14.  A stored payload that does not decode makes the wrapper raise
    the decode fault, without invoking the wrapped computation. *)
Theorem memoizer_corrupt_entry_raises {U} (o : Options U) (f : Func U)
  (now now' : Q) (args : list pyval) (kwargs : list (string * pyval))
  (w : World U) (r : RedisCache.t) (payload : string) :
  the_cache w = Remote r ->
  make_key o f args kwargs <> "" ->
  Redis.reachable (RedisCache._client r) = true ->
  Redis.live (RedisCache._client r)
    (RedisCache.prefixed r (make_key o f args kwargs)) = Some payload ->
  payload <> "" -> decode payload = None ->
  let out := wrapper o f now now' args kwargs w in
  out.1 = Raise JSONDecodeError
  /\ calls out.2 = calls w /\ env out.2 = env w.
Proof.
  intros Hc Hk Hr Hlive Hp Hd out. subst out.
  apply str_truthy_true in Hp.
  erewrite wrapper_get_raises.
  - repeat split.
  - rewrite Hc. unfold cache_get.
    rewrite (redis_get_reachable _ r Hk Hr). rewrite Hlive, Hp, Hd.
    reflexivity.
Qed.

End MemoizerMore.

Lemma memoizer_hit_skips_computation_witness :
  (Caching.cache_get 1%Q
     (Caching.make_key Samples.by_arguments Samples.twice [PInt 3] [])
     (Caching.the_cache MoreSamples.warm_world)
   = (Ok (PInt 6), Caching.the_cache MoreSamples.warm_world)
   /\ PInt 6 <> PNone)
  /\ (Caching.wrapper Samples.by_arguments Samples.twice 1%Q 1%Q [PInt 3] []
        MoreSamples.warm_world).1 = Ok (PInt 6)
  /\ Caching.calls
       (Caching.wrapper Samples.by_arguments Samples.twice 1%Q 1%Q [PInt 3] []
          MoreSamples.warm_world).2 = 1%nat.
Proof.
  assert (H1 : Caching.cache_get 1%Q
                 (Caching.make_key Samples.by_arguments Samples.twice
                    [PInt 3] [])
                 (Caching.the_cache MoreSamples.warm_world)
               = (Ok (PInt 6), Caching.the_cache MoreSamples.warm_world))
    by (vm_compute; reflexivity).
  assert (H2 : PInt 6 <> PNone) by discriminate.
  split; [exact (conj H1 H2) |].
  destruct (memoizer_hit_skips_computation Samples.by_arguments Samples.twice
              1%Q 1%Q [PInt 3] [] MoreSamples.warm_world _ _ H1 H2)
    as (Hres & Hcalls & _).
  split; [exact Hres | exact Hcalls].
Defined.

Lemma memoizer_fixed_key_ignores_arguments_witness :
  (Caching.cache_key Samples.fixed_key = Some "fixed" /\ "fixed" <> ""
   /\ Caching.body Samples.twice [PInt 3] []
        (Caching.env Samples.local_world) = (Ok (PInt 6), 1%nat))
  /\ (Caching.wrapper Samples.fixed_key Samples.twice 1%Q 1%Q [PInt 4] []
        (Caching.wrapper Samples.fixed_key Samples.twice 0%Q 0%Q [PInt 3] []
           Samples.local_world).2).1
     = Ok (PInt 6)
  /\ Caching.calls
       (Caching.wrapper Samples.fixed_key Samples.twice 1%Q 1%Q [PInt 4] []
          (Caching.wrapper Samples.fixed_key Samples.twice 0%Q 0%Q [PInt 3] []
             Samples.local_world).2).2
     = 1%nat.
Proof.
  assert (Hk : "fixed" <> "") by discriminate.
  assert (Hret : Notions.retained (Caching.the_cache Samples.local_world)
                   (Caching.make_key Samples.fixed_key Samples.twice
                      [PInt 3] [])
                   (PInt 6) (Caching.ttl Samples.fixed_key) 0%Q 1%Q).
  { split; [discriminate |]. right. reflexivity. }
  split; [repeat split; exact Hk |].
  destruct (memoizer_fixed_key_ignores_arguments Samples.fixed_key
              Samples.twice 0%Q 0%Q 1%Q 1%Q "fixed" [PInt 3] [PInt 4] [] []
              Samples.local_world (Caching.the_cache Samples.local_world)
              (PInt 6) 1%nat eq_refl Hk ltac:(reflexivity)
              ltac:(reflexivity) Hret)
    as (Hres & Hcalls & _).
  split; [exact Hres | exact Hcalls].
Defined.

Lemma memoizer_unreachable_backend_recomputes_witness :
  (Redis.reachable Samples.redis_down = false
   /\ Caching.body Samples.twice [PInt 3] [] O = (Ok (PInt 6), 1%nat)
   /\ is_Some (encode (PInt 6)))
  /\ (Caching.wrapper Samples.by_arguments Samples.twice 0%Q 0%Q [PInt 3] []
        MoreSamples.down_world).1 = Ok (PInt 6)
  /\ Caching.calls
       (Caching.wrapper Samples.by_arguments Samples.twice 0%Q 0%Q [PInt 3] []
          MoreSamples.down_world).2 = 1%nat.
Proof.
  assert (He : is_Some (encode (PInt 6)))
    by (eexists; vm_compute; reflexivity).
  split; [repeat split; exact He |].
  destruct (memoizer_unreachable_backend_recomputes Samples.by_arguments
              Samples.twice 0%Q 0%Q [PInt 3] [] MoreSamples.down_world
              (RedisCache.init Samples.redis_down (Some "app"))
              (PInt 6) 1%nat eq_refl eq_refl eq_refl He)
    as (Hres & Hcalls & _).
  split; [exact Hres | exact Hcalls].
Defined.

Lemma memoizer_corrupt_entry_raises_witness :
  (Redis.live Samples.redis_garbled "app:k" = Some "{"
   /\ decode "{" = None)
  /\ (Caching.wrapper MoreSamples.key_k Samples.twice 0%Q 0%Q [PInt 3] []
        MoreSamples.garbled_world).1 = Raise JSONDecodeError
  /\ Caching.calls
       (Caching.wrapper MoreSamples.key_k Samples.twice 0%Q 0%Q [PInt 3] []
          MoreSamples.garbled_world).2 = O.
Proof.
  split; [split; reflexivity |].
  destruct (memoizer_corrupt_entry_raises MoreSamples.key_k Samples.twice
              0%Q 0%Q [PInt 3] [] MoreSamples.garbled_world
              (RedisCache.init Samples.redis_garbled (Some "app")) "{"
              eq_refl ltac:(discriminate) eq_refl ltac:(reflexivity)
              ltac:(discriminate) ltac:(reflexivity))
    as (Hres & Hcalls & _).
  split; [exact Hres | exact Hcalls].
Defined.

(** ** The session middleware: whole requests *)

Section SessionMore.
Context {_serializer : ORJSONSerializer}.
Import SessionMiddleware Notions MoreNotions.

Lemma redis_get_hit (key payload : string) (d : pyval) (self : RedisCache.t) :
  key <> "" -> Redis.reachable (RedisCache._client self) = true ->
  Redis.live (RedisCache._client self) (RedisCache.prefixed self key)
  = Some payload ->
  payload <> "" -> decode payload = Some d ->
  RedisCache.get key self
  = (Ok d, sent_to (Redis.GET (RedisCache.prefixed self key)) self).
Proof.
  intros Hk Hr Hlive Hp Hd. apply str_truthy_true in Hp.
  rewrite redis_get_reachable by assumption. now rewrite Hlive, Hp, Hd.
Qed.

(** What a reachable [set] leaves is live at once when the expiry is
    absent or positive. *)
Lemma redis_set_then_live (key payload : string) (value : pyval)
  (ttl : option Z) (self : RedisCache.t) :
  key <> "" -> truthy value = true -> encode value = Some payload ->
  Redis.reachable (RedisCache._client self) = true ->
  match ttl with Some n => 0 < n | None => True end ->
  let self' := (RedisCache.set key value ttl self).2 in
  RedisCache._prefix self' = RedisCache._prefix self
  /\ Redis.reachable (RedisCache._client self') = true
  /\ Redis.live (RedisCache._client self') (RedisCache.prefixed self key)
     = Some payload.
Proof.
  intros Hk Hv He Hr Httl self'. subst self'.
  rewrite (redis_set_reachable key payload value ttl self Hk Hv He Hr Httl).
  cbn [snd RedisCache._prefix RedisCache._client].
  split; [reflexivity |]. split; [exact Hr |].
  unfold Redis.live. simpl. rewrite lookup_insert_eq.
  destruct ttl as [n |]; [| reflexivity].
  assert (Hlive : negb (Qle_bool
                          (Redis.clock (RedisCache._client self) + inject_Z n)
                          (Redis.clock (RedisCache._client self))) = true).
  { apply later_than_true.
    assert (0 < inject_Z n)%Q by (unfold Qlt, inject_Z; simpl; lia). lra. }
  now rewrite Hlive.
Qed.

(** X15.  Session round trip.  A request without the session cookie whose
    handler assigns a non-empty session and starts the response gets the
    cookie with a freshly drawn token, when the store is reachable and the
    mapping survives the serializer.  A later request on the same store
    that presents this token has its application started on a scope whose
    session is that mapping, behind a wrapper that knows the token and
    that the session was not empty. *)
Theorem session_round_trip (self : t) (entropy : nat -> string)
  (app app2 : App) (st st2 : Conn) (data : pyval) (payload : string)
  (message : Message) :
  not_http_or_websocket (type (scope st)) = false ->
  cookies (scope st) !! session_cookie self = None ->
  app (with_session (PDict []) (scope st)) = [SetSession data; Send message] ->
  mtype message = "http.response.start" ->
  truthy data = true -> encode data = Some payload -> payload <> "" ->
  decode payload = Some data ->
  Redis.reachable (RedisCache._client (cache st)) = true ->
  match max_age self with Some n => 0 < n | None => True end ->
  entropy (drawn st) <> "" ->
  let token := entropy (drawn st) in
  let out := call self entropy app st in
  out.1 = Ok tt
  /\ sent out.2
     = (sent st
        ++ [append_set_cookie (persist_header self token) message])%list
  /\ (cache st2 = cache out.2 ->
      not_http_or_websocket (type (scope st2)) = false ->
      cookies (scope st2) !! session_cookie self = Some token ->
      call self entropy app2 st2
      = run_app (send_wrapper self entropy (Some token) false)
          (app2 (with_session data (scope st2)))
          {| cache :=
               sent_to
                 (Redis.GET (RedisCache.prefixed (cache st) token))
                 (cache out.2);
             scope := with_session data (scope st2);
             sent := sent st2; drawn := drawn st2 |}).
Proof.
  intros Hty Hck Happ Hm Hd He Hp Hdec Hr Hage Htok token out.
  assert (Hout : out
                 = (Ok tt,
                    {| cache :=
                         (RedisCache.set token data (max_age self)
                            (cache st)).2;
                       scope := with_session data (scope st);
                       sent :=
                         sent st
                         ++ [append_set_cookie (persist_header self token)
                               message];
                       drawn := S (drawn st) |})).
  { subst out.
    rewrite (call_without_cookie self entropy app st Hty Hck).
    rewrite Happ, run_app_set_then_send. cbn [cache scope sent drawn].
    erewrite (send_wrapper_persist self entropy None true message _ data
                payload Hm); [| reflexivity | exact Hd | exact He
                              | left; exact Hage].
    reflexivity. }
  rewrite Hout. cbn [fst snd sent cache].
  split; [reflexivity |]. split; [reflexivity |].
  intros Hc2 Hty2 Hck2.
  destruct (redis_set_then_live token payload data (max_age self) (cache st)
              Htok Hd He Hr Hage) as (Hpre & Hr' & Hlive).
  assert (Hprefixed : RedisCache.prefixed
                        (RedisCache.set token data (max_age self)
                           (cache st)).2 token
                      = RedisCache.prefixed (cache st) token).
  { unfold RedisCache.prefixed. now rewrite Hpre. }
  rewrite (call_with_cookie self entropy app2 st2 token data
             (sent_to (Redis.GET (RedisCache.prefixed (cache st) token))
                (RedisCache.set token data (max_age self) (cache st)).2)
             Hty2 Hck2).
  - now rewrite Hd.
  - rewrite Hc2. rewrite <- Hprefixed.
    apply (redis_get_hit token payload data); try assumption.
    now rewrite Hprefixed.
Qed.

(** X16.  Messages that do not start an HTTP response go out as they
    are: behind the wrapper, whatever the cookie and the session, a script
    without an [http.response.start] message runs exactly as it would on
    the outer [send], so the store is not touched, no token is drawn and
    no header is added.  This covers body messages and every message of a
    websocket connection. *)
Theorem session_other_messages_untouched (self : t)
  (entropy : nat -> string) (value : option string) (initial_empty : bool)
  (steps : list step) (st : Conn) :
  no_response_start steps ->
  let out := run_app (send_wrapper self entropy value initial_empty) steps st in
  out = run_app send steps st
  /\ out.1 = Ok tt
  /\ cache out.2 = cache st
  /\ drawn out.2 = drawn st
  /\ sent out.2 = (sent st ++ sends steps)%list.
Proof.
  intros Hquiet out.
  assert (Hrun : out = run_app send steps st).
  { subst out. revert st.
    induction Hquiet as [| [v | m] rest Hhead _ IH]; intros st.
    - reflexivity.
    - simpl. unfold bind. destruct (set_session v st) as [[[] | e] s];
        [apply IH | reflexivity].
    - simpl. unfold bind.
      rewrite (send_wrapper_other self entropy value initial_empty m st Hhead).
      destruct (send m st) as [[[] | e] s]; [apply IH | reflexivity]. }
  split; [exact Hrun |]. rewrite Hrun, run_app_send. repeat split.
Qed.

Lemma run_app_idle (self : t) (entropy : nat -> string)
  (value : option string) (steps : list step) (st : Conn) (d : pyval) :
  keeps_session_empty steps ->
  session (scope st) = Some d -> truthy d = false ->
  run_app (send_wrapper self entropy value true) steps st
  = run_app send steps st.
Proof.
  intros Hempty. revert st d.
  induction Hempty as [| [v | m] rest Hhead _ IH]; intros st d Hs Hd.
  - reflexivity.
  - simpl. unfold bind, set_session. apply (IH _ v); [reflexivity | exact Hhead].
  - simpl. unfold bind.
    rewrite (send_wrapper_idle self entropy value m st d Hs Hd).
    unfold send. apply (IH _ d); [exact Hs | exact Hd].
Qed.

(** X17.  No churn.  A request without the session cookie whose handler
    leaves the session empty is served as if the middleware were not
    there: every message, the response start included, goes out as it
    came, the store is not contacted and no token is drawn. *)
Theorem session_empty_to_empty_no_churn (self : t) (entropy : nat -> string)
  (app : App) (st : Conn) :
  not_http_or_websocket (type (scope st)) = false ->
  cookies (scope st) !! session_cookie self = None ->
  keeps_session_empty (app (with_session (PDict []) (scope st))) ->
  let out := call self entropy app st in
  out.1 = Ok tt
  /\ cache out.2 = cache st
  /\ drawn out.2 = drawn st
  /\ sent out.2
     = (sent st ++ sends (app (with_session (PDict []) (scope st))))%list.
Proof.
  intros Hty Hck Hempty out. subst out.
  rewrite (call_without_cookie self entropy app st Hty Hck).
  erewrite (run_app_idle self entropy None _ _ (PDict []) Hempty);
    [| reflexivity | reflexivity].
  rewrite run_app_send. repeat split.
Qed.

Lemma send_wrapper_extends (self : t) (entropy : nat -> string)
  (value : option string) (initial_empty : bool) (m : Message)
  (st st' : Conn) :
  send_wrapper self entropy value initial_empty m st = (Ok tt, st') ->
  exists m' : Message, sent st' = (sent st ++ [m'])%list /\ extends m m'.
Proof.
  unfold send_wrapper.
  destruct (String.eqb (mtype m) "http.response.start").
  - unfold bind, read_session.
    destruct (session (scope st)) as [data |]; [| discriminate].
    destruct (truthy data).
    + destruct (opt_str_truthy value); unfold ret, token_urlsafe, on_store;
        simpl.
      * destruct (RedisCache.set _ data (max_age self) (cache st))
          as [[[] | e] c]; [| discriminate].
        unfold send. simpl. intros [= <-]. simpl.
        eexists. split; [reflexivity |]. split; [reflexivity |].
        right. eexists. reflexivity.
      * destruct (RedisCache.set _ data (max_age self) (cache st))
          as [[[] | e] c]; [| discriminate].
        unfold send. simpl. intros [= <-]. simpl.
        eexists. split; [reflexivity |]. split; [reflexivity |].
        right. eexists. reflexivity.
    + destruct initial_empty; simpl.
      * unfold send. intros [= <-]. simpl.
        exists m. split; [reflexivity |]. split; [reflexivity | now left].
      * unfold delete_value, on_store, ret.
        destruct value as [old |].
        -- destruct (RedisCache.delete old (cache st)) as [[[] | e] c];
             [| discriminate].
           unfold send. simpl. intros [= <-]. simpl.
           eexists. split; [reflexivity |]. split; [reflexivity |].
           right. eexists. reflexivity.
        -- unfold send. simpl. intros [= <-]. simpl.
           eexists. split; [reflexivity |]. split; [reflexivity |].
           right. eexists. reflexivity.
  - unfold send. intros [= <-]. simpl.
    exists m. split; [reflexivity |]. split; [reflexivity | now left].
Qed.

(** X18.  The wrapper neither drops, reorders, duplicates nor rewrites
    messages: when a script runs to its end behind it, the messages handed
    to the outer [send] are those of the script, in order, each with its
    type and headers kept and with at most one [set-cookie] header added
    at the end. *)
Theorem session_only_appends_cookies (self : t) (entropy : nat -> string)
  (value : option string) (initial_empty : bool) (steps : list step)
  (st st' : Conn) :
  run_app (send_wrapper self entropy value initial_empty) steps st
  = (Ok tt, st') ->
  exists out : list Message,
    sent st' = (sent st ++ out)%list /\ Forall2 extends (sends steps) out.
Proof.
  revert st. induction steps as [| [v | m] rest IH]; intros st.
  - simpl. intros [= <-]. exists []. split; [now rewrite app_nil_r | constructor].
  - simpl. unfold bind, set_session. intros Hrun.
    destruct (IH _ Hrun) as (out & Hsent & Hall).
    exists out. split; [exact Hsent | exact Hall].
  - simpl. unfold bind.
    destruct (send_wrapper self entropy value initial_empty m st)
      as [[[] | e] s1] eqn:Hstep; [| discriminate].
    intros Hrun.
    destruct (send_wrapper_extends _ _ _ _ _ _ _ Hstep) as (m' & Hs1 & Hext).
    destruct (IH _ Hrun) as (out & Hsent & Hall).
    exists (m' :: out). split.
    + rewrite Hsent, Hs1. now rewrite <- app_assoc.
    + now constructor.
Qed.

Lemma redis_set_unreachable_db (key : string) (value : pyval)
  (ttl : option Z) (self : RedisCache.t) :
  Redis.reachable (RedisCache._client self) = false ->
  Redis.db (RedisCache._client (RedisCache.set key value ttl self).2)
  = Redis.db (RedisCache._client self).
Proof.
  intros Hr.
  unfold RedisCache.set, except_ConnectionError, bind, encode_or_raise,
    RedisCache.on_client, Redis.set.
  destruct (negb (str_truthy key) || negb (truthy value)); [reflexivity |].
  destruct (encode value); simpl; [| reflexivity].
  now rewrite Hr.
Qed.

(** X19.  When the store cannot be reached at the start of the response,
    a non-empty session is not stored, yet the response still goes out
    with the cookie that carries the token. *)
Theorem session_cookie_sent_though_store_down (self : t)
  (entropy : nat -> string) (value : option string) (initial_empty : bool)
  (message : Message) (st : Conn) (data : pyval) (payload : string) :
  mtype message = "http.response.start" ->
  session (scope st) = Some data -> truthy data = true ->
  encode data = Some payload ->
  Redis.reachable (RedisCache._client (cache st)) = false ->
  let out := send_wrapper self entropy value initial_empty message st in
  out.1 = Ok tt
  /\ sent out.2
     = (sent st
        ++ [append_set_cookie
              (persist_header self (token_of entropy value (drawn st)))
              message])%list
  /\ Redis.db (RedisCache._client (cache out.2))
     = Redis.db (RedisCache._client (cache st)).
Proof.
  intros Hm Hs Hd He Hr out. subst out.
  rewrite (send_wrapper_persist self entropy value initial_empty message st
             data payload Hm Hs Hd He (or_intror Hr)).
  cbn [fst snd sent cache].
  split; [reflexivity |]. split; [reflexivity |].
  now apply redis_set_unreachable_db.
Qed.

(** X20.  A session cookie with an empty value is treated as no token:
    the store is not asked on entry, and when the handler has assigned a
    non-empty session by the start of the response the session is stored
    under a freshly drawn token, which goes out in the cookie; here
    [max_age] is absent or positive, as the store requires of an expiry,
    or the store is out of reach. *)
Theorem session_empty_cookie_value (self : t) (entropy : nat -> string)
  (app : App) (st : Conn) (data : pyval) (payload : string)
  (pre post : list step) (message : Message) :
  not_http_or_websocket (type (scope st)) = false ->
  cookies (scope st) !! session_cookie self = Some "" ->
  app (with_session (PDict []) (scope st))
  = (pre ++ Send message :: post)%list ->
  no_response_start pre -> no_response_start post ->
  mtype message = "http.response.start" ->
  last_session (Some (PDict [])) pre = Some data ->
  truthy data = true -> encode data = Some payload ->
  entropy (drawn st) <> "" ->
  match max_age self with Some n => 0 < n | None => True end
  \/ Redis.reachable (RedisCache._client (cache st)) = false ->
  let out := call self entropy app st in
  out.1 = Ok tt
  /\ drawn out.2 = S (drawn st)
  /\ sent out.2
     = (sent st ++ sends pre
        ++ [append_set_cookie (persist_header self (entropy (drawn st)))
              message]
        ++ sends post)%list
  /\ Redis.log (RedisCache._client (cache out.2))
     = (Redis.log (RedisCache._client (cache st))
        ++ [Redis.SET (RedisCache.prefixed (cache st) (entropy (drawn st)))
              payload (max_age self)])%list.
Proof.
  intros Hty Hck Happ Hpre Hpost Hm Hlast Hd He Htok Hage out. subst out.
  rewrite (call_with_cookie self entropy app st "" PNone (cache st) Hty Hck
             eq_refl).
  cbn [truthy negb]. rewrite Happ.
  rewrite (run_single_response self entropy (Some "") true pre post message
             _ Hpre Hpost).
  cbn [cache scope sent drawn with_session session type cookies].
  rewrite Hlast.
  erewrite (single_response_persist self entropy (Some "") true post message
              _ data payload Hm); [| reflexivity | exact Hd | exact He
                                   | exact Hage].
  cbn [fst snd drawn sent cache opt_str_truthy str_truthy].
  unfold token_of. cbn [opt_str_truthy str_truthy String.eqb negb drawn].
  split; [reflexivity |]. split; [reflexivity |].
  split; [now rewrite <- app_assoc |].
  apply (redis_set_log _ payload data (max_age self) (cache st) Htok Hd He).
Qed.

(** X21.  The token of a live session is kept: a request that presents a
    cookie whose token the store knows, and whose session is not empty at
    the start of the response, whether the handler assigned it or left
    the stored one, has the session stored under that same token and gets
    the same token back; no token is drawn ([max_age] absent or positive,
    as the store requires of an expiry). *)
Theorem session_token_stable_on_hit (self : t) (entropy : nat -> string)
  (app : App) (st : Conn) (old stored payload : string) (before data : pyval)
  (pre post : list step) (message : Message) :
  not_http_or_websocket (type (scope st)) = false ->
  cookies (scope st) !! session_cookie self = Some old -> old <> "" ->
  Redis.reachable (RedisCache._client (cache st)) = true ->
  Redis.live (RedisCache._client (cache st))
    (RedisCache.prefixed (cache st) old) = Some stored ->
  stored <> "" -> decode stored = Some before -> truthy before = true ->
  app (with_session before (scope st)) = (pre ++ Send message :: post)%list ->
  no_response_start pre -> no_response_start post ->
  mtype message = "http.response.start" ->
  last_session (Some before) pre = Some data ->
  truthy data = true -> encode data = Some payload ->
  match max_age self with Some n => 0 < n | None => True end ->
  let out := call self entropy app st in
  out.1 = Ok tt
  /\ drawn out.2 = drawn st
  /\ sent out.2
     = (sent st ++ sends pre
        ++ [append_set_cookie (persist_header self old) message]
        ++ sends post)%list
  /\ Redis.log (RedisCache._client (cache out.2))
     = (Redis.log (RedisCache._client (cache st))
        ++ [Redis.GET (RedisCache.prefixed (cache st) old);
            Redis.SET (RedisCache.prefixed (cache st) old) payload
              (max_age self)])%list
  /\ Redis.db (RedisCache._client (cache out.2))
       !! RedisCache.prefixed (cache st) old
     = Some (payload,
             match max_age self with
             | Some n =>
                 Some (Redis.clock (RedisCache._client (cache st))
                       + inject_Z n)%Q
             | None => None
             end).
Proof.
  intros Hty Hck Hold Hr Hlive Hst Hdec Hb Happ Hpre Hpost Hm Hlast Hd He
    Hage out.
  assert (Htoken : opt_str_truthy (Some old) = true)
    by now apply str_truthy_true.
  subst out.
  rewrite (call_with_cookie self entropy app st old before _ Hty Hck
             (redis_get_hit old stored before (cache st) Hold Hr Hlive Hst
                Hdec)).
  rewrite Hb. cbn [negb]. rewrite Happ.
  rewrite (run_single_response self entropy (Some old) false pre post message
             _ Hpre Hpost).
  cbn [cache scope sent drawn with_session session type cookies].
  rewrite Hlast.
  erewrite (single_response_persist self entropy (Some old) false post
              message _ data payload Hm); [| reflexivity | exact Hd | exact He
                                           | left; exact Hage].
  unfold token_of. rewrite Htoken.
  cbn [default from_option id drawn cache sent fst snd].
  split; [reflexivity |]. split; [reflexivity |].
  split; [now rewrite <- app_assoc |].
  split.
  - rewrite (redis_set_log old payload data (max_age self) _ Hold Hd He).
    simpl. now rewrite <- app_assoc.
  - rewrite (redis_set_reachable old payload data (max_age self)
               (sent_to (Redis.GET (RedisCache.prefixed (cache st) old))
                  (cache st)) Hold Hd He Hr Hage).
    simpl. apply lookup_insert_eq.
Qed.

(** X22.  Session clearing.  A request that presents a cookie whose token
    the store knows, and whose handler empties the session, has the entry
    of that token deleted from the store and gets a cookie that expires at
    the epoch. *)
Theorem session_cleared_end_to_end (self : t) (entropy : nat -> string)
  (app : App) (st : Conn) (old stored : string) (before emptied : pyval)
  (message : Message) :
  not_http_or_websocket (type (scope st)) = false ->
  cookies (scope st) !! session_cookie self = Some old -> old <> "" ->
  Redis.reachable (RedisCache._client (cache st)) = true ->
  Redis.live (RedisCache._client (cache st))
    (RedisCache.prefixed (cache st) old) = Some stored ->
  stored <> "" -> decode stored = Some before -> truthy before = true ->
  app (with_session before (scope st)) = [SetSession emptied; Send message] ->
  mtype message = "http.response.start" ->
  truthy emptied = false ->
  let out := call self entropy app st in
  out.1 = Ok tt
  /\ sent out.2
     = (sent st ++ [append_set_cookie (clear_header self) message])%list
  /\ Redis.db (RedisCache._client (cache out.2))
     = base.delete (RedisCache.prefixed (cache st) old)
         (Redis.db (RedisCache._client (cache st)))
  /\ Redis.log (RedisCache._client (cache out.2))
     = (Redis.log (RedisCache._client (cache st))
        ++ [Redis.GET (RedisCache.prefixed (cache st) old);
            Redis.DEL (RedisCache.prefixed (cache st) old)])%list.
Proof.
  intros Hty Hck Hold Hr Hlive Hst Hdec Hb Happ Hm Hd out. subst out.
  rewrite (call_with_cookie self entropy app st old before _ Hty Hck
             (redis_get_hit old stored before (cache st) Hold Hr Hlive Hst
                Hdec)).
  rewrite Hb. cbn [negb]. rewrite Happ, run_app_set_then_send.
  cbn [cache scope sent drawn].
  erewrite (send_wrapper_clear self entropy (Some old) message _ emptied Hm);
    [| reflexivity | exact Hd].
  cbn [fst snd sent cache].
  split; [reflexivity |]. split; [reflexivity |].
  rewrite redis_delete_reachable; [| exact Hold | exact Hr].
  simpl. split; [reflexivity |]. now rewrite <- app_assoc.
Qed.

End SessionMore.

Lemma session_round_trip_witness :
  (encode Samples.user_session = Some Samples.user_payload
   /\ decode Samples.user_payload = Some Samples.user_session
   /\ Samples.entropy O <> "")
  /\ (SessionMiddleware.call Samples.middleware Samples.entropy
        Samples.login_start_app
        (Samples.connection "http" ∅ Samples.redis_up)).1 = Ok tt
  /\ SessionMiddleware.session
       (SessionMiddleware.scope
          (SessionMiddleware.call Samples.middleware Samples.entropy
             (fun _ => [])
             {| SessionMiddleware.cache :=
                  SessionMiddleware.cache
                    (SessionMiddleware.call Samples.middleware
                       Samples.entropy Samples.login_start_app
                       (Samples.connection "http" ∅ Samples.redis_up)).2;
                SessionMiddleware.scope :=
                  {| SessionMiddleware.type := "http";
                     SessionMiddleware.cookies := {[ "session" := "fresh-0" ]};
                     SessionMiddleware.session := None |};
                SessionMiddleware.sent := [];
                SessionMiddleware.drawn := 1%nat |}).2)
     = Some Samples.user_session.
Proof.
  assert (He : encode Samples.user_session = Some Samples.user_payload)
    by (vm_compute; reflexivity).
  assert (Hd : decode Samples.user_payload = Some Samples.user_session)
    by (vm_compute; reflexivity).
  assert (Ht : Samples.entropy O <> "") by discriminate.
  split; [exact (conj He (conj Hd Ht)) |].
  destruct (session_round_trip Samples.middleware Samples.entropy
              Samples.login_start_app (fun _ => [])
              (Samples.connection "http" ∅ Samples.redis_up)
              {| SessionMiddleware.cache :=
                   SessionMiddleware.cache
                     (SessionMiddleware.call Samples.middleware
                        Samples.entropy Samples.login_start_app
                        (Samples.connection "http" ∅ Samples.redis_up)).2;
                 SessionMiddleware.scope :=
                   {| SessionMiddleware.type := "http";
                      SessionMiddleware.cookies :=
                        {[ "session" := "fresh-0" ]};
                      SessionMiddleware.session := None |};
                 SessionMiddleware.sent := [];
                 SessionMiddleware.drawn := 1%nat |}
              Samples.user_session Samples.user_payload
              Samples.response_start
              ltac:(reflexivity) ltac:(reflexivity) ltac:(reflexivity)
              ltac:(reflexivity) ltac:(reflexivity) He ltac:(discriminate)
              Hd ltac:(reflexivity) ltac:(reflexivity) Ht)
    as (Hres & _ & Hnext).
  split; [exact Hres |].
  rewrite (Hnext ltac:(reflexivity) ltac:(reflexivity) ltac:(reflexivity)).
  reflexivity.
Defined.

Lemma session_other_messages_untouched_witness :
  MoreNotions.no_response_start
    [SessionMiddleware.Send Samples.websocket_accept;
     SessionMiddleware.SetSession Samples.user_session;
     SessionMiddleware.Send Samples.response_body]
  /\ SessionMiddleware.sent
       (SessionMiddleware.run_app
          (SessionMiddleware.send_wrapper Samples.middleware Samples.entropy
             (Some "abc") false)
          [SessionMiddleware.Send Samples.websocket_accept;
           SessionMiddleware.SetSession Samples.user_session;
           SessionMiddleware.Send Samples.response_body]
          (Samples.connection "websocket" {[ "session" := "abc" ]}
             Samples.redis_with_session)).2
     = [Samples.websocket_accept; Samples.response_body].
Proof.
  assert (H : MoreNotions.no_response_start
                [SessionMiddleware.Send Samples.websocket_accept;
                 SessionMiddleware.SetSession Samples.user_session;
                 SessionMiddleware.Send Samples.response_body]).
  { repeat constructor; discriminate. }
  split; [exact H |].
  destruct (session_other_messages_untouched Samples.middleware
              Samples.entropy (Some "abc") false _
              (Samples.connection "websocket" {[ "session" := "abc" ]}
                 Samples.redis_with_session) H)
    as (_ & _ & _ & _ & Hsent).
  exact Hsent.
Defined.

Lemma session_empty_to_empty_no_churn_witness :
  MoreNotions.keeps_session_empty
    (Samples.plain_app
       (SessionMiddleware.with_session (PDict [])
          (SessionMiddleware.scope
             (Samples.connection "http" ∅ Samples.redis_up))))
  /\ SessionMiddleware.sent
       (SessionMiddleware.call Samples.middleware Samples.entropy
          Samples.plain_app
          (Samples.connection "http" ∅ Samples.redis_up)).2
     = [Samples.response_start; Samples.response_body].
Proof.
  assert (H : MoreNotions.keeps_session_empty
                (Samples.plain_app
                   (SessionMiddleware.with_session (PDict [])
                      (SessionMiddleware.scope
                         (Samples.connection "http" ∅ Samples.redis_up))))).
  { repeat constructor. }
  split; [exact H |].
  destruct (session_empty_to_empty_no_churn Samples.middleware
              Samples.entropy Samples.plain_app
              (Samples.connection "http" ∅ Samples.redis_up)
              ltac:(reflexivity) ltac:(reflexivity) H)
    as (_ & _ & _ & Hsent).
  exact Hsent.
Defined.

Lemma session_only_appends_cookies_witness :
  exists out : list SessionMiddleware.Message,
    SessionMiddleware.sent
      (SessionMiddleware.run_app
         (SessionMiddleware.send_wrapper Samples.middleware Samples.entropy
            None true)
         [SessionMiddleware.SetSession Samples.user_session;
          SessionMiddleware.Send Samples.response_start;
          SessionMiddleware.Send Samples.response_body]
         (Samples.connection "http" ∅ Samples.redis_up)).2
    = out
    /\ Forall2 MoreNotions.extends
         [Samples.response_start; Samples.response_body] out.
Proof.
  assert (Hrun : (SessionMiddleware.run_app
                    (SessionMiddleware.send_wrapper Samples.middleware
                       Samples.entropy None true)
                    [SessionMiddleware.SetSession Samples.user_session;
                     SessionMiddleware.Send Samples.response_start;
                     SessionMiddleware.Send Samples.response_body]
                    (Samples.connection "http" ∅ Samples.redis_up))
                 = (Ok tt,
                    (SessionMiddleware.run_app
                       (SessionMiddleware.send_wrapper Samples.middleware
                          Samples.entropy None true)
                       [SessionMiddleware.SetSession Samples.user_session;
                        SessionMiddleware.Send Samples.response_start;
                        SessionMiddleware.Send Samples.response_body]
                       (Samples.connection "http" ∅ Samples.redis_up)).2))
    by (vm_compute; reflexivity).
  destruct (session_only_appends_cookies Samples.middleware Samples.entropy
              None true _ _ _ Hrun)
    as (out & Hsent & Hall).
  exists out. split; [exact Hsent | exact Hall].
Defined.

Lemma session_cookie_sent_though_store_down_witness :
  (Redis.reachable Samples.redis_down = false
   /\ encode Samples.user_session = Some Samples.user_payload)
  /\ (SessionMiddleware.send_wrapper Samples.middleware Samples.entropy None
        true Samples.response_start
        (MoreSamples.in_request_down Samples.user_session)).1 = Ok tt
  /\ Redis.db
       (RedisCache._client
          (SessionMiddleware.cache
             (SessionMiddleware.send_wrapper Samples.middleware
                Samples.entropy None true Samples.response_start
                (MoreSamples.in_request_down Samples.user_session)).2))
     = ∅.
Proof.
  assert (He : encode Samples.user_session = Some Samples.user_payload)
    by (vm_compute; reflexivity).
  split; [split; [reflexivity | exact He] |].
  destruct (session_cookie_sent_though_store_down Samples.middleware
              Samples.entropy None true Samples.response_start
              (MoreSamples.in_request_down Samples.user_session)
              Samples.user_session Samples.user_payload
              ltac:(reflexivity) ltac:(reflexivity) ltac:(reflexivity)
              He ltac:(reflexivity))
    as (Hres & _ & Hdb).
  split; [exact Hres | exact Hdb].
Defined.

Lemma session_empty_cookie_value_witness :
  (({[ "session" := "" ]} : gmap string string) !! "session" = Some ""
   /\ Samples.entropy O <> "")
  /\ (let out :=
        SessionMiddleware.call Samples.middleware Samples.entropy
          Samples.login_app
          (Samples.connection "http" {[ "session" := "" ]} Samples.redis_up)
      in
      SessionMiddleware.drawn out.2 = 1%nat
      /\ SessionMiddleware.sent out.2
         = [SessionMiddleware.append_set_cookie
              (SessionMiddleware.persist_header Samples.middleware "fresh-0")
              Samples.response_start;
            Samples.response_body]
      /\ Redis.log (RedisCache._client (SessionMiddleware.cache out.2))
         = [Redis.SET "session:fresh-0" Samples.user_payload (Some 1209600)]).
Proof.
  assert (Ht : Samples.entropy O <> "") by discriminate.
  split; [split; [reflexivity | exact Ht] |].
  destruct (session_empty_cookie_value Samples.middleware Samples.entropy
              Samples.login_app
              (Samples.connection "http" {[ "session" := "" ]}
                 Samples.redis_up)
              Samples.user_session Samples.user_payload
              [SessionMiddleware.SetSession Samples.user_session]
              [SessionMiddleware.Send Samples.response_body]
              Samples.response_start
              ltac:(reflexivity) ltac:(reflexivity) ltac:(reflexivity)
              ltac:(repeat constructor)
              ltac:(repeat constructor; discriminate)
              ltac:(reflexivity) ltac:(reflexivity) ltac:(reflexivity)
              ltac:(vm_compute; reflexivity) Ht ltac:(left; reflexivity))
    as (_ & Hdrawn & Hsent & Hlog).
  cbv zeta. split; [exact Hdrawn |]. split; [exact Hsent | exact Hlog].
Defined.

Lemma session_token_stable_on_hit_witness :
  (Redis.live Samples.redis_with_session "session:abc"
   = Some Samples.user_payload
   /\ decode Samples.user_payload = Some Samples.user_session)
  /\ (let out :=
        SessionMiddleware.call Samples.middleware Samples.entropy
          Samples.plain_app
          (Samples.connection "http" {[ "session" := "abc" ]}
             Samples.redis_with_session)
      in
      SessionMiddleware.drawn out.2 = O
      /\ SessionMiddleware.sent out.2
         = [SessionMiddleware.append_set_cookie
              (SessionMiddleware.persist_header Samples.middleware "abc")
              Samples.response_start;
            Samples.response_body]
      /\ Redis.log (RedisCache._client (SessionMiddleware.cache out.2))
         = [Redis.GET "session:abc";
            Redis.SET "session:abc" Samples.user_payload (Some 1209600)]).
Proof.
  assert (Hl : Redis.live Samples.redis_with_session "session:abc"
               = Some Samples.user_payload) by (vm_compute; reflexivity).
  assert (Hd : decode Samples.user_payload = Some Samples.user_session)
    by (vm_compute; reflexivity).
  split; [exact (conj Hl Hd) |].
  destruct (session_token_stable_on_hit Samples.middleware Samples.entropy
              Samples.plain_app
              (Samples.connection "http" {[ "session" := "abc" ]}
                 Samples.redis_with_session)
              "abc" Samples.user_payload Samples.user_payload
              Samples.user_session Samples.user_session
              []
              [SessionMiddleware.Send Samples.response_body]
              Samples.response_start
              ltac:(reflexivity) ltac:(reflexivity) ltac:(discriminate)
              ltac:(reflexivity) Hl ltac:(discriminate) Hd
              ltac:(reflexivity) ltac:(reflexivity)
              ltac:(constructor)
              ltac:(repeat constructor; discriminate)
              ltac:(reflexivity) ltac:(reflexivity) ltac:(reflexivity)
              ltac:(vm_compute; reflexivity) ltac:(reflexivity))
    as (_ & Hdrawn & Hsent & Hlog & _).
  cbv zeta. split; [exact Hdrawn |]. split; [exact Hsent | exact Hlog].
Defined.

Lemma session_cleared_end_to_end_witness :
  (Redis.live Samples.redis_with_session "session:abc"
   = Some Samples.user_payload
   /\ decode Samples.user_payload = Some Samples.user_session
   /\ truthy (PDict []) = false)
  /\ Redis.log
       (RedisCache._client
          (SessionMiddleware.cache
             (SessionMiddleware.call Samples.middleware Samples.entropy
                MoreSamples.logout_start_app
                (Samples.connection "http" {[ "session" := "abc" ]}
                   Samples.redis_with_session)).2))
     = [Redis.GET "session:abc"; Redis.DEL "session:abc"].
Proof.
  assert (Hl : Redis.live Samples.redis_with_session "session:abc"
               = Some Samples.user_payload) by (vm_compute; reflexivity).
  assert (Hd : decode Samples.user_payload = Some Samples.user_session)
    by (vm_compute; reflexivity).
  split; [exact (conj Hl (conj Hd eq_refl)) |].
  destruct (session_cleared_end_to_end Samples.middleware Samples.entropy
              MoreSamples.logout_start_app
              (Samples.connection "http" {[ "session" := "abc" ]}
                 Samples.redis_with_session)
              "abc" Samples.user_payload Samples.user_session (PDict [])
              Samples.response_start
              ltac:(reflexivity) ltac:(reflexivity) ltac:(discriminate)
              ltac:(reflexivity) Hl ltac:(discriminate) Hd
              ltac:(reflexivity) ltac:(reflexivity) ltac:(reflexivity)
              ltac:(reflexivity))
    as (_ & _ & _ & Hlog).
  exact Hlog.
Defined.

(** ** [ContentLengthMiddleware] *)

Section ContentLengthFacts.
Context {_builtins : ContentLengthMiddleware.Builtins} {S : Type}.
Import ContentLengthMiddleware WebNotions.

(** X23.  The length check is a gate for POST requests only.  A request
    of any other method is handed on whatever its headers.  A POST request
    is handed on when its first [content-length] header parses to an
    integer not above the limit, the limit itself included.  Otherwise the
    rest of the pipeline is not run and the state is as before: without
    the header the answer is 411, with a header [int] cannot parse the
    [ValueError] of [int] is raised, and with a length above the limit the
    answer is 413, the same whatever the pipeline. *)
Theorem content_length_gate (max_length : Z)
  (call_next : Request -> S -> Py.outcome Response * S) (request : Request)
  (s : S) :
  let out := dispatch max_length call_next request s in
  (method request <> "POST" -> out = call_next request s)
  /\ (method request = "POST" -> admissible max_length request ->
      out = call_next request s)
  /\ (method request = "POST" ->
      (header "content-length" (headers request) = None ->
       out = (Py.Return {| status_code := 411 |}, s))
      /\ (forall text : string,
            header "content-length" (headers request) = Some text ->
            int text = None ->
            out = (Py.Throw Py.ValueError, s))
      /\ (forall (text : string) (n : Z),
            header "content-length" (headers request) = Some text ->
            int text = Some n -> max_length < n ->
            out = (Py.Return {| status_code := 413 |}, s)))
  /\ (method request = "POST" -> ~ admissible max_length request ->
      out.2 = s
      /\ (header "content-length" (headers request) = None
          \/ (exists text : string,
                header "content-length" (headers request) = Some text
                /\ int text = None)
          \/ (exists (text : string) (n : Z),
                header "content-length" (headers request) = Some text
                /\ int text = Some n /\ max_length < n))
      /\ forall other : Request -> S -> Py.outcome Response * S,
           dispatch max_length other request s = out).
Proof.
  intros out. subst out. unfold dispatch. split; [| split; [| split]].
  - intros Hm. destruct (String.eqb_spec (method request) "POST");
      [contradiction | reflexivity].
  - intros Hm (text & n & Hh & Hi & Hn). rewrite Hm, String.eqb_refl.
    rewrite Hh, Hi.
    destruct (Z.gtb_spec n max_length); [lia | reflexivity].
  - intros Hm. rewrite Hm, String.eqb_refl. split; [| split].
    + now intros ->.
    + intros text -> Hi. now rewrite Hi.
    + intros text n -> Hi Hn. rewrite Hi.
      destruct (Z.gtb_spec n max_length); [reflexivity | lia].
  - intros Hm Hno. rewrite Hm, String.eqb_refl.
    destruct (header "content-length" (headers request)) as [text |] eqn:Hh.
    + destruct (int text) as [n |] eqn:Hi.
      * destruct (Z.gtb_spec n max_length) as [Hgt | Hle].
        -- split; [reflexivity |]. split; [| reflexivity].
           right. right. exists text, n. auto.
        -- exfalso. apply Hno. exists text, n. auto.
      * split; [reflexivity |]. split; [| reflexivity].
        right. left. now exists text.
    + split; [reflexivity |]. split; [now left | reflexivity].
Qed.

End ContentLengthFacts.

#[local] Existing Instance WebSamples.builtins.

Lemma content_length_gate_witness :
  (ContentLengthMiddleware.method
     (WebSamples.post [("content-length", "1048576")]) = "POST"
   /\ WebNotions.admissible ContentLengthMiddleware.default_max_length
        (WebSamples.post [("content-length", "1048576")])
   /\ ~ WebNotions.admissible ContentLengthMiddleware.default_max_length
          (WebSamples.post [("content-length", "1048577")])
   /\ ContentLengthMiddleware.int "1048577" = Some 1048577
   /\ ContentLengthMiddleware.int "12 bytes" = None)
  /\ ContentLengthMiddleware.dispatch
       ContentLengthMiddleware.default_max_length WebSamples.counting_app
       (WebSamples.post [("content-length", "1048576")]) O
     = (Py.Return {| ContentLengthMiddleware.status_code := 200 |}, 1%nat)
  /\ ContentLengthMiddleware.dispatch
       ContentLengthMiddleware.default_max_length WebSamples.counting_app
       (WebSamples.post [("content-length", "1048577")]) O
     = (Py.Return {| ContentLengthMiddleware.status_code := 413 |}, O)
  /\ ContentLengthMiddleware.dispatch
       ContentLengthMiddleware.default_max_length WebSamples.counting_app
       (WebSamples.post [("content-type", "text/plain")]) O
     = (Py.Return {| ContentLengthMiddleware.status_code := 411 |}, O)
  /\ ContentLengthMiddleware.dispatch
       ContentLengthMiddleware.default_max_length WebSamples.counting_app
       (WebSamples.post [("content-length", "12 bytes")]) O
     = (Py.Throw Py.ValueError, O)
  /\ (ContentLengthMiddleware.dispatch
        ContentLengthMiddleware.default_max_length WebSamples.counting_app
        (WebSamples.post [("content-length", "1048577")]) O).2 = O.
Proof.
  assert (Hyes : WebNotions.admissible
                   ContentLengthMiddleware.default_max_length
                   (WebSamples.post [("content-length", "1048576")])).
  { exists "1048576", 1048576. repeat split. vm_compute. discriminate. }
  assert (Hno : ~ WebNotions.admissible
                    ContentLengthMiddleware.default_max_length
                    (WebSamples.post [("content-length", "1048577")])).
  { intros (text & n & Hh & Hi & Hn).
    injection Hh as <-. vm_compute in Hi. injection Hi as <-.
    vm_compute in Hn. now apply Hn. }
  assert (Hbig : ContentLengthMiddleware.int "1048577" = Some 1048577)
    by (vm_compute; reflexivity).
  assert (Hbad : ContentLengthMiddleware.int "12 bytes" = None)
    by (vm_compute; reflexivity).
  split; [repeat split; assumption |].
  split; [| split; [| split; [| split]]].
  - exact (proj1 (proj2 (content_length_gate
                           ContentLengthMiddleware.default_max_length
                           WebSamples.counting_app
                           (WebSamples.post [("content-length", "1048576")])
                           O)) eq_refl Hyes).
  - destruct (proj1 (proj2 (proj2 (content_length_gate
                                     ContentLengthMiddleware.default_max_length
                                     WebSamples.counting_app
                                     (WebSamples.post
                                        [("content-length", "1048577")])
                                     O))) eq_refl)
      as (_ & _ & Hlarge).
    apply (Hlarge "1048577" 1048577); [reflexivity | exact Hbig |].
    vm_compute. reflexivity.
  - destruct (proj1 (proj2 (proj2 (content_length_gate
                                     ContentLengthMiddleware.default_max_length
                                     WebSamples.counting_app
                                     (WebSamples.post
                                        [("content-type", "text/plain")])
                                     O))) eq_refl)
      as (Hmissing & _ & _).
    apply Hmissing. reflexivity.
  - destruct (proj1 (proj2 (proj2 (content_length_gate
                                     ContentLengthMiddleware.default_max_length
                                     WebSamples.counting_app
                                     (WebSamples.post
                                        [("content-length", "12 bytes")])
                                     O))) eq_refl)
      as (_ & Hunparsed & _).
    apply (Hunparsed "12 bytes"); [reflexivity | exact Hbad].
  - exact (proj1 (proj2 (proj2 (proj2 (content_length_gate
                                  ContentLengthMiddleware.default_max_length
                                  WebSamples.counting_app
                                  (WebSamples.post
                                     [("content-length", "1048577")])
                                  O))) eq_refl Hno)).
Defined.

(** ** Mappings *)

Section DictFacts.
Import Py.

Lemma dict_get_None (key : string) (d : list (string * pyval)) :
  dict_get key d = None <-> key ∉ d.*1.
Proof.
  induction d as [| [k v] rest IH]; simpl.
  - split; [intros _; apply not_elem_of_nil | reflexivity].
  - rewrite not_elem_of_cons.
    destruct (String.eqb_spec k key) as [-> | Hne].
    + split; [discriminate | intros [H _]; contradiction].
    + rewrite IH. split; [intros H; split; [congruence | exact H] | tauto].
Qed.

Lemma dict_get_set_eq (key : string) (value : pyval)
  (d : list (string * pyval)) :
  dict_get key (dict_set key value d) = Some value.
Proof.
  induction d as [| [k v] rest IH]; simpl.
  - now rewrite String.eqb_refl.
  - destruct (String.eqb k key) eqn:E; simpl; rewrite E; [reflexivity | exact IH].
Qed.

Lemma dict_get_set_ne (key k' : string) (value : pyval)
  (d : list (string * pyval)) :
  k' <> key -> dict_get k' (dict_set key value d) = dict_get k' d.
Proof.
  intros Hne. induction d as [| [k v] rest IH]; simpl.
  - destruct (String.eqb_spec key k'); [congruence | reflexivity].
  - destruct (String.eqb_spec k key) as [-> | Hk]; simpl.
    + destruct (String.eqb_spec key k'); [congruence | reflexivity].
    + destruct (String.eqb k k'); [reflexivity | exact IH].
Qed.

Lemma dict_set_keys_old (key : string) (value : pyval)
  (d : list (string * pyval)) :
  key ∈ d.*1 -> (dict_set key value d).*1 = d.*1.
Proof.
  induction d as [| [k v] rest IH]; simpl; intros Hin.
  - now apply elem_of_nil in Hin.
  - destruct (String.eqb_spec k key) as [-> | Hk]; simpl; [reflexivity |].
    f_equal. apply IH.
    apply elem_of_cons in Hin as [-> | Hin]; [contradiction | exact Hin].
Qed.

Lemma dict_set_keys_new (key : string) (value : pyval)
  (d : list (string * pyval)) :
  key ∉ d.*1 -> (dict_set key value d).*1 = (d.*1 ++ [key])%list.
Proof.
  induction d as [| [k v] rest IH]; simpl; intros Hout; [reflexivity |].
  apply not_elem_of_cons in Hout as [Hne Hout].
  destruct (String.eqb_spec k key) as [-> | Hk]; [contradiction |].
  simpl. f_equal. now apply IH.
Qed.

Lemma well_formed_set (key : string) (value : pyval)
  (d : list (string * pyval)) :
  well_formed d -> well_formed (dict_set key value d).
Proof.
  unfold well_formed. intros Hd.
  destruct (decide (key ∈ d.*1)) as [Hin | Hout].
  - now rewrite dict_set_keys_old.
  - rewrite dict_set_keys_new by exact Hout.
    apply NoDup_app. split; [exact Hd |]. split.
    + intros x Hx Hx'. apply list_elem_of_singleton in Hx'. now subst.
    + apply NoDup_singleton.
Qed.

Lemma dict_get_pop_eq (key : string) (d : list (string * pyval)) :
  well_formed d -> dict_get key (dict_pop key d) = None.
Proof.
  unfold well_formed. induction d as [| [k v] rest IH]; simpl; intros Hd.
  - reflexivity.
  - apply NoDup_cons in Hd as [Hk Hrest].
    destruct (String.eqb_spec k key) as [-> | Hne]; simpl.
    + now apply dict_get_None.
    + destruct (String.eqb_spec k key); [contradiction | now apply IH].
Qed.

Lemma dict_get_pop_ne (key k' : string) (d : list (string * pyval)) :
  k' <> key -> dict_get k' (dict_pop key d) = dict_get k' d.
Proof.
  intros Hne. induction d as [| [k v] rest IH]; simpl; [reflexivity |].
  destruct (String.eqb_spec k key) as [-> | Hk]; simpl.
  - destruct (String.eqb_spec key k'); [congruence | reflexivity].
  - destruct (String.eqb k k'); [reflexivity | exact IH].
Qed.

End DictFacts.

(** ** [AuthenticationBackend] *)

Section AdminFacts.
Context {W : Type}.
Variable auth_internal_user : string -> string -> W -> Py.outcome pyval * W.
Variable decode_token : pyval -> string -> Py.outcome pyval.
Import AuthenticationBackend Py.

Lemma eq_str_true (s : string) (x : pyval) : eq_str s x = true <-> x = PStr s.
Proof.
  destruct x; simpl; try (split; [discriminate | congruence]).
  destruct (String.eqb_spec s0 s) as [-> | Hne]; split; congruence.
Qed.

Lemma existsb_eq_str (s : string) (items : list pyval) :
  existsb (eq_str s) items = true <-> PStr s ∈ items.
Proof.
  rewrite existsb_exists. split.
  - intros (x & Hin & Hx). apply eq_str_true in Hx. subst x.
    now apply list_elem_of_In.
  - intros Hin. exists (PStr s). split; [now apply list_elem_of_In |].
    now apply eq_str_true.
Qed.

(** X24.  After [logout], [authenticate] answers [False] without looking
    at any token, and the rest of the session is as it was. *)
Theorem admin_logout_then_authenticate (self : t) (st : State W) :
  well_formed (session st) ->
  (logout st).1 = Return true
  /\ authenticate decode_token self (logout st).2
     = (Return false, (logout st).2)
  /\ forall k : string,
       k <> "access_token" ->
       dict_get k (session (logout st).2) = dict_get k (session st).
Proof.
  intros Hwf. split; [reflexivity |]. split.
  - unfold authenticate, logout. cbn [snd session].
    now rewrite (dict_get_pop_eq "access_token" (session st) Hwf).
  - intros k Hk. unfold logout. cbn [snd session].
    now apply dict_get_pop_ne.
Qed.

(** X25.  [login] raises only when reading the form raises, and then
    with that fault and with nothing changed; the sign-on service is not
    called.  With a form at hand it never raises.  When the form has both
    fields and the sign-on service returns a token, it answers [True] and
    the session holds the token under [access_token], its other entries
    kept; when it answers [False] (a missing field, or any error of the
    service) the session is as it was. *)
Theorem admin_login_stores_token_on_success
  (request_form : outcome (gmap string string)) (st : State W) :
  let out := login auth_internal_user request_form st in
  (forall e : exception, request_form = Throw e -> out = (Throw e, st))
  /\ (forall form : gmap string string,
        request_form = Return form ->
        (exists b : bool, out.1 = Return b)
        /\ (out.1 = Return false -> session out.2 = session st)
        /\ (form !! "username" = None \/ form !! "password" = None ->
            out = (Return false, st))
        /\ (forall (u p : string) (e : exception) (w : W),
              form !! "username" = Some u -> form !! "password" = Some p ->
              auth_internal_user u p (world st) = (Throw e, w) ->
              out = (Return false, {| session := session st; world := w |}))
        /\ (forall (u p : string) (token : pyval) (w : W),
              form !! "username" = Some u -> form !! "password" = Some p ->
              auth_internal_user u p (world st) = (Return token, w) ->
              out.1 = Return true
              /\ world out.2 = w
              /\ dict_get "access_token" (session out.2) = Some token
              /\ (forall k : string,
                    k <> "access_token" ->
                    dict_get k (session out.2) = dict_get k (session st))
              /\ (well_formed (session st) -> well_formed (session out.2)))).
Proof.
  intros out. subst out. split.
  - now intros e ->.
  - intros form ->. unfold login. split; [| split; [| split; [| split]]].
    + destruct (form !! "username") as [u |]; [| now exists false].
      destruct (form !! "password") as [p |]; [| now exists false].
      destruct (auth_internal_user u p (world st)) as [[token | e] w];
        [now exists true | now exists false].
    + destruct (form !! "username") as [u |]; [| reflexivity].
      destruct (form !! "password") as [p |]; [| reflexivity].
      destruct (auth_internal_user u p (world st)) as [[token | e] w];
        [discriminate | reflexivity].
    + intros [-> | Hp]; [reflexivity |].
      rewrite Hp. now destruct (form !! "username").
    + now intros u p e w -> -> ->.
    + intros u p token w -> -> ->. cbn [fst snd session world].
      split; [reflexivity |]. split; [reflexivity |].
      split; [apply dict_get_set_eq |].
      split; [intros k Hk; now apply dict_get_set_ne | apply well_formed_set].
Qed.

(** X26.  With a token that decodes to a mapping, the answer of
    [authenticate] is decided by the [groups] entry of the payload, and
    the lookup of that entry is not guarded: a payload without [groups]
    raises [KeyError] and a null [groups] raises [TypeError]; a list
    answers whether the group is one of its items; a string answers
    whether the group occurs in it as a substring. *)
Theorem admin_authenticate_by_groups (self : t) (st : State W)
  (token : pyval) (d : list (string * pyval)) :
  dict_get "access_token" (session st) = Some token ->
  truthy token = true ->
  decode_token token (public_key self) = Return (PDict d) ->
  let out := authenticate decode_token self st in
  out.2 = st
  /\ (dict_get "groups" d = None -> out.1 = Throw (KeyError "groups"))
  /\ (dict_get "groups" d = Some PNone -> out.1 = Throw TypeError)
  /\ (forall gs : list pyval,
        dict_get "groups" d = Some (PList gs) ->
        (exists b : bool, out.1 = Return b)
        /\ (out.1 = Return true <-> PStr (auth_group self) ∈ gs))
  /\ (forall s : string,
        dict_get "groups" d = Some (PStr s) ->
        out.1 = Return (is_substring (auth_group self) s)).
Proof.
  intros Htok Htruthy Hdec out. subst out.
  unfold authenticate. rewrite Htok, Htruthy, Hdec. cbn [negb getitem].
  split.
  { destruct (dict_get "groups" d); reflexivity. }
  split; [intros ->; reflexivity |].
  split; [intros ->; reflexivity |].
  split.
  - intros gs ->. cbn [fst contains]. split; [eexists; reflexivity |].
    rewrite <- existsb_eq_str.
    destruct (existsb (eq_str (auth_group self)) gs);
      split; congruence.
  - intros s ->. reflexivity.
Qed.

End AdminFacts.

Lemma admin_logout_then_authenticate_witness :
  Py.well_formed [("theme", PStr "dark"); ("access_token", PStr "jwt-root")]
  /\ AuthenticationBackend.authenticate WebSamples.decoder WebSamples.admins
       (AuthenticationBackend.logout
          {| AuthenticationBackend.session :=
               [("theme", PStr "dark"); ("access_token", PStr "jwt-root")];
             AuthenticationBackend.world := O |}).2
     = (Py.Return false,
        {| AuthenticationBackend.session := [("theme", PStr "dark")];
           AuthenticationBackend.world := O |}).
Proof.
  assert (H : Py.well_formed
                [("theme", PStr "dark"); ("access_token", PStr "jwt-root")]).
  { unfold Py.well_formed. apply (bool_decide_unpack _). vm_compute. exact I. }
  split; [exact H |].
  exact (proj1 (proj2 (admin_logout_then_authenticate WebSamples.decoder
                         WebSamples.admins
                         {| AuthenticationBackend.session :=
                              [("theme", PStr "dark");
                               ("access_token", PStr "jwt-root")];
                            AuthenticationBackend.world := O |} H))).
Defined.

Lemma admin_login_stores_token_on_success_witness :
  (WebSamples.root_form !! "username" = Some "root"
   /\ WebSamples.sso "root" "secret" O = (Py.Return (PStr "jwt-root"), 1%nat))
  /\ Py.dict_get "access_token"
       (AuthenticationBackend.session
          (AuthenticationBackend.login WebSamples.sso
             (Py.Return WebSamples.root_form)
             WebSamples.signed_out).2)
     = Some (PStr "jwt-root")
  /\ Py.dict_get "theme"
       (AuthenticationBackend.session
          (AuthenticationBackend.login WebSamples.sso
             (Py.Return WebSamples.root_form)
             WebSamples.signed_out).2)
     = Some (PStr "dark")
  /\ AuthenticationBackend.login WebSamples.sso
       (Py.Throw (Py.Failure "ClientDisconnect")) WebSamples.signed_out
     = (Py.Throw (Py.Failure "ClientDisconnect"), WebSamples.signed_out)
  /\ AuthenticationBackend.login WebSamples.sso (Py.Return ∅)
       WebSamples.signed_out
     = (Py.Return false, WebSamples.signed_out).
Proof.
  split; [split; vm_compute; reflexivity |].
  destruct (proj2 (admin_login_stores_token_on_success WebSamples.sso
                     (Py.Return WebSamples.root_form)
                     WebSamples.signed_out)
              WebSamples.root_form eq_refl)
    as (_ & _ & _ & _ & Hok).
  destruct (Hok "root" "secret" (PStr "jwt-root") 1%nat
              ltac:(vm_compute; reflexivity) ltac:(vm_compute; reflexivity)
              ltac:(reflexivity))
    as (_ & _ & Htoken & Hother & _).
  split; [exact Htoken |].
  split; [rewrite (Hother "theme" ltac:(discriminate)); reflexivity |].
  split.
  - exact (proj1 (admin_login_stores_token_on_success WebSamples.sso
                    (Py.Throw (Py.Failure "ClientDisconnect"))
                    WebSamples.signed_out)
             (Py.Failure "ClientDisconnect") eq_refl).
  - destruct (proj2 (admin_login_stores_token_on_success WebSamples.sso
                       (Py.Return ∅) WebSamples.signed_out)
                ∅ eq_refl)
      as (_ & _ & Hmissing & _).
    apply Hmissing. left. reflexivity.
Defined.

Lemma admin_authenticate_by_groups_witness :
  (Py.dict_get "access_token" [("access_token", PStr "jwt-guest")]
   = Some (PStr "jwt-guest")
   /\ WebSamples.decoder (PStr "jwt-guest") "public-key"
      = Py.Return (PDict [("user_id", PInt 2)]))
  /\ (AuthenticationBackend.authenticate WebSamples.decoder WebSamples.admins
        {| AuthenticationBackend.session :=
             [("access_token", PStr "jwt-guest")];
           AuthenticationBackend.world := O |}).1
     = Py.Throw (Py.KeyError "groups").
Proof.
  split; [split; reflexivity |].
  destruct (admin_authenticate_by_groups WebSamples.decoder WebSamples.admins
              {| AuthenticationBackend.session :=
                   [("access_token", PStr "jwt-guest")];
                 AuthenticationBackend.world := O |}
              (PStr "jwt-guest") [("user_id", PInt 2)]
              ltac:(reflexivity) ltac:(reflexivity) ltac:(reflexivity))
    as (_ & Hmissing & _).
  exact (Hmissing eq_refl).
Defined.

Section AdminSessionFacts.
Context {_serializer : ORJSONSerializer} {W : Type}.
Import Py.

Lemma dict_pop_only_key (key : string) (d : list (string * pyval)) :
  well_formed d -> (forall kv, kv ∈ d -> kv.1 = key) -> dict_pop key d = [].
Proof.
  unfold well_formed. intros Hwf Hall.
  destruct d as [| [k1 v1] [| [k2 v2] rest]]; [reflexivity | |].
  - assert (H1 : k1 = key) by (apply (Hall (k1, v1)); apply elem_of_cons; now left).
    subst k1. simpl. now rewrite String.eqb_refl.
  - assert (H1 : k1 = key) by (apply (Hall (k1, v1)); apply elem_of_cons; now left).
    assert (H2 : k2 = key).
    { apply (Hall (k2, v2)). apply elem_of_cons. right.
      apply elem_of_cons. now left. }
    subst k1 k2. simpl in Hwf. apply NoDup_cons in Hwf as [Hin _].
    exfalso. apply Hin. apply elem_of_cons. now left.
Qed.

(** X27.  Logging out of the admin pages ends the browser session when
    the access token was all the session held: the session mapping is
    empty after [logout], so at the start of the response the middleware
    deletes the entry of the cookie's token from the store and sends the
    cookie that expires at the epoch. *)
Theorem admin_logout_clears_cookie (self : SessionMiddleware.t)
  (entropy : nat -> string) (old : string)
  (message : SessionMiddleware.Message) (conn : SessionMiddleware.Conn)
  (st : AuthenticationBackend.State W) :
  well_formed (AuthenticationBackend.session st) ->
  (forall kv, kv ∈ AuthenticationBackend.session st -> kv.1 = "access_token") ->
  SessionMiddleware.session (SessionMiddleware.scope conn)
  = Some (PDict (AuthenticationBackend.session
                   (AuthenticationBackend.logout st).2)) ->
  SessionMiddleware.mtype message = "http.response.start" -> old <> "" ->
  let out :=
    SessionMiddleware.send_wrapper self entropy (Some old) false message conn
  in
  out.1 = Ok tt
  /\ SessionMiddleware.sent out.2
     = (SessionMiddleware.sent conn
        ++ [SessionMiddleware.append_set_cookie
              (SessionMiddleware.clear_header self) message])%list
  /\ Redis.log (RedisCache._client (SessionMiddleware.cache out.2))
     = (Redis.log (RedisCache._client (SessionMiddleware.cache conn))
        ++ [Redis.DEL
              (RedisCache.prefixed (SessionMiddleware.cache conn) old)])%list.
Proof.
  intros Hwf Hall Hs Hm Hold out. subst out.
  unfold AuthenticationBackend.logout in Hs. cbn [snd AuthenticationBackend.session] in Hs.
  rewrite (dict_pop_only_key "access_token" _ Hwf Hall) in Hs.
  rewrite (send_wrapper_clear self entropy (Some old) message conn (PDict [])
             Hm Hs eq_refl).
  cbn [fst snd SessionMiddleware.sent SessionMiddleware.cache].
  split; [reflexivity |]. split; [reflexivity |].
  destruct (Redis.reachable
              (RedisCache._client (SessionMiddleware.cache conn))) eqn:Hr.
  - now rewrite (redis_delete_reachable old _ Hold Hr).
  - now rewrite (redis_delete_unreachable old _ Hold Hr).
Qed.

End AdminSessionFacts.

Lemma admin_logout_clears_cookie_witness :
  Py.well_formed [("access_token", PStr "jwt-root")]
  /\ Redis.log
       (RedisCache._client
          (SessionMiddleware.cache
             (SessionMiddleware.send_wrapper Samples.middleware
                Samples.entropy (Some "abc") false Samples.response_start
                (Samples.in_request "http" {[ "session" := "abc" ]}
                   Samples.redis_with_session
                   (PDict (AuthenticationBackend.session
                             (AuthenticationBackend.logout
                                {| AuthenticationBackend.session :=
                                     [("access_token", PStr "jwt-root")];
                                   AuthenticationBackend.world := O |}).2)))).2))
     = [Redis.DEL "session:abc"].
Proof.
  assert (H : Py.well_formed [("access_token", PStr "jwt-root")]).
  { unfold Py.well_formed. apply (bool_decide_unpack _). vm_compute. exact I. }
  split; [exact H |].
  refine (proj2 (proj2 (admin_logout_clears_cookie Samples.middleware
                          Samples.entropy "abc" Samples.response_start
                          (Samples.in_request "http" {[ "session" := "abc" ]}
                             Samples.redis_with_session _)
                          {| AuthenticationBackend.session :=
                               [("access_token", PStr "jwt-root")];
                             AuthenticationBackend.world := O |}
                          H _ eq_refl eq_refl _))).
  - intros kv Hkv. apply list_elem_of_singleton in Hkv. now subst kv.
  - discriminate.
Defined.

(** ** [paginated_response] *)

Section PaginationFacts.
Context {T : Type}.
Import Pagination.

(** X28.  The previous link of the page the next link leads to is the
    page one came from: when a page at a non-negative offset has a next
    link, that link names the offset one page further, and the response
    for that offset has a previous link that names the original offset. *)
Theorem pagination_next_then_previous (url : Z -> Z -> string)
  (results results' : list T) (count limit offset : Z) :
  0 <= offset -> offset + limit < count ->
  exists page page' : PaginatedResponse T,
    paginated_response (Some url) results count limit offset = Py.Return page
    /\ paginated_response (Some url) results' count limit (offset + limit)
       = Py.Return page'
    /\ next page = Some (url (offset + limit) limit)
    /\ previous page' = Some (url offset limit).
Proof.
  intros Hoff Hnext. eexists. eexists.
  split; [reflexivity |]. split; [reflexivity |]. simpl.
  assert (Hlt : (offset + limit <? count) = true) by now apply Z.ltb_lt.
  assert (Hprev : (0 <=? offset + limit - limit) = true)
    by (apply Z.leb_le; lia).
  rewrite Hlt, Hprev. split; [reflexivity |].
  now replace (offset + limit - limit) with offset by lia.
Qed.

(** X29.  Which links a page carries.  With a current request, the
    response keeps the count and the results, has a next link exactly when
    items remain past this page, and has a previous link exactly when the
    offset is at least the limit: a page at an offset below the limit has
    none, even when the offset is positive and items precede it.  Without
    a current request the call raises [LookupError]. *)
Theorem pagination_link_presence (url : Z -> Z -> string) (results : list T)
  (count limit offset : Z) :
  paginated_response None results count limit offset = Py.Throw Py.LookupError
  /\ exists page : PaginatedResponse T,
       paginated_response (Some url) results count limit offset
       = Py.Return page
       /\ Pagination.count page = count
       /\ Pagination.results page = results
       /\ (next page = None <-> count <= offset + limit)
       /\ (previous page = None <-> offset < limit).
Proof.
  split; [reflexivity |]. eexists. split; [reflexivity |]. simpl.
  split; [reflexivity |]. split; [reflexivity |]. split.
  - destruct (Z.ltb_spec (offset + limit) count); split;
      solve [discriminate | lia | reflexivity].
  - destruct (Z.leb_spec 0 (offset - limit)); split;
      solve [discriminate | lia | reflexivity].
Qed.

End PaginationFacts.

Lemma pagination_next_then_previous_witness :
  (0 <= 20 /\ 20 + 10 < 35)
  /\ exists page page' : Pagination.PaginatedResponse nat,
       Pagination.paginated_response (Some WebSamples.page_url) [1%nat] 35 10 20
       = Py.Return page
       /\ Pagination.paginated_response (Some WebSamples.page_url) [2%nat] 35
            10 (20 + 10)
          = Py.Return page'
       /\ Pagination.next page = Some (WebSamples.page_url (20 + 10) 10)
       /\ Pagination.previous page' = Some (WebSamples.page_url 20 10).
Proof.
  assert (H1 : 0 <= 20) by lia.
  assert (H2 : 20 + 10 < 35) by lia.
  split; [exact (conj H1 H2) |].
  exact (pagination_next_then_previous WebSamples.page_url [1%nat] [2%nat]
           35 10 20 H1 H2).
Defined.

(** ** [request_validation_error_handler] *)

Section HandlerFacts.
Import Handlers Py WebNotions.

Lemma field_key_nonempty (e : error) :
  loc e <> [] -> exists key : string, field_key e = Return key.
Proof.
  unfold field_key. destruct (loc e) as [| first rest]; [contradiction |].
  intros _. eexists. reflexivity.
Qed.

Lemma collect_spec (errors : list error) (acc : list (string * pyval)) :
  Forall (fun e => loc e <> []) errors ->
  exists fields : list (string * pyval),
    collect errors acc = Return fields
    /\ (well_formed acc -> well_formed fields)
    /\ forall k : string,
         dict_get k fields
         = match last_msg k errors with
           | Some m => Some (PStr m)
           | None => dict_get k acc
           end.
Proof.
  intros Hall. revert acc.
  induction Hall as [| e rest He _ IH]; intros acc.
  - exists acc. repeat split; auto.
  - destruct (field_key_nonempty e He) as (key & Hkey).
    destruct (IH (dict_set key (PStr (msg e)) acc))
      as (fields & Hrun & Hwf & Hget).
    exists fields. simpl. rewrite Hkey. split; [exact Hrun |]. split.
    + intros Hacc. apply Hwf. now apply well_formed_set.
    + intros k. rewrite Hget.
      destruct (last_msg k rest) as [m |]; [reflexivity |].
      destruct (String.eqb_spec key k) as [-> | Hne].
      * apply dict_get_set_eq.
      * apply dict_get_set_ne. congruence.
Qed.

Lemma collect_empty_loc (errors : list error) (acc : list (string * pyval)) :
  Exists (fun e => loc e = []) errors -> collect errors acc = Throw IndexError.
Proof.
  intros Hex. revert acc.
  induction Hex as [e rest He | e rest _ IH]; intros acc; simpl.
  - unfold field_key. now rewrite He.
  - destruct (field_key e) as [key | x] eqn:Hkey; [apply IH |].
    unfold field_key in Hkey. destruct (loc e); [congruence | discriminate].
Qed.

(** X30.  The validation handler lists every field once, with the message
    of the last error reported for it.  When every error has a location,
    the answer is a 422 whose [fields] mapping has pairwise distinct keys
    and holds, under each key, the message of the last error with that
    key and nothing else.  An error with an empty location makes the
    handler raise [IndexError]. *)
Theorem validation_fields_last_error_wins (errors : list error) :
  (Forall (fun e => loc e <> []) errors ->
   exists fields : list (string * pyval),
     request_validation_error_handler errors
     = Return {| content := PDict [("message", PStr "ValidationError");
                                   ("fields", PDict fields)];
                 status_code := 422 |}
     /\ well_formed fields
     /\ forall k : string,
          dict_get k fields = PStr <$> last_msg k errors)
  /\ (Exists (fun e => loc e = []) errors ->
      request_validation_error_handler errors = Throw IndexError).
Proof.
  split.
  - intros Hall.
    destruct (collect_spec errors [] Hall) as (fields & Hrun & Hwf & Hget).
    exists fields. unfold request_validation_error_handler. rewrite Hrun.
    split; [reflexivity |]. split; [apply Hwf; constructor |].
    intros k. rewrite Hget. now destruct (last_msg k errors).
  - intros Hex. unfold request_validation_error_handler.
    now rewrite (collect_empty_loc errors [] Hex).
Qed.

End HandlerFacts.

Lemma validation_fields_last_error_wins_witness :
  Forall (fun e => Handlers.loc e <> []) WebSamples.validation_errors
  /\ Handlers.request_validation_error_handler WebSamples.validation_errors
     = Py.Return
         {| Handlers.content :=
              PDict [("message", PStr "ValidationError");
                     ("fields",
                      PDict [("user.name", PStr "String too short");
                             ("limit", PStr "Input should be a valid integer");
                             ("items.0",
                              PStr "Input should be a valid string")])];
            Handlers.status_code := 422 |}.
Proof.
  assert (H : Forall (fun e => Handlers.loc e <> [])
                WebSamples.validation_errors).
  { repeat constructor; discriminate. }
  split; [exact H |].
  destruct (proj1 (validation_fields_last_error_wins
                     WebSamples.validation_errors) H)
    as (fields & Hrun & _).
  rewrite Hrun. vm_compute in Hrun. injection Hrun as <-. reflexivity.
Defined.
